(** * Pandas-DataFrame-Plotter: a shallow embedding of [dataframe_plotter.py]

    The module under study is a thin layer over pandas and matplotlib.  The
    embedding keeps the Python code's own shape: dynamically typed arguments
    are values of [pyval], exceptions are the [Raise] branch of [result], the
    caller's DataFrame is threaded explicitly where the code writes to it, a
    list that the caller passes in two places is an input of its own, and
    the calls into pandas ([isin], [.loc], [groupby(...).mean()], column
    assignment) are small executable functions that follow the documented
    behaviour of those calls.

    Python floats are read as the rationals they denote ([Q]), and the
    arithmetic on them is exact, where the program rounds to binary64:
    [datetime_to_hour] is used for its range, its order and the equality of
    its results, which rounding preserves, and [mean] to say which values
    are averaged; no property below rests on the digits of a mean. *)

From Stdlib Require Import ZArith QArith String Ascii List Lia Sorted.
From stdpp Require Import base list strings.

Local Open Scope Z_scope.

(** ** Python values and exceptions *)

#[warnings="-register-all"]
Inductive pyval : Type :=
  | PNone
  | PBool (b : bool)
  | PInt (z : Z)
  | PStr (s : string)
  | PList (l : list pyval).

Inductive exn : Type :=
  | IndexError
  | KeyError
  | ValueError
  | TypeError
  | AttributeError
  | ZeroDivisionError.

Inductive result (A : Type) : Type :=
  | Ok (a : A)
  | Raise (e : exn).

Arguments Ok {A} a.
Arguments Raise {A} e.

#[global] Instance result_ret : MRet result := λ A a, Ok a.

#[global] Instance result_bind : MBind result :=
  λ A B f m, match m with Ok a => f a | Raise e => Raise e end.

(** Structural equality of values. *)
Fixpoint pyval_beq (x y : pyval) : bool :=
  match x, y with
  | PNone, PNone => true
  | PBool a, PBool b => Bool.eqb a b
  | PInt a, PInt b => Z.eqb a b
  | PStr a, PStr b => String.eqb a b
  | PList l, PList m =>
      (fix go (l m : list pyval) : bool :=
         match l, m with
         | [], [] => true
         | a :: l', b :: m' => pyval_beq a b && go l' m'
         | _, _ => false
         end) l m
  | _, _ => false
  end.

(** Python's [==] identifies [True] with [1] and [False] with [0], also
    inside lists; [canon] picks the integer as the representative. *)
Fixpoint canon (v : pyval) : pyval :=
  match v with
  | PBool b => PInt (Z.b2z b)
  | PList l => PList (map canon l)
  | _ => v
  end.

(** [x == y] *)
Definition py_eqb (x y : pyval) : bool := pyval_beq (canon x) (canon y).

(** [x in l] for a list [l] *)
Definition py_in (x : pyval) (l : list pyval) : bool := existsb (py_eqb x) l.

(** Truth value of an object, as tested by [if x:]. *)
Definition py_truthy (v : pyval) : bool :=
  match v with
  | PNone => false
  | PBool b => b
  | PInt z => negb (z =? 0)
  | PStr s => negb (String.eqb s "")
  | PList l => match l with [] => false | _ => true end
  end.

(** [type(v) is str] *)
Definition py_is_str (v : pyval) : bool :=
  match v with PStr _ => true | _ => false end.

(** [type(v) == int]; a [bool] has type [bool], not [int]. *)
Definition py_is_int (v : pyval) : bool :=
  match v with PInt _ => true | _ => false end.

(** [len(v)] *)
Definition py_len (v : pyval) : result nat :=
  match v with
  | PStr s => Ok (String.length s)
  | PList l => Ok (length l)
  | _ => Raise TypeError
  end.

(** [v[i]] for a non-negative index. *)
Definition py_getitem (v : pyval) (i : nat) : result pyval :=
  match v with
  | PList l => match l !! i with Some x => Ok x | None => Raise IndexError end
  | PStr s =>
      match String.get i s with
      | Some c => Ok (PStr (String c EmptyString))
      | None => Raise IndexError
      end
  | _ => Raise TypeError
  end.

(** [v[i] = x]: a list is updated in place, out of range raises, a string
    does not support item assignment. *)
Definition py_setitem (v : pyval) (i : nat) (x : pyval) : result pyval :=
  match v with
  | PList l =>
      if decide (i < length l)%nat then Ok (PList (<[i:=x]> l)) else Raise IndexError
  | _ => Raise TypeError
  end.

(** The elements visited by [for x in v]. *)
Definition py_iter (v : pyval) : result (list pyval) :=
  match v with
  | PList l => Ok l
  | PStr s => Ok (map (λ c, PStr (String c EmptyString)) (list_ascii_of_string s))
  | _ => Raise TypeError
  end.

(** [l.remove(x)] on a list: drops the first element equal to [x], raises
    [ValueError] when there is none. *)
Fixpoint list_remove (x : pyval) (l : list pyval) : result (list pyval) :=
  match l with
  | [] => Raise ValueError
  | y :: l' =>
      if py_eqb y x then Ok l'
      else l'' ← list_remove x l'; Ok (y :: l'')
  end.

(** [v.remove(x)]: only lists have the method. *)
Definition py_remove (v : pyval) (x : pyval) : result pyval :=
  match v with
  | PList l => l' ← list_remove x l; Ok (PList l')
  | _ => Raise AttributeError
  end.

(** ** Timestamps *)

Record Timestamp : Type := mkTimestamp {
  year : Z;
  month : Z;
  day : Z;
  hour : Z;
  minute : Z;
  second : Z;
  microsecond : Z;
  nanosecond : Z
}.

#[global] Instance Timestamp_eq_dec : EqDecision Timestamp.
Proof. solve_decision. Defined.

(** The fields of a timestamp are in their calendar ranges. *)
Definition valid_time (t : Timestamp) : Prop :=
  0 <= hour t < 24 ∧ 0 <= minute t < 60 ∧ 0 <= second t < 60 ∧
  0 <= microsecond t < 1000000 ∧ 0 <= nanosecond t < 1000.

(** Number of days from 1970-01-01 to the given civil date (proleptic
    Gregorian calendar). *)
Definition days_from_civil (y m d : Z) : Z :=
  let y' := if m <=? 2 then y - 1 else y in
  let era := y' / 400 in
  let yoe := y' - era * 400 in
  let mp := if m <=? 2 then m + 9 else m - 3 in
  let doy := (153 * mp + 2) / 5 + d - 1 in
  let doe := yoe * 365 + yoe / 4 - yoe / 100 + doy in
  era * 146097 + doe - 719468.

(** pandas' [DatetimeIndex.dayofweek]: Monday is 0 and Sunday is 6
    (1970-01-01 was a Thursday). *)
Definition dayofweek (t : Timestamp) : Z :=
  (days_from_civil (year t) (month t) (day t) + 3) mod 7.

(** Same calendar date. *)
Definition same_date (t1 t2 : Timestamp) : Prop :=
  year t1 = year t2 ∧ month t1 = month t2 ∧ day t1 = day t2.

(** Time of day in nanoseconds; within one date this orders timestamps. *)
Definition time_of_day_ns (t : Timestamp) : Z :=
  ((hour t * 60 + minute t) * 60 + second t) * 1000000000
  + microsecond t * 1000 + nanosecond t.

(** [datetime_to_hour] (source lines 8-11). *)
Definition datetime_to_hour (date_time : Timestamp) : Q :=
  (inject_Z (hour date_time) + inject_Z (minute date_time) / 60
   + inject_Z (second date_time) / 3600
   + inject_Z (microsecond date_time) / (3600 * 1000000))%Q.

(** pandas stores a timestamp as nanoseconds since the epoch and orders
    timestamps by that number. *)
Definition ts_value (t : Timestamp) : Z :=
  days_from_civil (year t) (month t) (day t) * 86400000000000 + time_of_day_ns t.

(** The label of a date at midnight. *)
Definition midnight (y m d : Z) : Timestamp := mkTimestamp y m d 0 0 0 0 0.

(** ** Series and frames *)

(** A pandas Series with a DatetimeIndex: its name and its (label, value)
    pairs in order. *)
Record Series : Type := mkSeries {
  s_name : pyval;
  s_items : list (Timestamp * Q)
}.

(** A pandas DataFrame with a DatetimeIndex: column labels, and the rows in
    order, each with its index label and one cell per column. *)
Record DataFrame : Type := mkDataFrame {
  columns : list pyval;
  rows : list (Timestamp * list Q)
}.

Inductive DfOrSeries : Type :=
  | DF (d : DataFrame)
  | SER (s : Series).

(** [x.index] *)
Definition index_of (x : DfOrSeries) : list Timestamp :=
  match x with
  | DF d => (rows d).*1
  | SER s => (s_items s).*1
  end.

(** Label-based selection with a list of labels: for every requested label,
    in the order requested, all rows that carry it. *)
Definition loc_rows {A : Type} (rs : list (Timestamp * A)) (keys : list Timestamp)
  : list (Timestamp * A) :=
  k ← keys; filter (λ r, r.1 = k) rs.

(** [x.loc[keys]]; every key used below comes from [x.index], so the lookup
    never misses. *)
Definition loc (x : DfOrSeries) (keys : list Timestamp) : DfOrSeries :=
  match x with
  | DF d => DF {| columns := columns d; rows := loc_rows (rows d) keys |}
  | SER s => SER {| s_name := s_name s; s_items := loc_rows (s_items s) keys |}
  end.

(** The rows of [x] whose label satisfies [keep], in their original order. *)
Definition select (keep : Timestamp → bool) (x : DfOrSeries) : DfOrSeries :=
  match x with
  | DF d => DF {| columns := columns d; rows := filter (λ r, keep r.1) (rows d) |}
  | SER s => SER {| s_name := s_name s; s_items := filter (λ r, keep r.1) (s_items s) |}
  end.

(** Number of rows. *)
Definition nrows (x : DfOrSeries) : nat := length (index_of x).

(** ** [filter_days] (source lines 16-44) *)

(** [Series.isin(values)] accepts list-likes only; a string or a scalar is
    rejected with [TypeError]. *)
Definition list_like (values : pyval) : result (list pyval) :=
  match values with
  | PList l => Ok l
  | _ => Raise TypeError
  end.

(** One entry of the mask computed by [isin]. *)
Definition isin (field : Z) (values : list pyval) : bool :=
  py_in (PInt field) values.

(** Lines 28-32. *)
Definition filter_months (months : pyval) (df_temp : list Timestamp)
  : result (list Timestamp) :=
  if py_truthy months then
    let months := if py_is_int months then PList [months] else months in
    values ← list_like months;
    Ok (filter (λ t, isin (month t) values) df_temp)
  else Ok df_temp.

(** Lines 35-40. *)
Definition expand_days_of_week (days_of_week : pyval) : pyval :=
  if py_is_int days_of_week then PList [days_of_week]
  else if py_in days_of_week [PStr "weekday"; PStr "wkday"] then
    PList [PInt 0; PInt 1; PInt 2; PInt 3; PInt 4]
  else if py_in days_of_week [PStr "weekend"; PStr "wkend"] then
    PList [PInt 5; PInt 6]
  else days_of_week.

(** Lines 33-42. *)
Definition filter_dayofweek (days_of_week : pyval) (df_temp : list Timestamp)
  : result (list Timestamp) :=
  if py_truthy days_of_week then
    values ← list_like (expand_days_of_week days_of_week);
    Ok (filter (λ t, isin (dayofweek t) values) df_temp)
  else Ok df_temp.

Definition filter_days (df_or_series : DfOrSeries) (days_of_week months : pyval)
  : result DfOrSeries :=
  let df_temp := index_of df_or_series in
  df_temp ← filter_months months df_temp;
  df_temp ← filter_dayofweek days_of_week df_temp;
  Ok (loc df_or_series df_temp).


(** ** Column assignment and grouping, as the code uses them *)

(** [pd.DataFrame(series)] and [series.to_frame()]: one column, labelled
    with the series' name, or with [0] when the series has none. *)
Definition to_frame (s : Series) : DataFrame :=
  {| columns := [match s_name s with PNone => PInt 0 | n => n end];
     rows := map (λ r, (r.1, [r.2])) (s_items s) |}.

(** [df[name] = values]: an existing column is overwritten where it stands,
    a new one becomes the last column. *)
Definition assign_column (name : pyval) (values : list Q) (d : DataFrame) : DataFrame :=
  if py_in name (columns d) then
    {| columns := columns d;
       rows := zip_with (λ r v,
                 (r.1, zip_with (λ c x, if py_eqb c name then v else x) (columns d) r.2))
               (rows d) values |}
  else
    {| columns := columns d ++ [name];
       rows := zip_with (λ r v, (r.1, r.2 ++ [v])) (rows d) values |}.

(** [np.arange(n)] *)
Definition arange (n : nat) : list Q := map (λ i, inject_Z (Z.of_nat i)) (seq 0 n).

(** Position of the first column labelled [name]. *)
Fixpoint col_index (name : pyval) (cols : list pyval) : option nat :=
  match cols with
  | [] => None
  | c :: cs => if py_eqb c name then Some 0%nat else S <$> col_index name cs
  end.

(** Sorted list of distinct keys: [groupby] sorts the group keys. *)
Fixpoint insert_key (k : Q) (l : list Q) : list Q :=
  match l with
  | [] => [k]
  | x :: l' =>
      match (k ?= x)%Q with
      | Lt => k :: l
      | Eq => l
      | Gt => x :: insert_key k l'
      end
  end.

Definition group_keys (ks : list Q) : list Q := foldr insert_key [] ks.

(** Arithmetic mean, in exact arithmetic: the number that the binary64
    result of [mean()] approximates. *)
Definition mean (vs : list Q) : Q :=
  (foldr Qplus 0 vs / inject_Z (Z.of_nat (length vs)))%Q.

(** The mean of each of the first [width] cells over the given rows. *)
Definition col_means (width : nat) (cells : list (list Q)) : list Q :=
  map (λ j, mean (map (λ r, default 0%Q (r !! j)) cells)) (seq 0 width).

(** [d.groupby(by_col).mean()]: one output row per distinct key in ascending
    order, holding the key and the mean of every other column over the rows
    with that key. *)
Definition groupby_mean (by_col : pyval) (d : DataFrame) : result (list (Q * list Q)) :=
  match col_index by_col (columns d) with
  | None => Raise KeyError
  | Some k =>
      let key (r : Timestamp * list Q) := default 0%Q (r.2 !! k) in
      Ok (map (λ h,
                 (h, col_means (length (columns d) - 1)
                       (map (λ r, delete k r.2)
                          (filter (λ r, Qeq_bool (key r) h) (rows d)))))
              (group_keys (map key (rows d))))
  end.

(** ** [average_day_plotter] (source lines 249-256)

    The result is what is handed to [plot.plot]: [gp.index] paired with the
    rows of [gp.values]. *)
Definition average_day_plotter (series : Series) : result (list (Q * list Q)) :=
  let df := to_frame series in
  let df := assign_column (PStr "hour") (map datetime_to_hour (index_of (SER series))) df in
  groupby_mean (PStr "hour") df.

(** ** [intervals_per_day] (source lines 47-50) *)

(** [x.index[i]] *)
Definition index_getitem (x : DfOrSeries) (i : nat) : result Timestamp :=
  match index_of x !! i with
  | Some t => Ok t
  | None => Raise IndexError
  end.

(** [Timedelta.seconds] of a difference given in nanoseconds: the whole
    seconds of the part of the difference that is left after the whole
    days. *)
Definition timedelta_seconds (ns : Z) : Z :=
  (ns mod 86400000000000) / 1000000000.

(** [int(q)]: truncation towards zero. *)
Definition py_int (q : Q) : Z := Z.quot (Qnum q) (Z.pos (Qden q)).

Definition intervals_per_day (df_or_series : DfOrSeries) : result Z :=
  t1 ← index_getitem df_or_series 1;
  t0 ← index_getitem df_or_series 0;
  let res := ts_value t1 - ts_value t0 in
  if timedelta_seconds res =? 0 then Raise ZeroDivisionError
  else Ok (py_int ((3600 * 24) / inject_Z (timedelta_seconds res))%Q).

(** ** [overlay_days_plotter] (source lines 237-246) *)

(** [t.date()] *)
Definition date_of (t : Timestamp) : Z * Z * Z := (year t, month t, day t).

(** Dates are ordered by year, then month, then day. *)
Definition date_compare (a b : Z * Z * Z) : comparison :=
  match a.1.1 ?= b.1.1 with
  | Eq => match a.1.2 ?= b.1.2 with
          | Eq => a.2 ?= b.2
          | c => c
          end
  | c => c
  end.

Fixpoint insert_date (d : Z * Z * Z) (l : list (Z * Z * Z)) : list (Z * Z * Z) :=
  match l with
  | [] => [d]
  | x :: l' =>
      match date_compare d x with
      | Lt => d :: l
      | Eq => l
      | Gt => x :: insert_date d l'
      end
  end.

(** [np.unique(index.date)]: the distinct dates in ascending order. *)
Definition unique_dates (idx : list Timestamp) : list (Z * Z * Z) :=
  foldr insert_date [] (date_of <$> idx).

(** The index has the resolution of a day when every timestamp is at
    midnight. *)
Definition at_midnight (t : Timestamp) : bool :=
  (hour t =? 0) && (minute t =? 0) && (second t =? 0)
  && (microsecond t =? 0) && (nanosecond t =? 0).

Definition day_resolution (idx : list Timestamp) : bool := forallb at_midnight idx.

(** What [series.loc[key]] returns: a value, or a series of rows. *)
Inductive selection : Type :=
  | Scalar (v : Q)
  | Rows (rs : list (Timestamp * Q)).

(** [series.loc['YYYY-MM-DD']].  pandas reads a date string as a slice (all
    the rows of that date) when the string is less precise than the index,
    and as the exact label (midnight of that date) when the index itself has
    the resolution of a day; an exact label that occurs once selects a
    scalar.  A label that matches nothing raises [KeyError]. *)
Definition loc_date (series : Series) (d : Z * Z * Z) : result selection :=
  if day_resolution (s_items series).*1 then
    match filter (λ r, r.1 = midnight d.1.1 d.1.2 d.2) (s_items series) with
    | [] => Raise KeyError
    | [r] => Ok (Scalar r.2)
    | rs => Ok (Rows rs)
    end
  else
    match filter (λ r, date_of r.1 = d) (s_items series) with
    | [] => Raise KeyError
    | rs => Ok (Rows rs)
    end.

(** [.index] and [.values] of a selection; a scalar has neither. *)
Definition selection_rows (s : selection) : result (list (Timestamp * Q)) :=
  match s with
  | Scalar _ => Raise AttributeError
  | Rows rs => Ok rs
  end.

(** [[f(x) for x in l]], stopping at the first exception. *)
Fixpoint map_result {A B : Type} (f : A → result B) (l : list A) : result (list B) :=
  match l with
  | [] => Ok []
  | x :: l' => y ← f x; ys ← map_result f l'; Ok (y :: ys)
  end.

(** What is drawn: one line per date (x and y values), and the legend entry
    that the extra point (0, 0) carries. *)
Record OverlayPlot : Type := mkOverlayPlot {
  day_lines : list (list Q * list Q);
  legend : option pyval
}.

Definition overlay_days_plotter (series : Series) (label : pyval) : result OverlayPlot :=
  let dates := unique_dates (s_items series).*1 in
  lines ← map_result (λ date,
      sel ← loc_date series date;
      xs ← selection_rows sel;
      sel ← loc_date series date;
      ys ← selection_rows sel;
      Ok (datetime_to_hour <$> xs.*1, ys.*2))
    dates;
  Ok {| day_lines := lines;
        legend := if py_truthy label then Some label else None |}.

(** [overlay_days_plotter] is also handed a DataFrame, when [df[col]]
    selects several columns.  [df.loc['YYYY-MM-DD']] follows the same rule;
    an exact label that occurs once selects that row as a Series, whose
    index holds the column labels: [datetime_to_hour] finds no [hour]
    there. *)
Inductive frame_selection : Type :=
  | OneRow (cells : list Q)
  | FrameRows (rs : list (Timestamp * list Q)).

Definition loc_date_frame (d : DataFrame) (date : Z * Z * Z) : result frame_selection :=
  if day_resolution (rows d).*1 then
    match filter (λ r, r.1 = midnight date.1.1 date.1.2 date.2) (rows d) with
    | [] => Raise KeyError
    | [r] => Ok (OneRow r.2)
    | rs => Ok (FrameRows rs)
    end
  else
    match filter (λ r, date_of r.1 = date) (rows d) with
    | [] => Raise KeyError
    | rs => Ok (FrameRows rs)
    end.

Definition frame_selection_rows (s : frame_selection)
  : result (list (Timestamp * list Q)) :=
  match s with
  | OneRow _ => Raise AttributeError
  | FrameRows rs => Ok rs
  end.

(** Lines 238-241 on a DataFrame: one bundle of lines per date. *)
Definition overlay_days_frame (d : DataFrame) : result (list (list Q * list (list Q))) :=
  let dates := unique_dates (rows d).*1 in
  map_result (λ date,
      sel ← loc_date_frame d date;
      xs ← frame_selection_rows sel;
      sel ← loc_date_frame d date;
      ys ← frame_selection_rows sel;
      Ok (datetime_to_hour <$> xs.*1, ys.*2))
    dates.

(** ** [dataframe_plotter] (source lines 53-234) *)

(** What is drawn in one subplot. *)
Record Subplot : Type := mkSubplot {
  primary_columns : list pyval;
  secondary_columns : list pyval;
  sp_title : pyval;
  primary_label : pyval;
  secondary_label : pyval
}.

Abbreviation PlotPlan := (list Subplot).

(** A [for] loop over [xs] that threads a state and stops at the first
    exception. *)
Fixpoint for_each {S X : Type} (body : S → X → result S) (xs : list X) (s : S) : result S :=
  match xs with
  | [] => Ok s
  | x :: xs' => s' ← body s x; for_each body xs' s'
  end.

(** [l[i]] on a list that is known to be a list. *)
Definition list_getitem (l : list pyval) (i : nat) : result pyval :=
  match l !! i with Some x => Ok x | None => Raise IndexError end.

(** Lines 150-153: what is stored for one entry, and one turn of the loop
    that copies the entries. *)
Definition sparse_entry (list_of_lists : bool) (x : pyval) : pyval :=
  if list_of_lists then PList [x] else x.

Definition sparse_store (string_or_list : pyval) (list_of_lists : bool)
    (sparse_list : list pyval) (i : nat) : result (list pyval) :=
  x ← py_getitem string_or_list i;
  sl ← py_setitem (PList sparse_list) i (sparse_entry list_of_lists x);
  match sl with PList l => Ok l | _ => Raise TypeError end.

(** Lines 145-154. *)
Definition _str_to_sparse_list (string_or_list : pyval) (length : nat)
    (list_of_lists : bool) : result (list pyval) :=
  let sparse_list := replicate length (PStr "") in
  let string_or_list :=
    if py_is_str string_or_list then PList [string_or_list] else string_or_list in
  n ← py_len string_or_list;
  for_each (sparse_store string_or_list list_of_lists) (seq 0 n) sparse_list.

(** Lines 127-130. *)
Definition expand_subplots (df : DataFrame) (subplots : pyval) : pyval :=
  if py_eqb subplots (PBool true) then PList (map (λ col, PList [col]) (columns df))
  else if py_eqb subplots (PBool false) then PList [PList (columns df)]
  else subplots.

(** Lines 132-136. *)
Definition expand_secondary_y (secondary_y : pyval) : pyval :=
  let secondary_y :=
    if py_is_str secondary_y then PList [PList [secondary_y]] else secondary_y in
  if py_eqb secondary_y (PBool false) then PList [PList []] else secondary_y.

(** [plt.subplots(nb_plots, ...)]: matplotlib refuses a grid without rows. *)
Definition plt_subplots (nb_plots : nat) : result unit :=
  if decide (nb_plots = 0%nat) then Raise ValueError else Ok ().

(** Lines 166-167: every secondary column is removed from [subplots[0]]. *)
Definition remove_loop (cols : list pyval) (subplots : pyval) : result pyval :=
  for_each (λ subplots col2,
      s0 ← py_getitem subplots 0;
      s0 ← py_remove s0 col2;
      py_setitem subplots 0 s0)
    cols subplots.

(** Python lists are objects, and line 167 removes from [subplots[0]] in
    place while line 166 iterates over a list taken from [secondary_y].
    The two are one object when the caller builds both arguments from one
    list ([subplots=[names], secondary_y=[names]], or [secondary_y=names]
    for a list of strings).  The values of the arguments do not show it, so
    it is an input of its own, [same_list]: the list iterated at line 166
    is the object [subplots[0]].  One object has one value, so the input is
    heeded only where the two lists have the same value.  No other write of
    the function reaches a list that is read elsewhere: the other writes
    replace a slot ([subplots[i] = ...], [secondary_y[i] = ...]) or go to
    lists that the function has built itself.

    A [for] loop over a list that shrinks meanwhile: the iterator holds a
    position [i], stops when [i] is past the end of the list as it then is,
    and each turn removes the first element equal to the one at [i].  A turn
    shortens the list and advances the position, so [length l] turns are
    enough. *)
Fixpoint remove_while_iterating (turns i : nat) (l : list pyval) : result (list pyval) :=
  match turns with
  | O => Ok l
  | S turns' =>
      match l !! i with
      | None => Ok l
      | Some col2 => l' ← list_remove col2 l; remove_while_iterating turns' (S i) l'
      end
  end.

(** The list that line 166 iterates and line 167 shrinks, when they are one
    object. *)
Definition shared_list (same_list : bool) (subplots first : pyval) : option (list pyval) :=
  if same_list then
    match first, py_getitem subplots 0 with
    | PList l, Ok s0 => if pyval_beq s0 first then Some l else None
    | _, _ => None
    end
  else None.

(** Lines 162-169.  With distinct objects, removing from [subplots[0]] does
    not change the list being iterated; with one list, the removal is seen
    by the iteration, and what is left of the list is afterwards both
    [subplots[0]] and [secondary_y[0]]. *)
Definition place_secondary (nb_plots : nat) (subplots secondary_y : pyval)
    (same_list : bool) : result (pyval * pyval) :=
  if decide (nb_plots = 1%nat) then
    first ← py_getitem secondary_y 0;
    let secondary_y := if py_is_str first then PList [secondary_y] else secondary_y in
    first ← py_getitem secondary_y 0;
    match shared_list same_list subplots first with
    | Some l =>
        l' ← remove_while_iterating (length l) 0 l;
        subplots ← py_setitem subplots 0 (PList l');
        secondary_y ← py_setitem secondary_y 0 (PList l');
        Ok (subplots, secondary_y)
    | None =>
        cols ← py_iter first;
        subplots ← remove_loop cols subplots;
        Ok (subplots, secondary_y)
    end
  else
    sl ← _str_to_sparse_list secondary_y nb_plots false;
    Ok (subplots, PList sl).

(** [df[col]]: a column label, or a list of column labels; an unknown label
    raises [KeyError]. *)
Definition frame_getitem (df : DataFrame) (col : pyval) : result unit :=
  if py_in col (columns df) then Ok ()
  else match col with
       | PList l => if forallb (λ c, py_in c (columns df)) l then Ok () else Raise KeyError
       | _ => Raise KeyError
       end.

(** What [df[col]] returns when the lookup succeeds: the column as a Series
    for a label that occurs once, a DataFrame for a label that occurs
    several times and for a list of labels. *)
Inductive Selected : Type :=
  | OneColumn (s : Series)
  | SubFrame (d : DataFrame).

(** The positions of the columns labelled [label]. *)
Definition positions (label : pyval) (cols : list pyval) : list nat :=
  filter (λ k, default false (py_eqb label <$> cols !! k) = true) (seq 0 (length cols)).

Definition take_columns (ks : list nat) (df : DataFrame) : DataFrame :=
  {| columns := (λ k, default PNone (columns df !! k)) <$> ks;
     rows := (λ r, (r.1, (λ k, default 0%Q (r.2 !! k)) <$> ks)) <$> rows df |}.

Definition frame_column (df : DataFrame) (col : pyval) : Selected :=
  if py_in col (columns df) then
    match positions col (columns df) with
    | [k] => OneColumn {| s_name := default PNone (columns df !! k);
                          s_items := (λ r, (r.1, default 0%Q (r.2 !! k))) <$> rows df |}
    | ks => SubFrame (take_columns ks df)
    end
  else
    match col with
    | PList l => SubFrame (take_columns (l ≫= λ c, positions c (columns df)) df)
    | _ => SubFrame (take_columns [] df)
    end.

(** [overlay_days_plotter(df[col], ax, col, color)], lines 190 and 211. *)
Definition overlay_call (selected : Selected) (label : pyval) : result unit :=
  match selected with
  | OneColumn s => _ ← overlay_days_plotter s label; Ok ()
  | SubFrame d => _ ← overlay_days_frame d; Ok ()
  end.

(** [average_day_plotter(df[col], ax, col, color, marker=marker)], lines 192
    and 213; a DataFrame has no [to_frame]. *)
Definition average_call (selected : Selected) : result unit :=
  match selected with
  | OneColumn s => _ ← average_day_plotter s; Ok ()
  | SubFrame _ => Raise AttributeError
  end.

(** [colors.pop(0)] *)
Definition pop0 (colors : list string) : result (list string) :=
  match colors with
  | [] => Raise IndexError
  | _ :: colors' => Ok colors'
  end.

Definition primary_colors : list string :=
  ["b"; "g"; "r"; "c"; "m"; "y"; "black"; "lime"; "orange"; "fuchsia";
   "orangered"; "steelblue"; "darkgoldenrod"]%string.

Definition secondary_colors : list string :=
  ["lime"; "orange"; "fuchsia"; "orangered"; "steelblue"; "darkgoldenrod"]%string.

(** Lines 189-199: one primary column is drawn.  The arguments of a call
    are evaluated from left to right: [df[col]], then [colors.pop(0)], then
    the call itself. *)
Definition draw_primary (df : DataFrame) (plot_type : string)
    (colors : list string) (col : pyval) : result (list string) :=
  if (plot_type =? "overlay")%string then
    _ ← frame_getitem df col;
    colors ← pop0 colors;
    _ ← overlay_call (frame_column df col) col;
    Ok colors
  else if (plot_type =? "average")%string then
    _ ← frame_getitem df col;
    colors ← pop0 colors;
    _ ← average_call (frame_column df col);
    Ok colors
  else if (plot_type =? "bar")%string then
    _ ← frame_getitem df col; pop0 colors
  else
    _ ← frame_getitem df col; Ok colors.

(** Lines 210-220: one secondary column is drawn; in a bar plot the code
    raises a string, which is itself a [TypeError]. *)
Definition draw_secondary (df : DataFrame) (plot_type : string)
    (colors : list string) (col2 : pyval) : result (list string) :=
  if (plot_type =? "overlay")%string then
    _ ← frame_getitem df col2;
    colors ← pop0 colors;
    _ ← overlay_call (frame_column df col2) col2;
    Ok colors
  else if (plot_type =? "average")%string then
    _ ← frame_getitem df col2;
    colors ← pop0 colors;
    _ ← average_call (frame_column df col2);
    Ok colors
  else if (plot_type =? "bar")%string then
    Raise TypeError
  else
    _ ← frame_getitem df col2; Ok colors.

(** The state of the loop of lines 175-230: [subplots], [secondary_y] and
    the subplots drawn so far. *)
Abbreviation loop_state := (pyval * pyval * PlotPlan)%type.

(** Lines 175-230, one iteration. *)
Definition draw_subplot (df : DataFrame) (plot_type : string)
    (title ylabel secondary_ylabel : list pyval) (st : loop_state) (i : nat)
  : result loop_state :=
  let '(subplots, secondary_y, plan) := st in
  _ ← (if (plot_type =? "bar")%string then
         s ← py_getitem subplots i;
         n ← py_len s;
         if decide (n = 0%nat) then Raise ZeroDivisionError else Ok ()
       else Ok ());
  s ← py_getitem subplots i;
  subplots ← (if py_is_str s then py_setitem subplots i (PList [s]) else Ok subplots);
  s ← py_getitem subplots i;
  cols ← py_iter s;
  _ ← for_each (draw_primary df plot_type) cols primary_colors;
  sec ← py_getitem secondary_y i;
  n ← py_len sec;
  '(secondary_y, cols2, label2) ←
    (if decide (0 < n)%nat then
       secondary_y ← (if py_is_str sec then py_setitem secondary_y i (PList [sec])
                      else Ok secondary_y);
       sec ← py_getitem secondary_y i;
       cols2 ← py_iter sec;
       _ ← for_each (draw_secondary df plot_type) cols2 secondary_colors;
       label2 ← list_getitem secondary_ylabel i;
       Ok (secondary_y, cols2, label2)
     else Ok (secondary_y, [], PStr ""));
  t ← list_getitem title i;
  y ← list_getitem ylabel i;
  Ok (subplots, secondary_y, plan ++ [mkSubplot cols cols2 t y label2]).

(** Lines 124-169: everything before the first drawing call. *)
Definition normalize (frame : DataFrame)
    (title ylabel subplots secondary_y secondary_ylabel : pyval) (same_list : bool)
  : result (nat * list pyval * list pyval * list pyval * pyval * pyval) :=
  let subplots := expand_subplots frame subplots in
  let secondary_y := expand_secondary_y secondary_y in
  nb_plots ← py_len subplots;
  title ← _str_to_sparse_list title nb_plots false;
  ylabel ← _str_to_sparse_list ylabel nb_plots false;
  secondary_ylabel ← _str_to_sparse_list secondary_ylabel nb_plots false;
  _ ← plt_subplots nb_plots;
  '(subplots, secondary_y) ← place_secondary nb_plots subplots secondary_y same_list;
  Ok (nb_plots, title, ylabel, secondary_ylabel, subplots, secondary_y).

(** The whole function.  It returns the caller's table as it is after the
    call, and either the exception raised or the subplots drawn. *)
Definition dataframe_plotter (df : DfOrSeries)
    (title ylabel subplots secondary_y secondary_ylabel : pyval)
    (plot_type : string) (same_list : bool) : DfOrSeries * result PlotPlan :=
  let frame := match df with SER s => to_frame s | DF d => d end in
  match normalize frame title ylabel subplots secondary_y secondary_ylabel same_list with
  | Raise e => (df, Raise e)
  | Ok (nb_plots, title, ylabel, secondary_ylabel, subplots, secondary_y) =>
      let frame :=
        if (plot_type =? "bar")%string
        then assign_column (PStr "x_axis") (arange (length (rows frame))) frame
        else frame in
      let caller := match df with SER s => SER s | DF _ => DF frame end in
      (caller,
       st ← for_each (draw_subplot frame plot_type title ylabel secondary_ylabel)
              (seq 0 nb_plots) (subplots, secondary_y, []);
       Ok st.2)
  end.

(** ** [filter_days_plotter] (source lines 259-280) *)

Inductive DayPlot : Type :=
  | NoPlot
  | OverlayOf (p : OverlayPlot)
  | AverageOf (points : list (Q * list Q)).

Record FilterPlot : Type := mkFilterPlot {
  fp_title : string;
  fp_xlabel : string;
  fp_ylabel : pyval;
  fp_plot : DayPlot
}.

Section FilterDaysPlotter.

(** How [str.format] renders a value in place of [{}]. *)
Variable py_format : pyval → string.

(** Lines 264-268. *)
Definition filter_title (days_of_week months : pyval) : string :=
  let title := ""%string in
  let title :=
    if py_truthy months then ("Months: " +:+ py_format months +:+ ".")%string else title in
  if py_truthy days_of_week
  then (title +:+ " Days of week: " +:+ py_format days_of_week)%string
  else title.

Definition filter_days_plotter (series : Series) (days_of_week months : pyval)
    (plot_type : string) : result FilterPlot :=
  let title := filter_title days_of_week months in
  s ← filter_days (SER series) days_of_week months;
  match s with
  | DF _ => Raise AttributeError
  | SER s =>
      plot ← (if (plot_type =? "overlay")%string then
                p ← overlay_days_plotter s PNone; Ok (OverlayOf p)
              else if (plot_type =? "average")%string then
                pts ← average_day_plotter s; Ok (AverageOf pts)
              else Ok NoPlot);
      Ok {| fp_title := title; fp_xlabel := "Hour"; fp_ylabel := s_name s;
            fp_plot := plot |}
  end.

End FilterDaysPlotter.

(** ** Notions used to state the properties *)

(** Time of day in microseconds. *)
Definition us_of_day (t : Timestamp) : Z :=
  ((hour t * 60 + minute t) * 60 + second t) * 1000000 + microsecond t.

(** Day numbering announced by the docstring of [filter_days]: Sunday is 0
    and Saturday is 6. *)
Definition sunday0 (t : Timestamp) : Z := (dayofweek t + 1) mod 7.

(** What a selector selects, as the code reads it: a selector is absent, a
    single integer, a list, or (for days) a preset name; the days are
    numbered as pandas numbers them, Monday 0 to Sunday 6. *)
Definition selected_months (months : pyval) : option (list pyval) :=
  match months with
  | PInt k => Some [PInt k]
  | PList l => Some l
  | _ => None
  end.

Definition selected_days (days_of_week : pyval) : option (list pyval) :=
  match days_of_week with
  | PInt k => Some [PInt k]
  | PList l => Some l
  | PStr s =>
      if bool_decide (s = "weekday" ∨ s = "wkday")
      then Some [PInt 0; PInt 1; PInt 2; PInt 3; PInt 4]
      else if bool_decide (s = "weekend" ∨ s = "wkend")
      then Some [PInt 5; PInt 6]
      else None
  | _ => None
  end.

Definition absent_or_contains (selected : option (list pyval)) (field : Z) : bool :=
  match selected with
  | None => true
  | Some s => isin field s
  end.

(** The rows the code keeps: each selector is absent or contains the row's
    month, or the row's day in pandas' numbering. *)
Definition code_keep (days_of_week months : pyval) (t : Timestamp) : bool :=
  absent_or_contains (selected_months months) (month t)
  && absent_or_contains (selected_days days_of_week) (dayofweek t).

(** The selection rule of the specification, section 4.1, in the numbering
    of the specification and of the docstring: the day of a row is counted
    from Sunday, 0, to Saturday, 6.  An integer or a list selects the days
    with those numbers; the presets select Monday to Friday (1 to 5) and
    Saturday and Sunday (6 and 0).  A row is kept iff each selector is
    absent or contains the row's month or day. *)
Definition spec_days (days_of_week : pyval) : option (list pyval) :=
  match days_of_week with
  | PInt k => Some [PInt k]
  | PList l => Some l
  | PStr s =>
      if bool_decide (s = "weekday" ∨ s = "wkday")
      then Some [PInt 1; PInt 2; PInt 3; PInt 4; PInt 5]
      else if bool_decide (s = "weekend" ∨ s = "wkend")
      then Some [PInt 6; PInt 0]
      else None
  | _ => None
  end.

Definition spec_keep (days_of_week months : pyval) (t : Timestamp) : bool :=
  absent_or_contains (selected_months months) (month t)
  && absent_or_contains (spec_days days_of_week) (sunday0 t).

(** Selectors that are absent or present with some content: [None], a
    non-zero integer, a non-empty list, a preset name. *)
Inductive month_selector : pyval → Prop :=
  | month_absent : month_selector PNone
  | month_single k : k ≠ 0 → month_selector (PInt k)
  | month_many l : l ≠ [] → month_selector (PList l).

(** A day selector on which the two numberings agree: absent, or a preset
    name. *)
Inductive named_days : pyval → Prop :=
  | days_absent : named_days PNone
  | days_preset s :
      s = "weekday" ∨ s = "wkday" ∨ s = "weekend" ∨ s = "wkend" →
      named_days (PStr s).

Inductive day_selector : pyval → Prop :=
  | day_absent : day_selector PNone
  | day_single k : k ≠ 0 → day_selector (PInt k)
  | day_many l : l ≠ [] → day_selector (PList l)
  | day_preset s :
      s = "weekday" ∨ s = "wkday" ∨ s = "weekend" ∨ s = "wkend" →
      day_selector (PStr s).

(** The samples of a series whose time of day is [h]. *)
Definition samples_at (series : Series) (h : Q) : list (Timestamp * Q) :=
  filter (λ r, Qeq_bool (datetime_to_hour r.1) h) (s_items series).

(** The frame the plotter works on. *)
Definition frame_of (df : DfOrSeries) : DataFrame :=
  match df with SER s => to_frame s | DF d => d end.

(** An operation raised an exception. *)
Definition fails {A : Type} (r : result A) : Prop := ∃ e, r = Raise e.

(** Membership up to Python's [==]. *)
Definition py_elem (x : pyval) (l : list pyval) : Prop := canon x ∈ canon <$> l.

(** No two entries of the list are equal under [==]. *)
Definition py_distinct (l : list pyval) : Prop := NoDup (canon <$> l).

(** Strict order of dates. *)
Definition date_lt (a b : Z * Z * Z) : Prop := date_compare a b = Lt.

(** The samples of a series on one date, in the order of the series. *)
Definition rows_on (series : Series) (d : Z * Z * Z) : list (Timestamp * Q) :=
  filter (λ r, date_of r.1 = d) (s_items series).

(** The line drawn for a group of samples. *)
Definition line_of (rs : list (Timestamp * Q)) : list Q * list Q :=
  (datetime_to_hour <$> rs.*1, rs.*2).

(** ** The loop of [dataframe_plotter], subplot by subplot

    Iteration [i] of the loop reads and writes position [i] of [subplots]
    and [secondary_y] only, so what it draws is a function of the two
    entries it finds there. *)

(** Lines 178-199 for the entry [s] of [subplots]. *)
Definition primary_part (df : DataFrame) (plot_type : string) (s : pyval)
  : result (list pyval) :=
  _ ← (if (plot_type =? "bar")%string then
         n ← py_len s;
         if decide (n = 0%nat) then Raise ZeroDivisionError else Ok ()
       else Ok ());
  cols ← py_iter (if py_is_str s then PList [s] else s);
  _ ← for_each (draw_primary df plot_type) cols primary_colors;
  Ok cols.

(** Lines 201-225 for the entry [sec] of [secondary_y]. *)
Definition secondary_part (df : DataFrame) (plot_type : string)
    (secondary_ylabel : list pyval) (sec : pyval) (i : nat)
  : result (list pyval * pyval) :=
  n ← py_len sec;
  if decide (0 < n)%nat then
    cols2 ← py_iter (if py_is_str sec then PList [sec] else sec);
    _ ← for_each (draw_secondary df plot_type) cols2 secondary_colors;
    label2 ← list_getitem secondary_ylabel i;
    Ok (cols2, label2)
  else Ok ([], PStr "").

Definition subplot_of (df : DataFrame) (plot_type : string)
    (title ylabel secondary_ylabel : list pyval) (s sec : pyval) (i : nat)
  : result Subplot :=
  cols ← primary_part df plot_type s;
  '(cols2, label2) ← secondary_part df plot_type secondary_ylabel sec i;
  t ← list_getitem title i;
  y ← list_getitem ylabel i;
  Ok (mkSubplot cols cols2 t y label2).

(** The subplots drawn for the positions [idx], stopping at the first
    exception. *)
Fixpoint drawn (df : DataFrame) (plot_type : string)
    (title ylabel secondary_ylabel subs secs : list pyval) (idx : list nat)
  : result PlotPlan :=
  match idx with
  | [] => Ok []
  | i :: idx' =>
      s ← list_getitem subs i;
      sec ← list_getitem secs i;
      sp ← subplot_of df plot_type title ylabel secondary_ylabel s sec i;
      plan ← drawn df plot_type title ylabel secondary_ylabel subs secs idx';
      Ok (sp :: plan)
  end.

(** The frame the drawing loop reads: in a bar plot it has the helper
    column. *)
Definition drawing_frame (frame : DataFrame) (plot_type : string) : DataFrame :=
  if (plot_type =? "bar")%string
  then assign_column (PStr "x_axis") (arange (length (rows frame))) frame
  else frame.

(** Plot types that take a colour from the list for every column. *)
Definition pops_colors (plot_type : string) : bool :=
  (plot_type =? "overlay")%string || (plot_type =? "average")%string
  || (plot_type =? "bar")%string.

(** An index on which [overlay_days_plotter] finds a series of samples at
    every date: it is empty, or some timestamp is not at midnight. *)
Definition overlay_ready (idx : list Timestamp) : Prop :=
  idx = [] ∨ day_resolution idx = false.

(** A table that the day plots accept column by column: its index is ready
    for an overlay plot, and for an average plot no column label is
    repeated, so that every column is a Series. *)
Definition day_plots_fit (frame : DataFrame) (plot_type : string) : Prop :=
  (plot_type = "overlay" → overlay_ready (rows frame).*1)
  ∧ (plot_type = "average" → py_distinct (columns frame)).

(** The columns that [secondary_y] asks for when there is one subplot: none
    for [False], the name for a string, the names for a list of strings,
    the first list for a list of lists. *)
Inductive requests : pyval → list pyval → Prop :=
  | requests_none : requests (PBool false) []
  | requests_name s : requests (PStr s) [PStr s]
  | requests_names s l : requests (PList (PStr s :: l)) (PStr s :: l)
  | requests_lists l rest : requests (PList (PList l :: rest)) l.

(** The entries at positions 1, 3, 5, ... of a list. *)
Fixpoint every_other (l : list pyval) : list pyval :=
  match l with
  | _ :: y :: l' => y :: every_other l'
  | _ => []
  end.

(** An operation returned normally. *)
Definition succeeds {A : Type} (r : result A) : Prop := ∃ a, r = Ok a.

(** A title or axis label that [_str_to_sparse_list] can spread over
    [nb_plots] subplots. *)
Definition label_fits (label : pyval) (nb_plots : nat) : Prop :=
  succeeds (_str_to_sparse_list label nb_plots false).

(** The secondary columns that a list of names gives to subplot [i] when
    the names are taken position by position. *)
Definition positional (names : list string) (i : nat) : list pyval :=
  match names !! i with
  | Some s => if decide (s = "") then [] else [PStr s]
  | None => []
  end.

(** The column that holds the values in the frame built by
    [average_day_plotter]. *)
Definition value_column (series : Series) : pyval :=
  match s_name series with PNone => PInt 0 | n => n end.

(** A list updated at most at position [i]. *)
Definition agree_except (i : nat) (l l' : list pyval) : Prop :=
  length l' = length l ∧ ∀ j, j ≠ i → l' !! j = l !! j.

(** The removals of line 167 on the column list itself. *)
Definition remove_each (cols l : list pyval) : result (list pyval) :=
  for_each (λ l c, list_remove c l) cols l.

(** An entry of [secondary_y] that names one column. *)
Definition names_column (sec : pyval) (s : string) : Prop :=
  (sec = PStr s ∧ s ≠ "") ∨ sec = PList [PStr s].

Definition no_subplot : Subplot := mkSubplot [] [] PNone PNone PNone.

(** ** Sample data *)

(** A time on 2016-01-04. *)
Definition at_time (h mi s us : Z) : Timestamp := mkTimestamp 2016 1 4 h mi s us 0.

(** Sunday 3, Monday 4 and Tuesday 5 January 2016, Saturday 6 February 2016. *)
Definition week : DfOrSeries :=
  SER {| s_name := PStr "consumption";
         s_items := [(midnight 2016 1 3, 10%Q); (midnight 2016 1 4, 20%Q);
                     (midnight 2016 1 5, 30%Q); (midnight 2016 2 6, 40%Q)] |}.

(** The frame of the docstring's examples, shortened to two rows. *)
Definition data : DataFrame :=
  {| columns := [PStr "col1"; PStr "col2"; PStr "col3"];
     rows := [(mkTimestamp 1990 2 15 0 0 0 0 0, [0%Q; 0%Q; 0%Q]);
              (mkTimestamp 1990 2 15 1 0 0 0 0, [1%Q; (1 # 10)%Q; (1 # 700)%Q])] |}.

(** A frame without columns. *)
Definition no_columns : DataFrame := {| columns := []; rows := [] |}.

(** Samples at 01:00 and 00:30 on 4 January 2016 and again the day after. *)
Definition two_days : Series :=
  {| s_name := PStr "consumption";
     s_items := [(at_time 1 0 0 0, 1%Q); (at_time 0 30 0 0, 2%Q);
                 (mkTimestamp 2016 1 5 1 0 0 0 0, 3%Q);
                 (mkTimestamp 2016 1 5 0 30 0 0 0, 4%Q)] |}.

(** What the docstring's first example draws: one plot, col3 on the right
    axis. *)
Definition one_plot_example : PlotPlan :=
  [mkSubplot [PStr "col1"; PStr "col2"] [PStr "col3"]
     (PStr "One plot example") (PStr "Fake data") (PStr "col3")].

(** What [subplots=True] draws for [data] with the default labels. *)
Definition three_plots : PlotPlan :=
  [mkSubplot [PStr "col1"] [] (PStr "") (PStr "") (PStr "");
   mkSubplot [PStr "col2"] [] (PStr "") (PStr "") (PStr "");
   mkSubplot [PStr "col3"] [] (PStr "") (PStr "") (PStr "")].

(** One value per day, at midnight. *)
Definition daily : Series :=
  {| s_name := PStr "consumption";
     s_items := [(midnight 2016 1 3, 10%Q); (midnight 2016 1 4, 20%Q)] |}.

(** * Properties *)

(** Settles a decidable proposition by evaluating its decision procedure. *)
Ltac by_compute := apply (bool_decide_unpack _); vm_compute; exact I.

(** ** Equality of Python values *)

(** Induction on values, with the hypothesis available for every element of
    a list. *)
Lemma pyval_ind_nested (P : pyval → Prop) :
  P PNone → (∀ b, P (PBool b)) → (∀ z, P (PInt z)) → (∀ s, P (PStr s)) →
  (∀ l, Forall P l → P (PList l)) → ∀ v, P v.
Proof.
  intros HN HB HI HS HL.
  fix IH 1. intros [|b|z|s|l]; [exact HN | apply HB | apply HI | apply HS |].
  apply HL. induction l as [|x l IHl]; constructor; [apply IH | exact IHl].
Qed.

Lemma pyval_beq_eq (x y : pyval) : pyval_beq x y = true ↔ x = y.
Proof.
  revert y. induction x as [|a|a|a|l IH] using pyval_ind_nested;
    intros [|b|b|b|m]; simpl; try (split; [discriminate | congruence]).
  - done.
  - rewrite Bool.eqb_true_iff. split; congruence.
  - rewrite Z.eqb_eq. split; congruence.
  - rewrite String.eqb_eq. split; congruence.
  - revert m. induction IH as [|x l Hx _ IHl]; intros [|y m];
      try (split; [discriminate | congruence]); [done|].
    rewrite andb_true_iff, Hx, IHl. split.
    + intros [-> [= ->]]. done.
    + intros [= -> ->]. done.
Qed.

Lemma py_eqb_canon (x y : pyval) : py_eqb x y = true ↔ canon x = canon y.
Proof. apply pyval_beq_eq. Qed.

Lemma py_eqb_refl (x : pyval) : py_eqb x x = true.
Proof. by apply py_eqb_canon. Qed.

Lemma py_eqb_false (x y : pyval) : py_eqb x y = false ↔ canon x ≠ canon y.
Proof. rewrite <-py_eqb_canon. by destruct (py_eqb x y). Qed.

Lemma canon_str (v : pyval) (s : string) : canon v = PStr s → v = PStr s.
Proof. by destruct v. Qed.

Lemma py_in_elem (c : pyval) (cols : list pyval) : c ∈ cols → py_in c cols = true.
Proof.
  intros Hc. apply existsb_exists. exists c. split; [by apply list_elem_of_In|].
  apply py_eqb_refl.
Qed.

Lemma py_in_app_l (c : pyval) (l1 l2 : list pyval) :
  py_in c l1 = true → py_in c (l1 ++ l2) = true.
Proof. unfold py_in. rewrite existsb_app. by intros ->. Qed.

(** ** The error monad *)

Lemma result_bind_ok {A B} (m : result A) (f : A → result B) (b : B) :
  m ≫= f = Ok b → ∃ a, m = Ok a ∧ f a = Ok b.
Proof. destruct m as [a|e]; [by exists a | discriminate]. Qed.

Lemma list_getitem_some (l : list pyval) (i : nat) (x : pyval) :
  l !! i = Some x → list_getitem l i = Ok x.
Proof. unfold list_getitem. by intros ->. Qed.

Lemma list_getitem_lt (l : list pyval) (i : nat) :
  (i < length l)%nat → ∃ x, l !! i = Some x ∧ list_getitem l i = Ok x.
Proof.
  intros [x Hx]%lookup_lt_is_Some_2. exists x. split; [done | by apply list_getitem_some].
Qed.

Lemma py_getitem_list (l : list pyval) (i : nat) :
  py_getitem (PList l) i = list_getitem l i.
Proof. done. Qed.

Lemma py_setitem_list (l : list pyval) (i : nat) (x : pyval) :
  (i < length l)%nat → py_setitem (PList l) i x = Ok (PList (<[i:=x]> l)).
Proof. intros Hi. unfold py_setitem. by rewrite decide_True. Qed.

(** ** [datetime_to_hour] *)

Lemma datetime_to_hour_us (t : Timestamp) :
  (datetime_to_hour t == us_of_day t # 3600000000)%Q.
Proof.
  unfold datetime_to_hour, us_of_day, Qeq, Qplus, Qdiv, Qmult, Qinv, inject_Z.
  simpl. lia.
Qed.

Lemma us_of_day_bounds (t : Timestamp) :
  valid_time t → 0 <= us_of_day t < 86400000000.
Proof. unfold valid_time, us_of_day. lia. Qed.

(** On one calendar date, the order of two timestamps is the order of their
    times of day; the nanoseconds that [datetime_to_hour] ignores can only
    make the order of the microsecond counts non-strict. *)
Lemma same_date_order (t1 t2 : Timestamp) :
  valid_time t1 → valid_time t2 → same_date t1 t2 →
  ts_value t1 <= ts_value t2 → us_of_day t1 <= us_of_day t2.
Proof.
  unfold valid_time, same_date, ts_value, time_of_day_ns, us_of_day.
  intros H1 H2 (-> & -> & ->) Hle. lia.
Qed.

(** Two times of day that differ by a microsecond or more get different
    fractional hours. *)
Lemma datetime_to_hour_strict (t1 t2 : Timestamp) :
  us_of_day t1 < us_of_day t2 → (datetime_to_hour t1 < datetime_to_hour t2)%Q.
Proof.
  intros Hlt. rewrite !datetime_to_hour_us. unfold Qlt; simpl. lia.
Qed.

(** C10.  For every valid timestamp, [datetime_to_hour] is
    hour + minute/60 + second/3600 + microsecond/3.6e9, this value lies in
    [0, 24), and among the timestamps of one calendar day it is monotonically
    non-decreasing.  The function is total, so it never fails.  Floats are
    read as exact rationals. *)
Theorem datetime_to_hour_range_monotone (t : Timestamp) :
  valid_time t →
  datetime_to_hour t =
    (inject_Z (hour t) + inject_Z (minute t) / 60 + inject_Z (second t) / 3600
     + inject_Z (microsecond t) / (3600 * 1000000))%Q
  ∧ (0 <= datetime_to_hour t)%Q ∧ (datetime_to_hour t < 24)%Q
  ∧ ∀ t', valid_time t' → same_date t t' → ts_value t <= ts_value t' →
      (datetime_to_hour t <= datetime_to_hour t')%Q.
Proof.
  intros Hv. split; [reflexivity|].
  pose proof (us_of_day_bounds t Hv) as Hb.
  repeat split.
  - rewrite datetime_to_hour_us. unfold Qle; simpl. lia.
  - rewrite datetime_to_hour_us. unfold Qlt; simpl. lia.
  - intros t' Hv' Hd Hle.
    rewrite !datetime_to_hour_us. unfold Qle; simpl.
    pose proof (same_date_order t t' Hv Hv' Hd Hle). lia.
Qed.

Lemma datetime_to_hour_range_monotone_witness :
  valid_time (at_time 15 15 0 0)
  ∧ (0 <= datetime_to_hour (at_time 15 15 0 0))%Q
  ∧ (datetime_to_hour (at_time 15 15 0 0) < 24)%Q
  ∧ (datetime_to_hour (at_time 15 15 0 0) <= datetime_to_hour (at_time 23 59 59 999999))%Q.
Proof.
  assert (Hv : valid_time (at_time 15 15 0 0)) by (unfold valid_time; simpl; lia).
  assert (Hv' : valid_time (at_time 23 59 59 999999)) by (unfold valid_time; simpl; lia).
  destruct (datetime_to_hour_range_monotone (at_time 15 15 0 0) Hv)
    as (_ & H0 & H24 & Hmono).
  split; [exact Hv|]. split; [exact H0|]. split; [exact H24|].
  apply Hmono; [exact Hv' | by repeat split | by vm_compute].
Defined.

(** 03:15pm is 15.25, as the docstring says. *)
Example datetime_to_hour_docstring :
  (datetime_to_hour (at_time 15 15 0 0) == 61 # 4)%Q.
Proof. reflexivity. Qed.

(** ** [filter_days] *)

Section Loc.
Context {A : Type}.
Implicit Types (rs : list (Timestamp * A)).

Lemma filter_label_absent rs k :
  k ∉ rs.*1 → filter (λ r', r'.1 = k) rs = [].
Proof.
  induction rs as [|r0 rs IH]; intros Hk; [done|].
  rewrite fmap_cons in Hk. apply not_elem_of_cons in Hk as [Hne Hk].
  rewrite filter_cons_False; [by apply IH|]. simpl. congruence.
Qed.

(** With distinct labels, looking up the label of a row finds that row and
    no other. *)
Lemma filter_label_unique rs r :
  NoDup rs.*1 → r ∈ rs → filter (λ r', r'.1 = r.1) rs = [r].
Proof.
  induction rs as [|r0 rs IH]; intros Hnd Hin.
  - by apply elem_of_nil in Hin.
  - rewrite fmap_cons in Hnd. apply NoDup_cons in Hnd as [Hnotin Hnd].
    apply elem_of_cons in Hin as [->|Hin].
    + rewrite filter_cons_True; [|done]. f_equal.
      by apply filter_label_absent.
    + rewrite filter_cons_False; [by apply IH|].
      intros Heq. apply Hnotin.
      replace (r0.1) with (r.1) by done.
      by apply list_elem_of_fmap_2.
Qed.

Lemma loc_rows_suffix rs (keep : Timestamp → bool) pre suf :
  NoDup rs.*1 → rs = pre ++ suf →
  loc_rows rs (filter (λ t, keep t) suf.*1) = filter (λ r, keep r.1) suf.
Proof.
  intros Hnd. revert pre. induction suf as [|r suf IH]; intros pre ->; [done|].
  rewrite fmap_cons, !filter_cons.
  assert (Hsuf : loc_rows (pre ++ r :: suf) (filter (λ t, keep t) suf.*1)
                 = filter (λ r, keep r.1) suf).
  { apply (IH (pre ++ [r])). by rewrite <-app_assoc. }
  destruct (decide (keep r.1)) as [HP|HP]; [|done].
  unfold loc_rows in *. rewrite bind_cons, Hsuf.
  rewrite (filter_label_unique _ r Hnd); [done|].
  apply elem_of_app. right. apply elem_of_cons. by left.
Qed.

(** Looking up the labels that pass a mask returns the rows that pass it. *)
Lemma loc_rows_filter rs (keep : Timestamp → bool) :
  NoDup rs.*1 →
  loc_rows rs (filter (λ t, keep t) rs.*1) = filter (λ r, keep r.1) rs.
Proof. intros Hnd. by apply (loc_rows_suffix rs keep []). Qed.

End Loc.

Lemma filter_all {A} (l : list A) (P : A → Prop) `{!∀ x, Decision (P x)} :
  (∀ x, x ∈ l → P x) → filter P l = l.
Proof.
  induction l as [|x l IH]; intros Hall; [done|].
  rewrite filter_cons_True; [|apply Hall; by left].
  f_equal. apply IH. intros y Hy. apply Hall. by right.
Qed.

Lemma loc_filter (x : DfOrSeries) (keep : Timestamp → bool) :
  NoDup (index_of x) →
  loc x (filter (λ t, keep t) (index_of x)) = select keep x.
Proof.
  destruct x as [d|s]; simpl; intros Hnd; f_equal; f_equal;
    by apply loc_rows_filter.
Qed.

Lemma select_all (x : DfOrSeries) (keep : Timestamp → bool) :
  (∀ t, t ∈ index_of x → keep t = true) → select keep x = x.
Proof.
  destruct x as [[c r]|[n i]]; simpl; intros Hall; f_equal; f_equal;
    apply filter_all; intros y Hy; apply Is_true_true, Hall;
    by apply list_elem_of_fmap_2.
Qed.

(** [select] keeps the labels that pass the mask, in their order. *)
Lemma index_of_select (x : DfOrSeries) (keep : Timestamp → bool) :
  index_of (select keep x) = filter (λ t, keep t) (index_of x).
Proof.
  destruct x as [[c r]|[n i]]; simpl.
  - induction r as [|r0 r IH]; [done|]. rewrite fmap_cons, !filter_cons. simpl.
    destruct (decide (keep r0.1)); csimpl; by rewrite IH.
  - induction i as [|r0 i IH]; [done|]. rewrite fmap_cons, !filter_cons. simpl.
    destruct (decide (keep r0.1)); csimpl; by rewrite IH.
Qed.

(** Both masks applied one after the other, then the label lookup: the rows
    that pass both masks. *)
Lemma filter_days_masks (x : DfOrSeries) (d m : pyval) (pm pd : Timestamp → bool) :
  NoDup (index_of x) →
  (∀ idx, filter_months m idx = Ok (filter (λ t, pm t) idx)) →
  (∀ idx, filter_dayofweek d idx = Ok (filter (λ t, pd t) idx)) →
  filter_days x d m = Ok (select (λ t, pm t && pd t) x).
Proof.
  intros Hnd Hm Hd. unfold filter_days.
  rewrite Hm. simpl. rewrite Hd. simpl. f_equal.
  rewrite list_filter_filter.
  rewrite <-(loc_filter x _ Hnd). f_equal.
  apply list_filter_iff. intros t. rewrite andb_True. tauto.
Qed.

Lemma filter_months_absent (m : pyval) (idx : list Timestamp) :
  py_truthy m = false → filter_months m idx = Ok (filter (λ t, true) idx).
Proof.
  intros H. unfold filter_months. rewrite H. f_equal. symmetry. by apply filter_all.
Qed.

Lemma filter_dayofweek_absent (d : pyval) (idx : list Timestamp) :
  py_truthy d = false → filter_dayofweek d idx = Ok (filter (λ t, true) idx).
Proof.
  intros H. unfold filter_dayofweek. rewrite H. f_equal. symmetry. by apply filter_all.
Qed.

Lemma filter_days_falsy (x : DfOrSeries) (d m : pyval) :
  NoDup (index_of x) → py_truthy d = false → py_truthy m = false →
  filter_days x d m = Ok x.
Proof.
  intros Hnd Hd Hm.
  rewrite (filter_days_masks x d m (λ _, true) (λ _, true));
    auto using filter_months_absent, filter_dayofweek_absent.
  f_equal. by apply select_all.
Qed.

Lemma filter_months_present (m : pyval) (idx : list Timestamp) :
  month_selector m →
  filter_months m idx =
    Ok (filter (λ t, absent_or_contains (selected_months m) (month t)) idx).
Proof.
  destruct 1 as [|k Hk|l Hl].
  - by apply filter_months_absent.
  - unfold filter_months. simpl. by apply Z.eqb_neq in Hk as ->.
  - unfold filter_months. simpl. by destruct l.
Qed.

Lemma filter_dayofweek_present (d : pyval) (idx : list Timestamp) :
  day_selector d →
  filter_dayofweek d idx =
    Ok (filter (λ t, absent_or_contains (selected_days d) (dayofweek t)) idx).
Proof.
  destruct 1 as [|k Hk|l Hl|s Hs].
  - by apply filter_dayofweek_absent.
  - unfold filter_dayofweek. simpl. by apply Z.eqb_neq in Hk as ->.
  - unfold filter_dayofweek. simpl. by destruct l.
  - by destruct Hs as [->|[->|[->| ->]]].
Qed.

Lemma week_labels_distinct : NoDup (index_of week).
Proof. by_compute. Qed.

(** A selector for the days alone. *)
Lemma filter_days_day_only (x : DfOrSeries) (d : pyval) :
  NoDup (index_of x) → day_selector d →
  filter_days x d PNone
  = Ok (select (λ t, absent_or_contains (selected_days d) (dayofweek t)) x).
Proof.
  intros Hnd Hd.
  by rewrite (filter_days_masks x d PNone (λ _, true)
                (λ t, absent_or_contains (selected_days d) (dayofweek t)) Hnd
                (λ idx, filter_months_absent PNone idx eq_refl)
                (λ idx, filter_dayofweek_present d idx Hd)).
Qed.

(** What the filter does with a non-zero integer, under pandas' numbering
    (Monday is 0). *)
Lemma filter_days_single_day (x : DfOrSeries) (k : Z) :
  NoDup (index_of x) → k ≠ 0 →
  filter_days x (PInt k) PNone = Ok (select (λ t, dayofweek t =? k) x).
Proof.
  intros Hnd Hk.
  rewrite (filter_days_day_only x (PInt k) Hnd); [|by constructor].
  f_equal. unfold absent_or_contains, isin, py_in, py_eqb. simpl.
  destruct x as [d|s]; simpl; f_equal; f_equal; apply list_filter_iff; intros r;
    by rewrite orb_false_r.
Qed.

(** The presets, in pandas' numbering: "weekday" is Monday to Friday,
    "weekend" is Saturday and Sunday. *)
Lemma presets_in_pandas_numbering (x : DfOrSeries) :
  NoDup (index_of x) →
  filter_days x (PStr "weekday") PNone = Ok (select (λ t, dayofweek t <? 5) x)
  ∧ filter_days x (PStr "weekend") PNone = Ok (select (λ t, 5 <=? dayofweek t) x).
Proof.
  intros Hnd.
  assert (Hrange : ∀ t, 0 <= dayofweek t < 7).
  { intros t. unfold dayofweek. apply Z.mod_pos_bound. lia. }
  split.
  - rewrite (filter_days_day_only x _ Hnd); [|constructor; tauto].
    f_equal. destruct x as [d|s]; simpl; f_equal; f_equal; apply list_filter_iff;
      intros r; specialize (Hrange r.1);
      unfold absent_or_contains, isin, py_in, py_eqb; simpl;
      rewrite orb_false_r, !orb_True, !Is_true_true, !Z.eqb_eq, Z.ltb_lt; lia.
  - rewrite (filter_days_day_only x _ Hnd); [|constructor; tauto].
    f_equal. destruct x as [d|s]; simpl; f_equal; f_equal; apply list_filter_iff;
      intros r; specialize (Hrange r.1);
      unfold absent_or_contains, isin, py_in, py_eqb; simpl;
      rewrite orb_false_r, !orb_True, !Is_true_true, !Z.eqb_eq, Z.leb_le; lia.
Qed.

(** C8.  With both selectors absent the filter returns its input unchanged.
    The table's timestamps are pairwise distinct, as the strictly increasing
    index of the data model guarantees: the result is built by looking the
    surviving labels up in the input. *)
Theorem filter_days_identity (x : DfOrSeries) :
  NoDup (index_of x) → filter_days x PNone PNone = Ok x.
Proof. intros Hnd. by apply filter_days_falsy. Qed.

Lemma filter_days_identity_witness :
  NoDup (index_of week) ∧ filter_days week PNone PNone = Ok week.
Proof.
  split; [exact week_labels_distinct|].
  exact (filter_days_identity week week_labels_distinct).
Defined.

(** C6.  A falsy selector switches its filter off: [days_of_week=0],
    [days_of_week=[]] and [months=[]] give the same result as an absent
    selector, whatever the other selector is; so
    [filter_days(table, days_of_week=0)] returns the whole table and not the
    rows of day 0. *)
Theorem falsy_selector_is_absent (x : DfOrSeries) (d m : pyval) :
  filter_days x (PInt 0) m = filter_days x PNone m
  ∧ filter_days x (PList []) m = filter_days x PNone m
  ∧ filter_days x d (PList []) = filter_days x d PNone
  ∧ (NoDup (index_of x) → filter_days x (PInt 0) PNone = Ok x).
Proof.
  repeat split; try reflexivity.
  intros Hnd. by apply filter_days_falsy.
Qed.

Lemma falsy_selector_is_absent_witness :
  NoDup (index_of week) ∧ filter_days week (PInt 0) PNone = Ok week.
Proof.
  split; [exact week_labels_distinct|].
  exact (proj2 (proj2 (proj2 (falsy_selector_is_absent week PNone PNone)))
           week_labels_distinct).
Defined.

Lemma select_ext (x : DfOrSeries) (p1 p2 : Timestamp → bool) :
  (∀ t, p1 t = p2 t) → select p1 x = select p2 x.
Proof.
  intros H. destruct x as [[c r]|[n i]]; simpl; f_equal; f_equal;
    apply list_filter_iff; intros r0; by rewrite H.
Qed.

(** The rule of the selectors, for selectors with content. *)
Lemma filter_days_by_rule (x : DfOrSeries) (d m : pyval) :
  NoDup (index_of x) → day_selector d → month_selector m →
  filter_days x d m = Ok (select (code_keep d m) x).
Proof.
  intros Hnd Hd Hm. unfold code_keep.
  exact (filter_days_masks x d m
           (λ t, absent_or_contains (selected_months m) (month t))
           (λ t, absent_or_contains (selected_days d) (dayofweek t)) Hnd
           (λ idx, filter_months_present m idx Hm)
           (λ idx, filter_dayofweek_present d idx Hd)).
Qed.

(** The presets select the same days in both numberings. *)
Lemma named_days_agree (d m : pyval) (t : Timestamp) :
  named_days d → code_keep d m t = spec_keep d m t.
Proof.
  intros Hd. unfold code_keep, spec_keep. f_equal.
  destruct Hd as [|s Hs]; [done|].
  assert (Hrange : 0 <= dayofweek t < 7).
  { unfold dayofweek. apply Z.mod_pos_bound. lia. }
  unfold sunday0. revert Hrange. generalize (dayofweek t). intros k Hk.
  assert (Hcases : k = 0 ∨ k = 1 ∨ k = 2 ∨ k = 3 ∨ k = 4 ∨ k = 5 ∨ k = 6) by lia.
  destruct Hs as [-> | [-> | [-> | ->]]];
    destruct Hcases as [-> | [-> | [-> | [-> | [-> | [-> | ->]]]]]]; reflexivity.
Qed.

Lemma named_days_selector (d : pyval) : named_days d → day_selector d.
Proof. intros [|s Hs]; by constructor. Qed.

(** C7, amended.  For every table with distinct timestamps, a month selector
    that is absent or has content (a non-zero integer, a non-empty list) and
    a day selector that is absent or a preset name, the filter keeps a row
    iff (months is absent or contains the row's month) and (days_of_week is
    absent or its set contains the row's day of week), the days being
    counted as the specification counts them, from Sunday.  The result is
    [select]: the kept rows in their original order with the columns and
    values of the input; it is a value also when no row is kept.  Days given
    by number are left out: the code counts them from Monday. *)
Theorem filter_days_keeps_selected (x : DfOrSeries) (d m : pyval) :
  NoDup (index_of x) → named_days d → month_selector m →
  filter_days x d m = Ok (select (spec_keep d m) x).
Proof.
  intros Hnd Hd Hm.
  rewrite (filter_days_by_rule x d m Hnd (named_days_selector d Hd) Hm). f_equal.
  apply select_ext. intros t. by apply named_days_agree.
Qed.

Lemma filter_days_keeps_selected_witness :
  NoDup (index_of week) ∧ named_days (PStr "weekday") ∧ month_selector (PList [PInt 1])
  ∧ filter_days week (PStr "weekday") (PList [PInt 1]) =
      Ok (select (spec_keep (PStr "weekday") (PList [PInt 1])) week).
Proof.
  assert (Hd : named_days (PStr "weekday")) by (constructor; tauto).
  assert (Hm : month_selector (PList [PInt 1])) by (by constructor).
  split; [exact week_labels_distinct|]. split; [exact Hd|]. split; [exact Hm|].
  exact (filter_days_keeps_selected week _ _ week_labels_distinct Hd Hm).
Defined.

(** C7 as stated fails for an empty list: the rule of the specification
    keeps no row ([month ∈ []] never holds), the code keeps every row. *)
Lemma empty_selector_keeps_all_rows :
  filter_days week PNone (PList []) = Ok week
  ∧ select (spec_keep PNone (PList [])) week ≠ week
  ∧ filter_days week PNone (PList []) ≠ Ok (select (spec_keep PNone (PList [])) week).
Proof.
  split; [reflexivity|]. split; [vm_compute; discriminate|].
  vm_compute. discriminate.
Qed.

(** C2.  On a series with a Sunday, a Monday, a Tuesday and a Saturday,
    [days_of_week=1] keeps the Tuesday: the code numbers the days as pandas
    does, Monday 0 to Sunday 6.  Under the docstring's numbering (Sunday 0 to
    Saturday 6) Tuesday is day 2, and day 1 selects the Monday. *)
Theorem days_of_week_one_is_tuesday :
  filter_days week (PInt 1) PNone =
    Ok (SER {| s_name := PStr "consumption"; s_items := [(midnight 2016 1 5, 30%Q)] |})
  ∧ sunday0 (midnight 2016 1 5) = 2
  ∧ select (λ t, sunday0 t =? 1) week =
      SER {| s_name := PStr "consumption"; s_items := [(midnight 2016 1 4, 20%Q)] |}.
Proof. by vm_compute. Qed.


(** ** [average_day_plotter] *)

Section GroupKeys.
Local Open Scope Q_scope.

Lemma insert_key_elem (k x : Q) (l : list Q) :
  x ∈ insert_key k l → x = k ∨ x ∈ l.
Proof.
  induction l as [|y l IH]; simpl.
  - intros Hx. apply list_elem_of_singleton in Hx. by left.
  - destruct (k ?= y) eqn:Hc.
    + by right.
    + intros Hx. apply elem_of_cons in Hx as [->|Hx]; [by left | by right].
    + intros Hx. apply elem_of_cons in Hx as [->|Hx].
      * right. by left.
      * destruct (IH Hx) as [->|Hin]; [by left|]. right. by right.
Qed.

Lemma insert_key_keeps (k x : Q) (l : list Q) :
  x ∈ l → x ∈ insert_key k l.
Proof.
  induction l as [|y l IH]; simpl; [by intros ?%elem_of_nil|].
  intros Hx. destruct (k ?= y) eqn:Hc; [done | by right |].
  apply elem_of_cons in Hx as [->|Hx]; [by left|]. right. by apply IH.
Qed.

Lemma insert_key_adds (k : Q) (l : list Q) :
  ∃ y, y ∈ insert_key k l ∧ y == k.
Proof.
  induction l as [|y l IH]; simpl.
  - exists k. split; [by left | reflexivity].
  - destruct (k ?= y) eqn:Hc.
    + exists y. split; [by left|]. symmetry. by apply Qeq_alt.
    + exists k. split; [by left | reflexivity].
    + destruct IH as (z & Hz & Hzk). exists z. split; [by right | done].
Qed.

Lemma insert_key_sorted (k : Q) (l : list Q) :
  StronglySorted Qlt l → StronglySorted Qlt (insert_key k l).
Proof.
  induction 1 as [|y l Hs IH Hall]; simpl.
  - repeat constructor.
  - destruct (k ?= y) eqn:Hc.
    + by constructor.
    + apply Qlt_alt in Hc. constructor; [by constructor|].
      constructor; [done|].
      eapply Forall_impl; [exact Hall|]. intros z Hz. by eapply Qlt_trans.
    + apply Qgt_alt in Hc. constructor; [done|].
      apply Forall_forall. intros z Hz.
      apply insert_key_elem in Hz as [->|Hz]; [done|].
      rewrite Forall_forall in Hall. by apply Hall.
Qed.

Lemma group_keys_sorted (ks : list Q) : StronglySorted Qlt (group_keys ks).
Proof.
  induction ks as [|k ks IH]; simpl; [constructor | by apply insert_key_sorted].
Qed.

Lemma group_keys_sound (ks : list Q) (h : Q) : h ∈ group_keys ks → h ∈ ks.
Proof.
  induction ks as [|k ks IH]; simpl; [done|].
  intros [->|Hh]%insert_key_elem; [by left | right; by apply IH].
Qed.

Lemma group_keys_complete (ks : list Q) (k : Q) :
  k ∈ ks → ∃ h, h ∈ group_keys ks ∧ h == k.
Proof.
  induction ks as [|k0 ks IH]; simpl; [by intros ?%elem_of_nil|].
  intros [->|Hk]%elem_of_cons.
  - apply insert_key_adds.
  - destruct (IH Hk) as (h & Hh & Hhk). exists h. split; [|done].
    by apply insert_key_keeps.
Qed.

Lemma group_keys_nil (ks : list Q) : ks = [] → group_keys ks = [].
Proof. by intros ->. Qed.
End GroupKeys.


Lemma value_column_not_hour (series : Series) :
  s_name series ≠ PStr "hour" →
  py_eqb (PStr "hour") (value_column series) = false
  ∧ py_eqb (value_column series) (PStr "hour") = false.
Proof.
  intros Hne.
  assert (H : canon (value_column series) ≠ PStr "hour").
  { intros Hc%canon_str. unfold value_column in Hc.
    by destruct (s_name series). }
  split; apply py_eqb_false; simpl; congruence.
Qed.

Lemma hour_frame_rows (items : list (Timestamp * Q)) :
  zip_with (λ (r : Timestamp * list Q) (v : Q), (r.1, r.2 ++ [v]))
    (map (λ r : Timestamp * Q, (r.1, [r.2])) items)
    (map datetime_to_hour items.*1)
  = map (λ r : Timestamp * Q, (r.1, [r.2; datetime_to_hour r.1])) items.
Proof. induction items as [|r items IH]; csimpl; [done | by rewrite IH]. Qed.

Lemma filter_hour_rows (h : Q) (items : list (Timestamp * Q)) :
  filter (λ r : Timestamp * list Q, Qeq_bool (default 0%Q (r.2 !! 1%nat)) h)
    (map (λ r : Timestamp * Q, (r.1, [r.2; datetime_to_hour r.1])) items)
  = map (λ r : Timestamp * Q, (r.1, [r.2; datetime_to_hour r.1]))
      (filter (λ r : Timestamp * Q, Qeq_bool (datetime_to_hour r.1) h) items).
Proof.
  induction items as [|r items IH]; [done|].
  rewrite map_cons, !filter_cons. simpl.
  destruct (decide (Qeq_bool (datetime_to_hour r.1) h)); by rewrite IH.
Qed.

Lemma average_day_plotter_eq (series : Series) :
  s_name series ≠ PStr "hour" →
  average_day_plotter series =
    Ok (map (λ h, (h, [mean (samples_at series h).*2]))
          (group_keys (map (λ r, datetime_to_hour r.1) (s_items series)))).
Proof.
  intros Hne. destruct (value_column_not_hour series Hne) as [H1 H2].
  unfold average_day_plotter, assign_column, to_frame. simpl.
  fold (value_column series). rewrite H1. simpl.
  unfold groupby_mean. simpl. rewrite H2. simpl.
  rewrite hour_frame_rows. f_equal.
  rewrite map_map. simpl.
  apply map_ext. intros h. f_equal.
  rewrite filter_hour_rows, map_map. unfold col_means. simpl. f_equal.
  unfold samples_at. rewrite map_map. simpl. done.
Qed.

(** C5, amended.  [average_day_plotter] has no error for an empty input: on
    a series with zero samples it succeeds and plots no bucket.  For every
    series (other than one that is itself named "hour") it succeeds, groups
    the samples by exact fractional hour, takes the arithmetic mean of each
    group and emits the buckets in ascending fractional-hour order: the keys
    are strictly increasing, every sample falls in the bucket of its hour,
    and every bucket is non-empty and holds the mean of its samples. *)
Theorem average_day_plotter_buckets (series : Series) :
  s_name series ≠ PStr "hour" →
  ∃ pts, average_day_plotter series = Ok pts
    ∧ (s_items series = [] → pts = [])
    ∧ StronglySorted Qlt pts.*1
    ∧ (∀ r, r ∈ s_items series → ∃ p, p ∈ pts ∧ (p.1 == datetime_to_hour r.1)%Q)
    ∧ (∀ p, p ∈ pts →
         samples_at series p.1 ≠ [] ∧ p.2 = [mean (samples_at series p.1).*2]).
Proof.
  intros Hne. eexists. split; [by apply average_day_plotter_eq|].
  set (ks := map (λ r, datetime_to_hour r.1) (s_items series)).
  assert (Hfst : (map (λ h, (h, [mean (samples_at series h).*2])) (group_keys ks)).*1
                 = group_keys ks).
  { generalize (group_keys ks). intros l.
    induction l as [|h l IH]; csimpl; [done | by rewrite IH]. }
  split; [|split; [|split]].
  - intros Hnil. subst ks. by rewrite Hnil.
  - rewrite Hfst. apply group_keys_sorted.
  - intros r Hr.
    destruct (group_keys_complete ks (datetime_to_hour r.1)) as (h & Hh & Hhk).
    { subst ks. apply list_elem_of_In, in_map_iff. exists r.
      split; [done | by apply list_elem_of_In]. }
    exists (h, [mean (samples_at series h).*2]). split; [|done].
    apply list_elem_of_In, in_map_iff. exists h. split; [done | by apply list_elem_of_In].
  - intros p Hp.
    apply list_elem_of_In, in_map_iff in Hp as (h & <- & Hh). simpl.
    split; [|done].
    apply list_elem_of_In, group_keys_sound in Hh.
    subst ks. apply list_elem_of_In, in_map_iff in Hh as (r & Hr & Hin).
    intros Hnil. apply list_elem_of_In in Hin.
    eapply (filter_nil_not_elem_of _ _ r); [exact Hnil | | exact Hin].
    simpl. rewrite Hr. apply Is_true_true, Qeq_bool_iff. reflexivity.
Qed.

Lemma average_day_plotter_buckets_witness :
  s_name two_days ≠ PStr "hour"
  ∧ ∃ pts, average_day_plotter two_days = Ok pts
      ∧ (s_items two_days = [] → pts = [])
      ∧ StronglySorted Qlt pts.*1
      ∧ (∀ r, r ∈ s_items two_days → ∃ p, p ∈ pts ∧ (p.1 == datetime_to_hour r.1)%Q)
      ∧ (∀ p, p ∈ pts →
           samples_at two_days p.1 ≠ [] ∧ p.2 = [mean (samples_at two_days p.1).*2]).
Proof.
  assert (Hname : s_name two_days ≠ PStr "hour") by discriminate.
  split; [exact Hname | exact (average_day_plotter_buckets two_days Hname)].
Defined.

(** Two days sampled at 00:30 and 01:00: two buckets, each the mean of the
    two days. *)
Example average_day_plotter_two_days :
  average_day_plotter two_days
  = Ok [(datetime_to_hour (at_time 0 30 0 0), [mean [2; 4]%Q]);
        (datetime_to_hour (at_time 1 0 0 0), [mean [1; 3]%Q])].
Proof. reflexivity. Qed.

(** C5 as stated fails on the empty series: the call returns normally, with
    no bucket. *)
Lemma average_day_plotter_empty_series :
  average_day_plotter {| s_name := PStr "consumption"; s_items := [] |} = Ok []
  ∧ ¬ fails (average_day_plotter {| s_name := PStr "consumption"; s_items := [] |}).
Proof. split; [reflexivity|]. intros [e He]. discriminate. Qed.

(** * The filter, the interval count and the day plots *)

(** ** Fractional hours and times of day *)

(** X1.  Two valid timestamps have the same fractional hour exactly when
    they show the same hour, minute, second and microsecond: grouping by
    fractional hour is grouping by time of day, whatever the dates and the
    nanoseconds. *)
Theorem same_hour_same_time_of_day (t1 t2 : Timestamp) :
  valid_time t1 → valid_time t2 →
  (datetime_to_hour t1 == datetime_to_hour t2)%Q
  ↔ hour t1 = hour t2 ∧ minute t1 = minute t2 ∧ second t1 = second t2
    ∧ microsecond t1 = microsecond t2.
Proof.
  intros H1 H2. rewrite !datetime_to_hour_us.
  unfold Qeq, us_of_day, valid_time in *. simpl. split.
  - intros Heq. lia.
  - intros (-> & -> & -> & ->). reflexivity.
Qed.

Lemma same_hour_same_time_of_day_witness :
  valid_time (at_time 1 0 0 0) ∧ valid_time (mkTimestamp 2016 1 5 1 0 0 0 7)
  ∧ (datetime_to_hour (at_time 1 0 0 0)
     == datetime_to_hour (mkTimestamp 2016 1 5 1 0 0 0 7))%Q.
Proof.
  assert (H1 : valid_time (at_time 1 0 0 0)) by (unfold valid_time; simpl; lia).
  assert (H2 : valid_time (mkTimestamp 2016 1 5 1 0 0 0 7))
    by (unfold valid_time; simpl; lia).
  split; [exact H1|]. split; [exact H2|].
  by apply (same_hour_same_time_of_day _ _ H1 H2).
Defined.

(** ** [intervals_per_day] *)

Lemma timedelta_seconds_range (ns : Z) : 0 <= timedelta_seconds ns < 86400.
Proof.
  unfold timedelta_seconds.
  pose proof (Z.mod_pos_bound ns 86400000000000 eq_refl) as Hm.
  split.
  - apply Z.div_pos; lia.
  - apply Z.div_lt_upper_bound; lia.
Qed.

(** Truncating the quotient of the day by a positive number of seconds is
    integer division. *)
Lemma py_int_day_div (s : Z) :
  0 < s → py_int ((3600 * 24) / inject_Z s)%Q = 86400 / s.
Proof.
  intros Hs. destruct s as [|p|p]; try lia.
  unfold py_int. simpl. apply Z.quot_div_nonneg; lia.
Qed.

Lemma intervals_per_day_eq (x : DfOrSeries) :
  intervals_per_day x =
    match index_of x with
    | t0 :: t1 :: _ =>
        let s := timedelta_seconds (ts_value t1 - ts_value t0) in
        if s =? 0 then Raise ZeroDivisionError else Ok (86400 / s)
    | _ => Raise IndexError
    end.
Proof.
  unfold intervals_per_day, index_getitem.
  destruct (index_of x) as [|t0 [|t1 rest]]; try reflexivity.
  cbn [lookup list_lookup mbind result_bind].
  pose proof (timedelta_seconds_range (ts_value t1 - ts_value t0)) as Hr.
  cbv zeta. destruct (Z.eqb_spec (timedelta_seconds (ts_value t1 - ts_value t0)) 0); [done|].
  f_equal. apply py_int_day_div. lia.
Qed.

(** X2.  [intervals_per_day] looks at the first two labels only.  With fewer
    than two rows it raises [IndexError]; when the seconds of their
    difference are 0 it raises [ZeroDivisionError]; otherwise it returns the
    integer quotient of 86400 by those seconds, which lies between 1 and
    86400. *)
Theorem intervals_per_day_cases (x : DfOrSeries) :
  match index_of x with
  | t0 :: t1 :: _ =>
      let s := timedelta_seconds (ts_value t1 - ts_value t0) in
      (s = 0 ∧ intervals_per_day x = Raise ZeroDivisionError)
      ∨ (0 < s < 86400 ∧ intervals_per_day x = Ok (86400 / s)
         ∧ 1 <= 86400 / s <= 86400)
  | _ => intervals_per_day x = Raise IndexError
  end.
Proof.
  rewrite intervals_per_day_eq.
  destruct (index_of x) as [|t0 [|t1 rest]]; try reflexivity.
  cbv zeta.
  pose proof (timedelta_seconds_range (ts_value t1 - ts_value t0)) as Hr.
  destruct (Z.eqb_spec (timedelta_seconds (ts_value t1 - ts_value t0)) 0) as [E|E].
  - left. by split.
  - right. split; [lia|]. split; [done|]. split.
    + apply Z.div_le_lower_bound; lia.
    + apply Z.div_le_upper_bound; lia.
Qed.

(** X4.  In terms of the timestamps: when the second label is a whole number
    of days after (or before) the first, as in daily data, or less than a
    second after it, the call raises [ZeroDivisionError]; when it is g
    seconds after the first, with 0 < g < 86400, the result is the integer
    quotient of 86400 by g, also when whole days lie in between. *)
Theorem intervals_per_day_gap (x : DfOrSeries) (t0 t1 : Timestamp)
    (rest : list Timestamp) (days g sub : Z) :
  index_of x = t0 :: t1 :: rest →
  ts_value t1 = ts_value t0 + days * 86400000000000 + g * 1000000000 + sub →
  0 <= g < 86400 → 0 <= sub < 1000000000 →
  intervals_per_day x = if g =? 0 then Raise ZeroDivisionError else Ok (86400 / g).
Proof.
  intros Hidx Hgap Hg Hsub. rewrite intervals_per_day_eq, Hidx. cbv zeta.
  assert (Hs : timedelta_seconds (ts_value t1 - ts_value t0) = g).
  { unfold timedelta_seconds.
    replace (ts_value t1 - ts_value t0)
      with (g * 1000000000 + sub + days * 86400000000000) by lia.
    rewrite Z.mod_add by lia. rewrite Z.mod_small by lia.
    rewrite Z.div_add_l by lia. rewrite (Z.div_small sub) by lia. lia. }
  by rewrite Hs.
Qed.

Lemma intervals_per_day_gap_witness :
  index_of week = [midnight 2016 1 3; midnight 2016 1 4; midnight 2016 1 5; midnight 2016 2 6]
  ∧ ts_value (midnight 2016 1 4) = ts_value (midnight 2016 1 3) + 1 * 86400000000000
                                   + 0 * 1000000000 + 0
  ∧ intervals_per_day week = Raise ZeroDivisionError.
Proof.
  split; [reflexivity|]. split; [reflexivity|].
  exact (intervals_per_day_gap week _ _ _ 1 0 0 eq_refl eq_refl
           ltac:(lia) ltac:(lia)).
Defined.

(** ** [filter_days]: errors and composition *)

Lemma list_like_error (v : pyval) (e : exn) : list_like v = Raise e → e = TypeError.
Proof. destruct v; simpl; congruence. Qed.

(** Each of the two steps either raises [TypeError] whatever the index, or
    applies a mask that does not depend on the index. *)
Lemma filter_months_shape (m : pyval) :
  (∀ idx, filter_months m idx = Raise TypeError)
  ∨ (∃ pm : Timestamp → bool, ∀ idx, filter_months m idx = Ok (filter (λ t, pm t) idx)).
Proof.
  unfold filter_months. destruct (py_truthy m).
  - destruct (list_like (if py_is_int m then PList [m] else m)) as [values|e] eqn:E.
    + right. by exists (λ t, isin (month t) values).
    + left. intros idx. by rewrite (list_like_error _ _ E).
  - right. exists (λ _, true). intros idx. f_equal. symmetry. by apply filter_all.
Qed.

Lemma filter_dayofweek_shape (d : pyval) :
  (∀ idx, filter_dayofweek d idx = Raise TypeError)
  ∨ (∃ pd : Timestamp → bool, ∀ idx, filter_dayofweek d idx = Ok (filter (λ t, pd t) idx)).
Proof.
  unfold filter_dayofweek. destruct (py_truthy d).
  - destruct (list_like (expand_days_of_week d)) as [values|e] eqn:E.
    + right. by exists (λ t, isin (dayofweek t) values).
    + left. intros idx. by rewrite (list_like_error _ _ E).
  - right. exists (λ _, true). intros idx. f_equal. symmetry. by apply filter_all.
Qed.

Lemma filter_days_raise_months (y : DfOrSeries) (d m : pyval) :
  (∀ idx, filter_months m idx = Raise TypeError) → filter_days y d m = Raise TypeError.
Proof. intros H. unfold filter_days. by rewrite H. Qed.

Lemma filter_days_raise_days (y : DfOrSeries) (d m : pyval) :
  (∀ idx, filter_dayofweek d idx = Raise TypeError) → filter_days y d m = Raise TypeError.
Proof.
  intros H. unfold filter_days.
  destruct (filter_months_shape m) as [Hm|[pm Hm]]; rewrite Hm; [done|].
  cbn [mbind result_bind]. by rewrite H.
Qed.

Lemma select_select (x : DfOrSeries) (p1 p2 : Timestamp → bool) :
  select p2 (select p1 x) = select (λ t, p1 t && p2 t) x.
Proof.
  destruct x as [[c r]|[n i]]; simpl; f_equal; f_equal;
    rewrite list_filter_filter; apply list_filter_iff; intros r0;
    rewrite andb_True; tauto.
Qed.

Lemma select_labels_distinct (x : DfOrSeries) (p : Timestamp → bool) :
  NoDup (index_of x) → NoDup (index_of (select p x)).
Proof. intros H. rewrite index_of_select. by apply NoDup_filter. Qed.

Lemma filter_days_months_only (x : DfOrSeries) (m : pyval) (pm : Timestamp → bool) :
  NoDup (index_of x) →
  (∀ idx, filter_months m idx = Ok (filter (λ t, pm t) idx)) →
  filter_days x PNone m = Ok (select pm x).
Proof.
  intros Hnd Hm.
  rewrite (filter_days_masks x PNone m pm (λ _, true) Hnd Hm
             (λ idx, filter_dayofweek_absent PNone idx eq_refl)).
  f_equal. apply select_ext. intros t. by rewrite andb_true_r.
Qed.

Lemma filter_days_days_only (x : DfOrSeries) (d : pyval) (pd : Timestamp → bool) :
  NoDup (index_of x) →
  (∀ idx, filter_dayofweek d idx = Ok (filter (λ t, pd t) idx)) →
  filter_days x d PNone = Ok (select pd x).
Proof.
  intros Hnd Hd.
  by rewrite (filter_days_masks x d PNone (λ _, true) pd Hnd
                (λ idx, filter_months_absent PNone idx eq_refl) Hd).
Qed.

(** X5.  On a table with distinct timestamps, filtering by months and days
    at once is filtering by months and then filtering the result by days,
    and also the other way round; this holds for all selectors, the failing
    ones included. *)
Theorem filter_days_in_two_steps (x : DfOrSeries) (d m : pyval) :
  NoDup (index_of x) →
  filter_days x d m = (y ← filter_days x PNone m; filter_days y d PNone)
  ∧ filter_days x d m = (y ← filter_days x d PNone; filter_days y PNone m).
Proof.
  intros Hnd.
  destruct (filter_months_shape m) as [Hm|[pm Hm]];
    destruct (filter_dayofweek_shape d) as [Hd|[pd Hd]].
  - rewrite !(filter_days_raise_months _ _ m Hm), (filter_days_raise_days _ d _ Hd).
    done.
  - rewrite !(filter_days_raise_months _ _ m Hm).
    rewrite (filter_days_days_only x d pd Hnd Hd). cbn [mbind result_bind].
    by rewrite (filter_days_raise_months _ _ m Hm).
  - rewrite !(filter_days_raise_days _ d _ Hd).
    rewrite (filter_days_months_only x m pm Hnd Hm). cbn [mbind result_bind].
    by rewrite (filter_days_raise_days _ d _ Hd).
  - rewrite (filter_days_masks x d m pm pd Hnd Hm Hd).
    rewrite (filter_days_months_only x m pm Hnd Hm),
      (filter_days_days_only x d pd Hnd Hd).
    cbn [mbind result_bind].
    rewrite (filter_days_days_only _ d pd (select_labels_distinct x pm Hnd) Hd).
    rewrite (filter_days_months_only _ m pm (select_labels_distinct x pd Hnd) Hm).
    rewrite !select_select. split; [done|].
    f_equal. apply select_ext. intros t. apply andb_comm.
Qed.

Lemma filter_days_in_two_steps_witness :
  NoDup (index_of week)
  ∧ filter_days week (PInt 1) (PInt 1)
    = (y ← filter_days week PNone (PInt 1); filter_days y (PInt 1) PNone).
Proof.
  split; [exact week_labels_distinct|].
  exact (proj1 (filter_days_in_two_steps week (PInt 1) (PInt 1) week_labels_distinct)).
Defined.

(** X6.  Filtering is idempotent: applying the same selectors to the result
    changes nothing (and a call that fails, fails again). *)
Theorem filter_days_idempotent (x : DfOrSeries) (d m : pyval) :
  NoDup (index_of x) →
  (y ← filter_days x d m; filter_days y d m) = filter_days x d m.
Proof.
  intros Hnd.
  destruct (filter_months_shape m) as [Hm|[pm Hm]].
  { by rewrite !(filter_days_raise_months _ _ m Hm). }
  destruct (filter_dayofweek_shape d) as [Hd|[pd Hd]].
  { by rewrite !(filter_days_raise_days _ d _ Hd). }
  rewrite (filter_days_masks x d m pm pd Hnd Hm Hd). cbn [mbind result_bind].
  rewrite (filter_days_masks _ d m pm pd (select_labels_distinct x _ Hnd) Hm Hd).
  rewrite select_select. f_equal. apply select_ext. intros t.
  by destruct (pm t), (pd t).
Qed.

Lemma filter_days_idempotent_witness :
  NoDup (index_of week)
  ∧ (y ← filter_days week (PStr "weekday") (PInt 1); filter_days y (PStr "weekday") (PInt 1))
    = filter_days week (PStr "weekday") (PInt 1).
Proof.
  split; [exact week_labels_distinct|].
  exact (filter_days_idempotent week (PStr "weekday") (PInt 1) week_labels_distinct).
Defined.

(** X7.  The two presets split a table: every row is kept by exactly one of
    "weekday" and "weekend". *)
Theorem weekday_weekend_partition (x : DfOrSeries) :
  NoDup (index_of x) →
  ∃ a b, filter_days x (PStr "weekday") PNone = Ok a
    ∧ filter_days x (PStr "weekend") PNone = Ok b
    ∧ index_of a ++ index_of b ≡ₚ index_of x
    ∧ (nrows a + nrows b = nrows x)%nat
    ∧ ∀ t, ¬ (t ∈ index_of a ∧ t ∈ index_of b).
Proof.
  intros Hnd. destruct (presets_in_pandas_numbering x Hnd) as [Ha Hb].
  eexists _, _. split; [exact Ha|]. split; [exact Hb|].
  rewrite !index_of_select.
  assert (Hcompl : filter (λ t, 5 <=? dayofweek t) (index_of x)
                   = filter (λ t, ¬ (dayofweek t <? 5)) (index_of x)).
  { apply list_filter_iff. intros t.
    rewrite !Is_true_true, Z.leb_le, Z.ltb_lt. lia. }
  assert (Hperm : filter (λ t, dayofweek t <? 5) (index_of x)
                  ++ filter (λ t, 5 <=? dayofweek t) (index_of x) ≡ₚ index_of x).
  { rewrite Hcompl. apply filter_app_complement. }
  split; [exact Hperm|]. split.
  - unfold nrows. rewrite !index_of_select, <-length_app. by rewrite Hperm.
  - intros t [Ht1 Ht2].
    apply list_elem_of_filter in Ht1 as [Ht1 _].
    apply list_elem_of_filter in Ht2 as [Ht2 _].
    apply Is_true_true in Ht1, Ht2. apply Z.ltb_lt in Ht1. apply Z.leb_le in Ht2. lia.
Qed.

Lemma weekday_weekend_partition_witness :
  NoDup (index_of week)
  ∧ ∃ a b, filter_days week (PStr "weekday") PNone = Ok a
      ∧ filter_days week (PStr "weekend") PNone = Ok b
      ∧ index_of a ++ index_of b ≡ₚ index_of week
      ∧ (nrows a + nrows b = nrows week)%nat
      ∧ ∀ t, ¬ (t ∈ index_of a ∧ t ∈ index_of b).
Proof.
  split; [exact week_labels_distinct|].
  exact (weekday_weekend_partition week week_labels_distinct).
Defined.

(** X8.  A selector of a type the code does not handle is an error, not an
    empty selection: a non-empty string for [months], a non-empty string
    other than the four preset names for [days_of_week], and [True] for
    either of them raise [TypeError], whatever the table and the other
    selector. *)
Theorem unknown_selector_raises (x : DfOrSeries) (other : pyval) (s : string) :
  s ≠ "" →
  filter_days x other (PStr s) = Raise TypeError
  ∧ (s ≠ "weekday" → s ≠ "wkday" → s ≠ "weekend" → s ≠ "wkend" →
     filter_days x (PStr s) other = Raise TypeError)
  ∧ filter_days x other (PBool true) = Raise TypeError
  ∧ filter_days x (PBool true) other = Raise TypeError.
Proof.
  intros Hs.
  assert (Ht : py_truthy (PStr s) = true).
  { simpl. apply negb_true_iff, String.eqb_neq. done. }
  split; [|split; [|split]].
  - apply filter_days_raise_months. intros idx. unfold filter_months. by rewrite Ht.
  - intros H1 H2 H3 H4. apply filter_days_raise_days. intros idx.
    unfold filter_dayofweek. rewrite Ht.
    assert (He : expand_days_of_week (PStr s) = PStr s).
    { unfold expand_days_of_week, py_in. cbn [py_is_int existsb].
      rewrite !(proj2 (py_eqb_false _ _)); [done|..]; simpl; congruence. }
    by rewrite He.
  - by apply filter_days_raise_months.
  - by apply filter_days_raise_days.
Qed.

Lemma unknown_selector_raises_witness :
  "holiday"%string ≠ ""%string
  ∧ filter_days week (PStr "holiday") PNone = Raise TypeError.
Proof.
  assert (Hs : "holiday"%string ≠ ""%string) by discriminate.
  split; [exact Hs|].
  apply (proj1 (proj2 (unknown_selector_raises week PNone "holiday" Hs)));
    discriminate.
Defined.

(** ** [filter_days] on repeated labels *)

Section Repeated.
Context {A : Type}.
Implicit Types (rs : list (Timestamp * A)) (keys : list Timestamp).

Lemma filter_label_present rs k :
  k ∈ rs.*1 → (1 ≤ length (filter (λ r, r.1 = k) rs))%nat.
Proof.
  intros (r & -> & Hr)%list_elem_of_fmap.
  assert (Hin : r ∈ filter (λ r', r'.1 = r.1) rs) by (by apply list_elem_of_filter).
  destruct (filter (λ r', r'.1 = r.1) rs); [by apply elem_of_nil in Hin | simpl; lia].
Qed.

(** Looking labels of the table up returns at least one row per label, and
    exactly one per label only if every label looked up occurs once. *)
Lemma loc_rows_length rs keys :
  (∀ k, k ∈ keys → k ∈ rs.*1) →
  (length keys ≤ length (loc_rows rs keys))%nat
  ∧ (length (loc_rows rs keys) = length keys →
     ∀ k, k ∈ keys → length (filter (λ r, r.1 = k) rs) = 1%nat).
Proof.
  unfold loc_rows. induction keys as [|k keys IH]; intros Hin.
  - split; [done|]. by intros _ k ?%elem_of_nil.
  - rewrite bind_cons, length_app. cbn [length].
    pose proof (filter_label_present rs k (Hin k ltac:(by left))) as Hk.
    destruct IH as [IH1 IH2]; [intros k' Hk'; apply Hin; by right|].
    split; [lia|].
    intros Heq k' [->|Hk']%elem_of_cons; [lia|]. apply IH2; [lia | done].
Qed.

Lemma labels_once_distinct rs :
  (∀ k, k ∈ rs.*1 → length (filter (λ r, r.1 = k) rs) = 1%nat) → NoDup rs.*1.
Proof.
  induction rs as [|r rs IH]; intros Hone; [constructor|].
  rewrite fmap_cons. apply NoDup_cons. split.
  - intros Hin. specialize (Hone r.1 ltac:(by left)).
    rewrite filter_cons_True in Hone by done.
    pose proof (filter_label_present rs r.1 Hin). simpl in Hone. lia.
  - apply IH. intros k Hk.
    pose proof (filter_label_present rs k Hk) as H1.
    specialize (Hone k ltac:(by right)).
    rewrite filter_cons in Hone. destruct (decide (r.1 = k)); simpl in Hone; lia.
Qed.

Lemma loc_rows_identity_distinct rs :
  loc_rows rs rs.*1 = rs → NoDup rs.*1.
Proof.
  intros Heq. apply labels_once_distinct.
  apply (proj2 (loc_rows_length rs rs.*1 (λ k Hk, Hk))).
  by rewrite Heq, length_fmap.
Qed.

End Repeated.

(** X9.  Without selectors the filter returns its input exactly when the
    timestamps of the input are pairwise distinct; it never returns fewer
    rows, and with a repeated timestamp it returns more. *)
Theorem filter_days_identity_iff (x : DfOrSeries) :
  (filter_days x PNone PNone = Ok x ↔ NoDup (index_of x))
  ∧ ∃ y, filter_days x PNone PNone = Ok y ∧ (nrows x ≤ nrows y)%nat
      ∧ (¬ NoDup (index_of x) → (nrows x < nrows y)%nat).
Proof.
  assert (Hrun : filter_days x PNone PNone = Ok (loc x (index_of x))) by done.
  assert (Hlen : nrows (loc x (index_of x))
                 = match x with
                   | DF d => length (loc_rows (rows d) (rows d).*1)
                   | SER s => length (loc_rows (s_items s) (s_items s).*1)
                   end).
  { unfold nrows. destruct x as [d|s]; simpl; by rewrite length_fmap. }
  split.
  - split; [|intros Hnd; by apply filter_days_falsy].
    rewrite Hrun. intros [= Heq].
    destruct x as [[c r]|[n i]]; simpl in *; injection Heq as Heq;
      by apply loc_rows_identity_distinct.
  - exists (loc x (index_of x)). split; [done|]. rewrite Hlen. unfold nrows.
    destruct x as [[c r]|[n i]]; simpl.
    + destruct (loc_rows_length r r.*1 (λ k Hk, Hk)) as [H1 H2].
      rewrite length_fmap in *. split; [done|]. intros Hdup.
      destruct (decide (length (loc_rows r r.*1) = length r)) as [E|E]; [|lia].
      destruct Hdup. apply labels_once_distinct. by apply H2.
    + destruct (loc_rows_length i i.*1 (λ k Hk, Hk)) as [H1 H2].
      rewrite length_fmap in *. split; [done|]. intros Hdup.
      destruct (decide (length (loc_rows i i.*1) = length i)) as [E|E]; [|lia].
      destruct Hdup. apply labels_once_distinct. by apply H2.
Qed.

(** ** [average_day_plotter]: more on the buckets *)

Lemma insert_key_length (k : Q) (l : list Q) :
  (length (insert_key k l) ≤ S (length l))%nat.
Proof.
  induction l as [|x l IH]; simpl; [lia|].
  destruct (k ?= x)%Q; simpl; lia.
Qed.

Lemma group_keys_length (ks : list Q) : (length (group_keys ks) ≤ length ks)%nat.
Proof.
  induction ks as [|k ks IH]; simpl; [lia|].
  pose proof (insert_key_length k (group_keys ks)). lia.
Qed.

(** X10.  For a series that is not named "hour": there are at most as many
    buckets as samples, every bucket key is the fractional hour of a
    sample, and with valid timestamps every key lies in [0, 24), inside the
    limits the function gives the x axis. *)
Theorem average_day_plotter_keys (series : Series) (pts : list (Q * list Q)) :
  s_name series ≠ PStr "hour" →
  average_day_plotter series = Ok pts →
  (length pts ≤ length (s_items series))%nat
  ∧ (∀ p, p ∈ pts → ∃ r, r ∈ s_items series ∧ p.1 = datetime_to_hour r.1)
  ∧ ((∀ r, r ∈ s_items series → valid_time r.1) →
     ∀ p, p ∈ pts → (0 <= p.1)%Q ∧ (p.1 < 24)%Q).
Proof.
  intros Hne. rewrite (average_day_plotter_eq series Hne). intros [= <-].
  set (ks := map (λ r, datetime_to_hour r.1) (s_items series)).
  assert (Hkey : ∀ p, p ∈ map (λ h, (h, [mean (samples_at series h).*2])) (group_keys ks) →
                 ∃ r, r ∈ s_items series ∧ p.1 = datetime_to_hour r.1).
  { intros p Hp. apply list_elem_of_In, in_map_iff in Hp as (h & <- & Hh).
    apply list_elem_of_In, group_keys_sound in Hh.
    subst ks. apply list_elem_of_In, in_map_iff in Hh as (r & Hr & Hin).
    exists r. split; [by apply list_elem_of_In | done]. }
  split; [|split; [exact Hkey|]].
  - rewrite length_map. etrans; [apply group_keys_length|].
    subst ks. by rewrite length_map.
  - intros Hvalid p Hp. destruct (Hkey p Hp) as (r & Hr & ->).
    specialize (Hvalid r Hr).
    pose proof (us_of_day_bounds r.1 Hvalid) as Hb.
    rewrite datetime_to_hour_us. unfold Qle, Qlt; simpl. lia.
Qed.

Lemma average_day_plotter_keys_witness :
  s_name two_days ≠ PStr "hour"
  ∧ ∃ pts, average_day_plotter two_days = Ok pts
      ∧ (length pts ≤ length (s_items two_days))%nat.
Proof.
  assert (Hname : s_name two_days ≠ PStr "hour") by discriminate.
  split; [exact Hname|].
  eexists. split; [reflexivity|].
  exact (proj1 (average_day_plotter_keys two_days _ Hname eq_refl)).
Defined.

Lemma average_day_plotter_hour_eq (series : Series) :
  s_name series = PStr "hour" →
  average_day_plotter series =
    Ok (map (λ h, (h, [])) (group_keys (map (λ r, datetime_to_hour r.1) (s_items series)))).
Proof.
  intros Hname. unfold average_day_plotter, assign_column, to_frame.
  rewrite Hname. cbn [columns rows index_of py_in existsb].
  change (py_eqb (PStr "hour") (PStr "hour")) with true. cbn [orb].
  unfold groupby_mean. cbn [columns rows col_index].
  change (py_eqb (PStr "hour") (PStr "hour")) with true.
  cbn [length Nat.sub]. f_equal.
  assert (Hrows : zip_with
            (λ (r : Timestamp * list Q) (v : Q),
               (r.1, zip_with (λ (c : pyval) (x : Q),
                                 if py_eqb c (PStr "hour") then v else x)
                       [PStr "hour"] r.2))
            (map (λ r : Timestamp * Q, (r.1, [r.2])) (s_items series))
            (map datetime_to_hour (s_items series).*1)
          = map (λ r : Timestamp * Q, (r.1, [datetime_to_hour r.1])) (s_items series)).
  { induction (s_items series) as [|r items IH]; [done|].
    csimpl. f_equal. exact IH. }
  rewrite Hrows, map_map. cbn [snd fst lookup list_lookup default from_option id].
  apply map_ext. intros h. done.
Qed.

(** X11.  A series that is itself named "hour" loses its values: the column
    of fractional hours overwrites them, and every bucket is plotted without
    a value. *)
Theorem average_day_plotter_named_hour (series : Series) :
  s_name series = PStr "hour" →
  average_day_plotter series =
    Ok (map (λ h, (h, [])) (group_keys (map (λ r, datetime_to_hour r.1) (s_items series)))).
Proof. apply average_day_plotter_hour_eq. Qed.

(** A series named "hour", with the samples of [two_days]. *)
Lemma average_day_plotter_named_hour_witness :
  average_day_plotter {| s_name := PStr "hour"; s_items := s_items two_days |}
  = Ok [(datetime_to_hour (at_time 0 30 0 0), []);
        (datetime_to_hour (at_time 1 0 0 0), [])].
Proof.
  exact (average_day_plotter_named_hour
           {| s_name := PStr "hour"; s_items := s_items two_days |} eq_refl).
Defined.

(** ** [overlay_days_plotter] *)

Section Dates.
Implicit Types (a b c d : Z * Z * Z) (l : list (Z * Z * Z)).

Lemma date_compare_lt a b :
  date_compare a b = Lt ↔
  a.1.1 < b.1.1 ∨ (a.1.1 = b.1.1 ∧ (a.1.2 < b.1.2 ∨ (a.1.2 = b.1.2 ∧ a.2 < b.2))).
Proof.
  unfold date_compare.
  destruct (Z.compare_spec a.1.1 b.1.1), (Z.compare_spec a.1.2 b.1.2),
    (Z.compare_spec a.2 b.2); split; try discriminate; try lia; done.
Qed.

Lemma date_compare_gt a b : date_compare a b = Gt ↔ date_compare b a = Lt.
Proof.
  rewrite date_compare_lt. unfold date_compare.
  destruct (Z.compare_spec a.1.1 b.1.1), (Z.compare_spec a.1.2 b.1.2),
    (Z.compare_spec a.2 b.2); split; try discriminate; try lia; done.
Qed.

Lemma date_compare_eq a b : date_compare a b = Eq ↔ a = b.
Proof.
  destruct a as [[y1 m1] d1], b as [[y2 m2] d2]. unfold date_compare. simpl.
  destruct (Z.compare_spec y1 y2), (Z.compare_spec m1 m2), (Z.compare_spec d1 d2);
    split; try discriminate; try congruence; intros [= ? ? ?]; lia.
Qed.

Lemma date_lt_trans a b c : date_lt a b → date_lt b c → date_lt a c.
Proof. unfold date_lt. rewrite !date_compare_lt. lia. Qed.

Lemma date_lt_irrefl a : ¬ date_lt a a.
Proof. unfold date_lt. rewrite date_compare_lt. lia. Qed.

Lemma insert_date_elem d x l : x ∈ insert_date d l ↔ x = d ∨ x ∈ l.
Proof.
  induction l as [|y l IH]; simpl.
  - rewrite list_elem_of_singleton, elem_of_nil. tauto.
  - destruct (date_compare d y) eqn:Hc.
    + apply date_compare_eq in Hc as ->. rewrite elem_of_cons. tauto.
    + rewrite elem_of_cons. tauto.
    + rewrite !elem_of_cons, IH. tauto.
Qed.

Lemma insert_date_sorted d l :
  StronglySorted date_lt l → StronglySorted date_lt (insert_date d l).
Proof.
  induction 1 as [|y l Hs IH Hall]; simpl.
  - repeat constructor.
  - destruct (date_compare d y) eqn:Hc.
    + by constructor.
    + constructor; [by constructor|]. constructor; [done|].
      eapply Forall_impl; [exact Hall|]. intros z Hz. by eapply date_lt_trans.
    + apply date_compare_gt in Hc. constructor; [done|].
      apply Forall_forall. intros z [->|Hz]%insert_date_elem; [done|].
      rewrite Forall_forall in Hall. by apply Hall.
Qed.

Lemma unique_dates_sorted (idx : list Timestamp) :
  StronglySorted date_lt (unique_dates idx).
Proof.
  unfold unique_dates.
  induction idx as [|t idx IH]; csimpl; [constructor | by apply insert_date_sorted].
Qed.

Lemma unique_dates_elem (idx : list Timestamp) d :
  d ∈ unique_dates idx ↔ ∃ t, t ∈ idx ∧ date_of t = d.
Proof.
  unfold unique_dates. induction idx as [|t idx IH]; csimpl.
  - rewrite elem_of_nil. split; [done|]. by intros (t & ?%elem_of_nil & _).
  - rewrite insert_date_elem, IH. split.
    + intros [->|(t' & Ht' & <-)]; [exists t; split; [by left | done]|].
      exists t'. split; [by right | done].
    + intros (t' & [->|Ht']%elem_of_cons & <-); [by left|].
      right. by exists t'.
Qed.

Lemma sorted_dates_distinct l : StronglySorted date_lt l → NoDup l.
Proof.
  induction 1 as [|y l Hs IH Hall]; constructor; [|done].
  intros Hin. rewrite Forall_forall in Hall.
  by apply (date_lt_irrefl y), Hall.
Qed.

End Dates.

Lemma map_result_ok {A B} (f : A → result B) (g : A → B) (l : list A) :
  (∀ x, x ∈ l → f x = Ok (g x)) → map_result f l = Ok (g <$> l).
Proof.
  induction l as [|x l IH]; intros H; [done|].
  cbn [map_result]. rewrite (H x) by (by left). cbn [mbind result_bind].
  rewrite IH; [done|]. intros y Hy. apply H. by right.
Qed.

Lemma rows_on_date (series : Series) (d : Z * Z * Z) :
  d ∈ unique_dates (s_items series).*1 ↔ rows_on series d ≠ [].
Proof.
  rewrite unique_dates_elem. unfold rows_on. split.
  - intros (t & (r & -> & Hr)%list_elem_of_fmap & Hd) Hnil.
    by eapply (filter_nil_not_elem_of _ _ r).
  - intros Hne. destruct (filter _ _) as [|r rs] eqn:E; [done|].
    assert (Hr : r ∈ filter (λ r, date_of r.1 = d) (s_items series))
      by (rewrite E; by left).
    apply list_elem_of_filter in Hr as [Hd Hr].
    exists r.1. split; [by apply list_elem_of_fmap_2 | done].
Qed.

Lemma overlay_days_plotter_eq (series : Series) (label : pyval) :
  day_resolution (s_items series).*1 = false →
  overlay_days_plotter series label =
    Ok {| day_lines := (λ d, line_of (rows_on series d)) <$> unique_dates (s_items series).*1;
          legend := if py_truthy label then Some label else None |}.
Proof.
  intros Hres. unfold overlay_days_plotter.
  rewrite (map_result_ok _ (λ d, line_of (rows_on series d))); [done|].
  intros d Hd%rows_on_date. unfold loc_date. rewrite Hres.
  fold (rows_on series d). by destruct (rows_on series d).
Qed.

Section Groups.
Context {A K : Type} `{EqDecision K} (key : A → K).

Lemma filter_disjoint_union (P Q : A → Prop)
    `{!∀ x, Decision (P x)} `{!∀ x, Decision (Q x)} (l : list A) :
  (∀ x, P x → Q x → False) →
  filter P l ++ filter Q l ≡ₚ filter (λ x, P x ∨ Q x) l.
Proof.
  intros Hdisj. induction l as [|x l IH]; [done|].
  rewrite !filter_cons.
  destruct (decide (P x)) as [HP|HP], (decide (Q x)) as [HQ|HQ].
  - destruct (Hdisj x HP HQ).
  - rewrite decide_True by tauto. simpl. by rewrite IH.
  - rewrite decide_True by tauto. rewrite <-Permutation_middle. by rewrite IH.
  - rewrite decide_False by tauto. done.
Qed.

(** Grouping by distinct keys splits the rows that carry one of the keys. *)
Lemma groups_partition (ks : list K) (l : list A) :
  NoDup ks →
  concat ((λ k, filter (λ x, key x = k) l) <$> ks) ≡ₚ filter (λ x, key x ∈ ks) l.
Proof.
  induction 1 as [|k ks Hk Hnd IH]; csimpl.
  - induction l as [|x l IHl]; [done|].
    rewrite filter_cons_False; [done|]. apply not_elem_of_nil.
  - rewrite IH. rewrite filter_disjoint_union.
    + erewrite list_filter_iff; [done|]. intros x. simpl. rewrite elem_of_cons. done.
    + intros x -> Hin. done.
Qed.

End Groups.

(** X13.  When some timestamp of the series is not at midnight, the plot has
    one line per distinct date, in ascending order of the dates; the line of
    a date holds the samples of that date in the order of the series, each
    at its fractional hour.  The legend entry is there when a label is
    given. *)
Theorem overlay_days_plotter_lines (series : Series) (label : pyval) :
  day_resolution (s_items series).*1 = false →
  ∃ plot, overlay_days_plotter series label = Ok plot
    ∧ day_lines plot
      = (λ d, line_of (rows_on series d)) <$> unique_dates (s_items series).*1
    ∧ StronglySorted date_lt (unique_dates (s_items series).*1)
    ∧ (∀ d, d ∈ unique_dates (s_items series).*1
            ↔ ∃ r, r ∈ s_items series ∧ date_of r.1 = d)
    ∧ legend plot = if py_truthy label then Some label else None.
Proof.
  intros Hres. eexists. split; [by apply overlay_days_plotter_eq|].
  split; [done|]. split; [apply unique_dates_sorted|]. split; [|done].
  intros d. rewrite unique_dates_elem. split.
  - intros (t & (r & -> & Hr)%list_elem_of_fmap & Hd). by exists r.
  - intros (r & Hr & Hd). exists r.1. split; [by apply list_elem_of_fmap_2 | done].
Qed.

Lemma two_days_resolution : day_resolution (s_items two_days).*1 = false.
Proof. reflexivity. Qed.

Lemma overlay_days_plotter_lines_witness :
  day_resolution (s_items two_days).*1 = false
  ∧ ∃ plot, overlay_days_plotter two_days (PStr "consumption") = Ok plot
      ∧ day_lines plot
        = (λ d, line_of (rows_on two_days d)) <$> unique_dates (s_items two_days).*1.
Proof.
  split; [exact two_days_resolution|].
  destruct (overlay_days_plotter_lines two_days (PStr "consumption") two_days_resolution)
    as (plot & Hplot & Hlines & _).
  by exists plot.
Defined.

(** X14.  Under the same condition every sample is drawn exactly once: the
    groups of samples behind the lines are non-empty and together are a
    rearrangement of the series; with valid timestamps every x value lies in
    [0, 24). *)
Theorem overlay_days_plotter_every_sample (series : Series) (label : pyval) :
  day_resolution (s_items series).*1 = false →
  ∃ plot groups, overlay_days_plotter series label = Ok plot
    ∧ day_lines plot = line_of <$> groups
    ∧ concat groups ≡ₚ s_items series
    ∧ Forall (λ g, g ≠ []) groups
    ∧ ((∀ r, r ∈ s_items series → valid_time r.1) →
       ∀ line x, line ∈ day_lines plot → x ∈ line.1 → (0 <= x)%Q ∧ (x < 24)%Q).
Proof.
  intros Hres.
  set (dates := unique_dates (s_items series).*1).
  exists {| day_lines := (λ d, line_of (rows_on series d)) <$> dates;
            legend := if py_truthy label then Some label else None |},
         (rows_on series <$> dates).
  split; [by apply overlay_days_plotter_eq|].
  split; [by rewrite <-list_fmap_compose|].
  assert (Hperm : concat (rows_on series <$> dates) ≡ₚ s_items series).
  { unfold rows_on.
    rewrite (groups_partition (λ r : Timestamp * Q, date_of r.1) dates (s_items series))
      by apply sorted_dates_distinct, unique_dates_sorted.
    rewrite filter_all; [done|]. intros r Hr. simpl.
    apply unique_dates_elem. exists r.1. split; [by apply list_elem_of_fmap_2 | done]. }
  split; [exact Hperm|]. split.
  - apply Forall_fmap, Forall_forall. intros d Hd. by apply rows_on_date.
  - intros Hvalid line x Hline Hx. cbn [day_lines] in Hline.
    apply list_elem_of_fmap in Hline as (d & -> & Hd). cbn [line_of fst] in Hx.
    apply list_elem_of_fmap in Hx as (t & -> & Ht).
    apply list_elem_of_fmap in Ht as (r & -> & Hr).
    apply list_elem_of_filter in Hr as [_ Hr].
    pose proof (us_of_day_bounds r.1 (Hvalid r Hr)) as Hb.
    rewrite datetime_to_hour_us. unfold Qle, Qlt; simpl. lia.
Qed.

Lemma overlay_days_plotter_every_sample_witness :
  day_resolution (s_items two_days).*1 = false
  ∧ ∃ plot groups, overlay_days_plotter two_days PNone = Ok plot
      ∧ day_lines plot = line_of <$> groups
      ∧ concat groups ≡ₚ s_items two_days.
Proof.
  split; [exact two_days_resolution|].
  destruct (overlay_days_plotter_every_sample two_days PNone two_days_resolution)
    as (plot & groups & Hplot & Hlines & Hperm & _).
  by exists plot, groups.
Defined.

Lemma at_midnight_label (t : Timestamp) :
  at_midnight t = true → t = midnight (year t) (month t) (day t).
Proof.
  unfold at_midnight. rewrite !andb_true_iff, !Z.eqb_eq.
  intros ((((? & ?) & ?) & ?) & ?). destruct t; simpl in *. unfold midnight. congruence.
Qed.

(** X15.  When every timestamp is at midnight and no timestamp is repeated
    (one value per day), looking a date up selects a single value instead
    of a series, and the call raises [AttributeError] at the first date; on
    an empty series it succeeds and draws no line. *)
Theorem overlay_days_plotter_daily (series : Series) (label : pyval) :
  day_resolution (s_items series).*1 = true → NoDup (s_items series).*1 →
  overlay_days_plotter series label =
    match s_items series with
    | [] => Ok {| day_lines := [];
                  legend := if py_truthy label then Some label else None |}
    | _ => Raise AttributeError
    end.
Proof.
  intros Hres Hnd. unfold overlay_days_plotter.
  destruct (s_items series) as [|r0 items] eqn:Hitems; [done|].
  destruct (unique_dates (r0 :: items).*1) as [|d0 ds] eqn:Hdates.
  { assert (Hin : date_of r0.1 ∈ unique_dates (r0 :: items).*1).
    { apply unique_dates_elem. exists r0.1. split; [by left | done]. }
    rewrite Hdates in Hin. by apply elem_of_nil in Hin. }
  assert (Hd0 : d0 ∈ unique_dates (r0 :: items).*1) by (rewrite Hdates; by left).
  apply unique_dates_elem in Hd0 as (t & (r & -> & Hr)%list_elem_of_fmap & Hd).
  assert (Hmid : r.1 = midnight d0.1.1 d0.1.2 d0.2).
  { unfold day_resolution in Hres. rewrite forallb_forall in Hres.
    rewrite (at_midnight_label r.1).
    - by rewrite <-Hd.
    - apply Hres, list_elem_of_In. by apply list_elem_of_fmap_2. }
  cbn [map_result]. unfold loc_date. rewrite Hitems, Hres, <-Hmid.
  by rewrite (filter_label_unique (r0 :: items) r Hnd Hr).
Qed.

Lemma overlay_days_plotter_daily_witness :
  day_resolution (s_items daily).*1 = true ∧ NoDup (s_items daily).*1
  ∧ overlay_days_plotter daily PNone = Raise AttributeError.
Proof.
  assert (Hnd : NoDup (s_items daily).*1) by by_compute.
  split; [reflexivity|]. split; [exact Hnd|].
  exact (overlay_days_plotter_daily daily PNone eq_refl Hnd).
Defined.

(** ** [filter_days_plotter] *)

Lemma average_day_plotter_no_sample (name : pyval) :
  average_day_plotter {| s_name := name; s_items := [] |} = Ok [].
Proof.
  destruct (pyval_beq name (PStr "hour")) eqn:E.
  - apply pyval_beq_eq in E as ->.
    by rewrite average_day_plotter_hour_eq.
  - rewrite average_day_plotter_eq; [done|].
    simpl. intros ->. by rewrite (proj2 (pyval_beq_eq _ _) eq_refl) in E.
Qed.

Lemma filter_none {A} (l : list A) (P : A → Prop) `{!∀ x, Decision (P x)} :
  (∀ x, x ∈ l → ¬ P x) → filter P l = [].
Proof.
  induction l as [|x l IH]; intros Hnone; [done|].
  rewrite filter_cons_False by (apply Hnone; by left).
  apply IH. intros y Hy. apply Hnone. by right.
Qed.

(** X16.  When the selectors keep no row, [filter_days_plotter] does not
    fail: the average plot has no bucket, the overlay plot has no line, and
    the y axis still carries the name of the series. *)
Theorem filter_days_plotter_nothing_kept (py_format : pyval → string)
    (series : Series) (d m : pyval) :
  NoDup (s_items series).*1 → day_selector d → month_selector m →
  (∀ r, r ∈ s_items series → code_keep d m r.1 = false) →
  filter_days_plotter py_format series d m "average"
    = Ok {| fp_title := filter_title py_format d m; fp_xlabel := "Hour";
            fp_ylabel := s_name series; fp_plot := AverageOf [] |}
  ∧ filter_days_plotter py_format series d m "overlay"
    = Ok {| fp_title := filter_title py_format d m; fp_xlabel := "Hour";
            fp_ylabel := s_name series;
            fp_plot := OverlayOf {| day_lines := []; legend := None |} |}.
Proof.
  intros Hnd Hd Hm Hnone. unfold filter_days_plotter.
  rewrite (filter_days_by_rule (SER series) d m Hnd Hd Hm).
  cbn [mbind result_bind select].
  assert (Hempty : filter (λ r : Timestamp * Q, code_keep d m r.1) (s_items series) = []).
  { apply filter_none. intros r Hr. simpl. rewrite (Hnone r Hr). by intros ?. }
  rewrite Hempty. cbn [String.eqb Ascii.eqb Bool.eqb].
  by rewrite average_day_plotter_no_sample.
Qed.

Lemma filter_days_plotter_nothing_kept_witness :
  NoDup (s_items two_days).*1 ∧ day_selector (PStr "weekend") ∧ month_selector PNone
  ∧ filter_days_plotter (λ _, "") two_days (PStr "weekend") PNone "average"
    = Ok {| fp_title := " Days of week: "; fp_xlabel := "Hour";
            fp_ylabel := PStr "consumption"; fp_plot := AverageOf [] |}.
Proof.
  assert (Hnd : NoDup (s_items two_days).*1) by by_compute.
  assert (Hd : day_selector (PStr "weekend")) by (constructor; tauto).
  split; [exact Hnd|]. split; [exact Hd|]. split; [constructor|].
  apply (proj1 (filter_days_plotter_nothing_kept (λ _, ""%string) two_days
                  (PStr "weekend") PNone Hnd Hd month_absent
                  ltac:(intros r Hr; repeat (apply elem_of_cons in Hr as [->|Hr];
                          [reflexivity|]); by apply elem_of_nil in Hr))).
Defined.

(** X17.  With [plot_type='average'] the plot is the average day of the rows
    that the selectors keep: every bucket is the fractional hour of a kept
    row, and its value is the mean over the kept rows of that time of
    day. *)
Theorem filter_days_plotter_average (py_format : pyval → string)
    (series : Series) (d m : pyval) :
  NoDup (s_items series).*1 → day_selector d → month_selector m →
  s_name series ≠ PStr "hour" →
  let kept := {| s_name := s_name series;
                 s_items := filter (λ r, code_keep d m r.1) (s_items series) |} in
  ∃ pts,
    filter_days_plotter py_format series d m "average"
      = Ok {| fp_title := filter_title py_format d m; fp_xlabel := "Hour";
              fp_ylabel := s_name series; fp_plot := AverageOf pts |}
    ∧ ∀ p, p ∈ pts →
        (∃ r, r ∈ s_items series ∧ code_keep d m r.1 = true
              ∧ p.1 = datetime_to_hour r.1)
        ∧ p.2 = [mean (samples_at kept p.1).*2].
Proof.
  intros Hnd Hd Hm Hname kept. unfold filter_days_plotter.
  rewrite (filter_days_by_rule (SER series) d m Hnd Hd Hm).
  cbn [mbind result_bind select]. fold kept.
  cbn [String.eqb Ascii.eqb Bool.eqb].
  rewrite (average_day_plotter_eq kept Hname). cbn [mbind result_bind].
  eexists. split; [reflexivity|].
  intros p Hp. apply list_elem_of_In, in_map_iff in Hp as (h & <- & Hh).
  split; [|done]. cbn [fst].
  apply list_elem_of_In, group_keys_sound in Hh.
  apply list_elem_of_In, in_map_iff in Hh as (r & Hr & Hin).
  apply list_elem_of_In in Hin. cbn [kept s_items] in Hin.
  apply list_elem_of_filter in Hin as [Hkeep Hin].
  exists r. split; [done|]. split; [by apply Is_true_true | done].
Qed.

Lemma filter_days_plotter_average_witness :
  NoDup (s_items two_days).*1 ∧ day_selector (PInt 1) ∧ month_selector PNone
  ∧ s_name two_days ≠ PStr "hour"
  ∧ ∃ pts,
      filter_days_plotter (λ _, "1") two_days (PInt 1) PNone "average"
        = Ok {| fp_title := " Days of week: 1"; fp_xlabel := "Hour";
                fp_ylabel := PStr "consumption"; fp_plot := AverageOf pts |}.
Proof.
  assert (Hnd : NoDup (s_items two_days).*1) by by_compute.
  assert (Hd : day_selector (PInt 1)) by (by constructor).
  assert (Hname : s_name two_days ≠ PStr "hour") by discriminate.
  split; [exact Hnd|]. split; [exact Hd|]. split; [constructor|]. split; [exact Hname|].
  destruct (filter_days_plotter_average (λ _, "1"%string) two_days (PInt 1) PNone
              Hnd Hd month_absent Hname) as (pts & Hpts & _).
  by exists pts.
Defined.

(** ** The day plots inside [dataframe_plotter] *)

Lemma average_day_plotter_total (series : Series) : succeeds (average_day_plotter series).
Proof.
  destruct (pyval_beq (s_name series) (PStr "hour")) eqn:E.
  - apply pyval_beq_eq in E. rewrite (average_day_plotter_hour_eq series E). by eexists.
  - rewrite average_day_plotter_eq; [by eexists|].
    intros Hname. by rewrite (proj2 (pyval_beq_eq _ _) Hname) in E.
Qed.

Lemma overlay_days_plotter_ready (series : Series) (label : pyval) :
  overlay_ready (s_items series).*1 → succeeds (overlay_days_plotter series label).
Proof.
  intros [Hnil|Hres].
  - apply fmap_nil_inv in Hnil. unfold overlay_days_plotter. rewrite Hnil. by eexists.
  - rewrite (overlay_days_plotter_eq series label Hres). by eexists.
Qed.

Lemma overlay_days_frame_ready (d : DataFrame) :
  overlay_ready (rows d).*1 → succeeds (overlay_days_frame d).
Proof.
  intros [Hnil|Hres]; unfold overlay_days_frame.
  - rewrite Hnil. by eexists.
  - rewrite (map_result_ok _
               (λ date, let rs := filter (λ r, date_of r.1 = date) (rows d) in
                        (datetime_to_hour <$> rs.*1, rs.*2))); [by eexists|].
    intros date (t & (r & -> & Hr)%list_elem_of_fmap & Hd)%unique_dates_elem.
    unfold loc_date_frame. rewrite Hres.
    destruct (filter (λ r0, date_of r0.1 = date) (rows d)) as [|r1 rs] eqn:E; [|done].
    by destruct (filter_nil_not_elem_of _ _ r E Hd Hr).
Qed.

(** The one position of a label in a list without repeated labels. *)
Lemma filter_seq_one (P : nat → Prop) `{!∀ k, Decision (P k)} (n k0 : nat) :
  (k0 < n)%nat → P k0 → (∀ k, P k → k = k0) → filter P (seq 0 n) = [k0].
Proof.
  intros Hlt HP Huniq.
  replace n with (k0 + S (n - S k0))%nat by lia.
  rewrite seq_app, filter_app. cbn [seq]. rewrite filter_cons_True by done.
  rewrite !filter_none; [done| |].
  - intros k Hk%elem_of_seq HPk. apply Huniq in HPk. lia.
  - intros k Hk%elem_of_seq HPk. apply Huniq in HPk. lia.
Qed.

Lemma positions_distinct (label : pyval) (cols : list pyval) :
  py_distinct cols → py_in label cols = true → ∃ k, positions label cols = [k].
Proof.
  intros Hnd Hin. apply existsb_exists in Hin as (c & Hc & Heq).
  apply list_elem_of_In, list_elem_of_lookup in Hc as [k0 Hk0].
  exists k0. unfold positions. apply filter_seq_one.
  - by eapply lookup_lt_Some.
  - by rewrite Hk0.
  - intros k Hk. destruct (cols !! k) as [c'|] eqn:Hk'; [|done]. cbn in Hk.
    apply py_eqb_canon in Hk, Heq.
    apply (NoDup_lookup (canon <$> cols) k k0 (canon label)); [exact Hnd| |].
    + by rewrite list_lookup_fmap, Hk', Hk.
    + by rewrite list_lookup_fmap, Hk0, Heq.
Qed.

(** A selection of columns keeps the index of the table. *)
Lemma frame_column_index (d : DataFrame) (col : pyval) :
  match frame_column d col with
  | OneColumn s => (s_items s).*1 = (rows d).*1
  | SubFrame d' => (rows d').*1 = (rows d).*1
  end.
Proof.
  assert (Hsub : ∀ ks, (rows (take_columns ks d)).*1 = (rows d).*1).
  { intros ks. cbn [take_columns rows]. rewrite <-list_fmap_compose.
    by apply list_fmap_ext. }
  unfold frame_column. destruct (py_in col (columns d)).
  - destruct (positions col (columns d)) as [|k [|k' ks]]; [apply Hsub| |apply Hsub].
    cbn [s_items]. rewrite <-list_fmap_compose. by apply list_fmap_ext.
  - destruct col; apply Hsub.
Qed.

Lemma overlay_call_ready (d : DataFrame) (col label : pyval) :
  overlay_ready (rows d).*1 → overlay_call (frame_column d col) label = Ok ().
Proof.
  intros Hready. pose proof (frame_column_index d col) as Hidx.
  destruct (frame_column d col) as [s|d']; cbn [overlay_call]; rewrite <-Hidx in Hready.
  - by destruct (overlay_days_plotter_ready s label Hready) as [p ->].
  - by destruct (overlay_days_frame_ready d' Hready) as [p ->].
Qed.

Lemma average_call_distinct (d : DataFrame) (col : pyval) :
  py_distinct (columns d) → py_in col (columns d) = true →
  average_call (frame_column d col) = Ok ().
Proof.
  intros Hnd Hin. unfold frame_column. rewrite Hin.
  destruct (positions_distinct col (columns d) Hnd Hin) as [k ->]. cbn [average_call].
  by destruct (average_day_plotter_total
                 {| s_name := default PNone (columns d !! k);
                    s_items := (λ r, (r.1, default 0%Q (r.2 !! k))) <$> rows d |})
    as [p ->].
Qed.

Lemma day_plots_fit_drawing (frame : DataFrame) (pt : string) :
  day_plots_fit frame pt → day_plots_fit (drawing_frame frame pt) pt.
Proof.
  intros [Ho Ha]. unfold drawing_frame.
  destruct (String.eqb_spec pt "bar") as [->|Hbar]; [|done].
  split; discriminate.
Qed.

(** ** [dataframe_plotter]: the drawing loop *)

Lemma agree_except_refl i l : agree_except i l l.
Proof. by split. Qed.

Lemma agree_except_insert i x l : agree_except i l (<[i:=x]> l).
Proof.
  split; [apply length_insert|]. intros j Hj. by apply list_lookup_insert_ne.
Qed.

Section Loop.
Variables (df : DataFrame) (plot_type : string).
Variables (title ylabel secondary_ylabel : list pyval).

Local Abbreviation draw := (draw_subplot df plot_type title ylabel secondary_ylabel).
Local Abbreviation one := (subplot_of df plot_type title ylabel secondary_ylabel).
Local Abbreviation all := (drawn df plot_type title ylabel secondary_ylabel).

(** One iteration on list-valued [subplots] and [secondary_y]: it draws
    [subplot_of] and changes position [i] at most. *)
Lemma draw_subplot_step subs secs plan i s sec :
  subs !! i = Some s → secs !! i = Some sec →
  ∃ subs' secs', agree_except i subs subs' ∧ agree_except i secs secs' ∧
    draw (PList subs, PList secs, plan) i =
      (sp ← one s sec i; Ok (PList subs', PList secs', plan ++ [sp])).
Proof.
  intros Hs Hsec.
  assert (Hi : (i < length subs)%nat) by (by eapply lookup_lt_Some).
  assert (Hi2 : (i < length secs)%nat) by (by eapply lookup_lt_Some).
  exists (if py_is_str s then <[i:=PList [s]]> subs else subs).
  exists (match py_len sec with
          | Ok n => if decide (0 < n)%nat
                    then (if py_is_str sec then <[i:=PList [sec]]> secs else secs)
                    else secs
          | Raise _ => secs
          end).
  split; [destruct (py_is_str s); auto using agree_except_refl, agree_except_insert|].
  split.
  { destruct (py_len sec) as [n|]; [|apply agree_except_refl].
    destruct (decide (0 < n)%nat); [|apply agree_except_refl].
    destruct (py_is_str sec); auto using agree_except_refl, agree_except_insert. }
  unfold draw_subplot, subplot_of, primary_part, secondary_part.
  rewrite !py_getitem_list, !(list_getitem_some _ _ _ Hs), !(list_getitem_some _ _ _ Hsec).
  cbn [mbind result_bind].
  destruct (if (plot_type =? "bar")%string
            then n ← py_len s; if decide (n = 0%nat) then Raise ZeroDivisionError else Ok ()
            else Ok ()) as [[]|e]; cbn [mbind result_bind]; [|done].
  assert (Hsub : (if py_is_str s then py_setitem (PList subs) i (PList [s])
                  else Ok (PList subs))
                 = Ok (PList (if py_is_str s then <[i:=PList [s]]> subs else subs))).
  { destruct (py_is_str s); [by apply py_setitem_list | done]. }
  rewrite Hsub. cbn [mbind result_bind]. rewrite py_getitem_list.
  assert (Hget : list_getitem (if py_is_str s then <[i:=PList [s]]> subs else subs) i
                 = Ok (if py_is_str s then PList [s] else s)).
  { destruct (py_is_str s); apply list_getitem_some; [|done].
    by apply list_lookup_insert_eq. }
  rewrite Hget. cbn [mbind result_bind].
  destruct (py_iter (if py_is_str s then PList [s] else s)) as [cols|e];
    cbn [mbind result_bind]; [|done].
  destruct (for_each (draw_primary df plot_type) cols primary_colors) as [c|e];
    cbn [mbind result_bind]; [|done].
  destruct (py_len sec) as [n|e]; cbn [mbind result_bind]; [|done].
  destruct (decide (0 < n)%nat) as [Hn|Hn]; cbn [mbind result_bind].
  - assert (Hsec' : (if py_is_str sec then py_setitem (PList secs) i (PList [sec])
                     else Ok (PList secs))
                    = Ok (PList (if py_is_str sec then <[i:=PList [sec]]> secs else secs))).
    { destruct (py_is_str sec); [by apply py_setitem_list | done]. }
    rewrite Hsec'. cbn [mbind result_bind]. rewrite py_getitem_list.
    assert (Hget2 : list_getitem (if py_is_str sec then <[i:=PList [sec]]> secs else secs) i
                 = Ok (if py_is_str sec then PList [sec] else sec)).
    { destruct (py_is_str sec); apply list_getitem_some; [|done].
      by apply list_lookup_insert_eq. }
    rewrite Hget2. cbn [mbind result_bind].
    destruct (py_iter (if py_is_str sec then PList [sec] else sec)) as [cols2|e];
      cbn [mbind result_bind]; [|done].
    destruct (for_each (draw_secondary df plot_type) cols2 secondary_colors) as [c2|e];
      cbn [mbind result_bind]; [|done].
    destruct (list_getitem secondary_ylabel i) as [l2|e]; cbn [mbind result_bind]; [|done].
    destruct (list_getitem title i) as [t|e]; cbn [mbind result_bind]; [|done].
    destruct (list_getitem ylabel i) as [y|e]; cbn [mbind result_bind]; done.
  - destruct (list_getitem title i) as [t|e]; cbn [mbind result_bind]; [|done].
    destruct (list_getitem ylabel i) as [y|e]; cbn [mbind result_bind]; done.
Qed.

Lemma drawn_ext subs secs subs' secs' idx :
  (∀ i, i ∈ idx → subs' !! i = subs !! i ∧ secs' !! i = secs !! i) →
  all subs' secs' idx = all subs secs idx.
Proof.
  induction idx as [|i idx IH]; intros Hagree; [done|].
  simpl. unfold list_getitem.
  destruct (Hagree i) as [-> ->]; [by left|].
  rewrite IH; [done|]. intros j Hj. apply Hagree. by right.
Qed.

(** The loop over distinct positions draws [drawn]. *)
Lemma loop_drawn idx : ∀ subs secs plan,
  NoDup idx →
  (∀ i, i ∈ idx → (i < length subs)%nat ∧ (i < length secs)%nat) →
  (for_each draw idx (PList subs, PList secs, plan) ≫= λ st, Ok st.2)
  = (r ← all subs secs idx; Ok (plan ++ r)).
Proof.
  induction idx as [|i idx IH]; intros subs secs plan Hnd Hlen.
  - simpl. by rewrite app_nil_r.
  - apply NoDup_cons in Hnd as [Hi Hnd].
    destruct (Hlen i) as [H1 H2]; [by left|].
    destruct (list_getitem_lt subs i H1) as (s & Hs & Hgs).
    destruct (list_getitem_lt secs i H2) as (sec & Hsec & Hgsec).
    destruct (draw_subplot_step subs secs plan i s sec Hs Hsec)
      as (subs' & secs' & [Hl1 Ha1] & [Hl2 Ha2] & Hstep).
    cbn [for_each drawn]. rewrite Hstep, Hgs, Hgsec. cbn [mbind result_bind].
    destruct (one s sec i) as [sp|e]; cbn [mbind result_bind]; [|done].
    rewrite IH; [|done|].
    + rewrite (drawn_ext subs secs subs' secs').
      * destruct (all subs secs idx); cbn [mbind result_bind]; [|done].
        by rewrite <-app_assoc.
      * intros j Hj. assert (j ≠ i) by (intros ->; done). auto.
    + intros j Hj. rewrite Hl1, Hl2. apply Hlen. by right.
Qed.
End Loop.

(** ** Padding of labels: [_str_to_sparse_list] *)

Section Sparse.
Variables (src : list pyval) (n : nat) (list_of_lists : bool).

Local Abbreviation wrap := (sparse_entry list_of_lists).
Local Abbreviation body := (sparse_store (PList src) list_of_lists).

Lemma sparse_loop (j : nat) : ∀ k,
  (k + j = length src)%nat → (k ≤ n)%nat →
  for_each body (seq k j) ((wrap <$> take k src) ++ replicate (n - k) (PStr ""))
  = if decide (length src ≤ n)%nat
    then Ok ((wrap <$> src) ++ replicate (n - length src) (PStr ""))
    else Raise IndexError.
Proof.
  induction j as [|j IH]; intros k Hk Hn.
  - assert (k = length src) as -> by lia.
    rewrite decide_True by done. simpl. by rewrite firstn_all.
  - destruct (lookup_lt_is_Some_2 src k) as [x Hx]; [lia|].
    cbn [seq for_each].
    assert (Hb : ∀ acc, body acc k =
              (sl ← py_setitem (PList acc) k (wrap x);
               match sl with PList l => Ok l | _ => Raise TypeError end)).
    { intros acc. unfold sparse_store.
      by rewrite py_getitem_list, (list_getitem_some _ _ _ Hx). }
    rewrite Hb. unfold py_setitem.
    assert (Hlen : length ((wrap <$> take k src) ++ replicate (n - k) (PStr "")) = n).
    { rewrite length_app, length_fmap, length_take, length_replicate. lia. }
    rewrite Hlen.
    destruct (decide (k < n)%nat) as [Hlt|Hge]; cbn [mbind result_bind].
    + rewrite <-(IH (S k)) by lia. f_equal.
      rewrite (take_S_r _ _ _ Hx), fmap_app, <-app_assoc. csimpl.
      replace (n - k)%nat with (S (n - S k)) by lia. csimpl.
      rewrite insert_app_r_alt by (rewrite length_fmap, length_take; lia).
      rewrite length_fmap, length_take.
      replace (k - k `min` length src)%nat with 0%nat by lia. done.
    + by rewrite decide_False by lia.
Qed.

Lemma sparse_list_of_list :
  _str_to_sparse_list (PList src) n list_of_lists
  = if decide (length src ≤ n)%nat
    then Ok ((wrap <$> src) ++ replicate (n - length src) (PStr ""))
    else Raise IndexError.
Proof.
  unfold _str_to_sparse_list. cbn [py_is_str py_len mbind result_bind].
  pose proof (sparse_loop (length src) 0%nat) as H.
  rewrite take_0, Nat.sub_0_r in H. apply H; lia.
Qed.
End Sparse.

Lemma sparse_list_of_str (s : string) (n : nat) (b : bool) :
  _str_to_sparse_list (PStr s) n b = _str_to_sparse_list (PList [PStr s]) n b.
Proof. done. Qed.

Lemma sparse_list_length (x : pyval) (n : nat) (b : bool) (l : list pyval) :
  _str_to_sparse_list x n b = Ok l → length l = n.
Proof.
  assert (Hl : ∀ src, _str_to_sparse_list (PList src) n b = Ok l → length l = n).
  { intros src. rewrite sparse_list_of_list.
    destruct (decide (length src ≤ n)%nat); [|discriminate].
    intros [= <-]. rewrite length_app, length_fmap, length_replicate. lia. }
  destruct x as [| | |s|src]; try discriminate.
  - rewrite sparse_list_of_str. apply Hl.
  - apply Hl.
Qed.

(** ** From [normalize] to the drawn plan *)

Lemma plotter_drawn (df : DfOrSeries)
    (title ylabel subplots secondary_y secondary_ylabel : pyval) (same : bool)
    (plot_type : string) nb t y sl subs secs :
  normalize (frame_of df) title ylabel subplots secondary_y secondary_ylabel same
    = Ok (nb, t, y, sl, PList subs, PList secs) →
  (nb ≤ length subs)%nat → (nb ≤ length secs)%nat →
  (dataframe_plotter df title ylabel subplots secondary_y secondary_ylabel plot_type same).2
  = drawn (drawing_frame (frame_of df) plot_type) plot_type t y sl subs secs (seq 0 nb).
Proof.
  intros Hnorm Hsubs Hsecs. unfold dataframe_plotter.
  fold (frame_of df). rewrite Hnorm. cbn [snd].
  fold (drawing_frame (frame_of df) plot_type).
  rewrite loop_drawn.
  - by destruct (drawn _ _ _ _ _ _ _ _).
  - apply NoDup_seq.
  - intros i Hi%elem_of_seq. lia.
Qed.

Lemma plotter_normalize_raise (df : DfOrSeries)
    (title ylabel subplots secondary_y secondary_ylabel : pyval) (same : bool)
    (plot_type : string) e :
  normalize (frame_of df) title ylabel subplots secondary_y secondary_ylabel same = Raise e →
  dataframe_plotter df title ylabel subplots secondary_y secondary_ylabel plot_type same
  = (df, Raise e).
Proof. intros H. unfold dataframe_plotter. fold (frame_of df). by rewrite H. Qed.

Lemma drawn_ok df pt t y sl subs secs (F : nat → Subplot) idx :
  (∀ i, i ∈ idx → ∃ s sec, subs !! i = Some s ∧ secs !! i = Some sec
                    ∧ subplot_of df pt t y sl s sec i = Ok (F i)) →
  drawn df pt t y sl subs secs idx = Ok (F <$> idx).
Proof.
  induction idx as [|i idx IH]; intros H; [done|].
  destruct (H i) as (s & sec & Hs & Hsec & Hone); [by left|].
  cbn [drawn]. rewrite (list_getitem_some _ _ _ Hs), (list_getitem_some _ _ _ Hsec).
  cbn [mbind result_bind]. rewrite Hone. cbn [mbind result_bind].
  rewrite IH; [done|]. intros j Hj. apply H. by right.
Qed.

(** ** Drawing the primary columns *)

Lemma drawing_frame_columns (frame : DataFrame) (pt : string) (c : pyval) :
  py_in c (columns frame) = true → py_in c (columns (drawing_frame frame pt)) = true.
Proof.
  intros Hc. unfold drawing_frame, assign_column.
  destruct (pt =? "bar")%string; [|done].
  destruct (py_in (PStr "x_axis") (columns frame)); [done|].
  by apply py_in_app_l.
Qed.

Lemma frame_getitem_known (d : DataFrame) (c : pyval) :
  py_in c (columns d) = true → frame_getitem d c = Ok ().
Proof. intros H. unfold frame_getitem. by rewrite H. Qed.

(** On a table that fits the day plots, the call for a known column
    returns. *)
Lemma day_plot_calls (d : DataFrame) (pt : string) (c : pyval) :
  day_plots_fit d pt → py_in c (columns d) = true →
  ((pt =? "overlay")%string = true → overlay_call (frame_column d c) c = Ok ())
  ∧ ((pt =? "average")%string = true → average_call (frame_column d c) = Ok ()).
Proof.
  intros [Ho Ha] Hc. split.
  - intros E%String.eqb_eq. by apply overlay_call_ready, Ho.
  - intros E%String.eqb_eq. by apply average_call_distinct; [apply Ha|].
Qed.

Lemma draw_primary_step (d : DataFrame) (pt : string) (colors : list string) (c : pyval) :
  day_plots_fit d pt → py_in c (columns d) = true →
  draw_primary d pt colors c = if pops_colors pt then pop0 colors else Ok colors.
Proof.
  intros Hfit Hc. destruct (day_plot_calls d pt c Hfit Hc) as [Ho Ha].
  unfold draw_primary, pops_colors.
  rewrite (frame_getitem_known d c Hc). cbn [mbind result_bind].
  destruct (pt =? "overlay")%string; cbn [orb];
    [rewrite Ho by done; by destruct (pop0 colors)|].
  destruct (pt =? "average")%string; cbn [orb];
    [rewrite Ha by done; by destruct (pop0 colors)|].
  by destruct (pt =? "bar")%string.
Qed.

Lemma draw_primary_known (d : DataFrame) (pt : string) (cols : list pyval) :
  day_plots_fit d pt →
  (∀ c, c ∈ cols → py_in c (columns d) = true) →
  ∀ colors, (pops_colors pt = true → (length cols ≤ length colors)%nat) →
  succeeds (for_each (draw_primary d pt) cols colors).
Proof.
  intros Hfit Hknown. induction cols as [|c cols IH]; intros colors Hcol; [by eexists|].
  cbn [for_each]. rewrite draw_primary_step by (done || apply Hknown; by left).
  assert (IH' : ∀ colors', (pops_colors pt = true → (length cols ≤ length colors')%nat) →
                succeeds (for_each (draw_primary d pt) cols colors')).
  { intros colors' H'. apply IH; [|done]. intros c' Hc'. apply Hknown. by right. }
  destruct (pops_colors pt).
  - specialize (Hcol eq_refl). destruct colors as [|c0 colors]; simpl in Hcol; [lia|].
    cbn [pop0 mbind result_bind]. apply IH'. intros _. lia.
  - cbn [mbind result_bind]. apply IH'. discriminate.
Qed.

(** ** Subplots given as a boolean *)

Lemma fmap_lookup_seq {B} (g : pyval → B) (l : list pyval) :
  (λ i, g (default PNone (l !! i))) <$> seq 0 (length l) = g <$> l.
Proof.
  apply list_eq. intros i. rewrite !list_lookup_fmap.
  destruct (l !! i) as [x|] eqn:Hx.
  - rewrite lookup_seq_lt by (by eapply lookup_lt_Some). simpl. by rewrite Hx.
  - rewrite lookup_seq_ge; [done|]. by apply lookup_ge_None.
Qed.

Lemma primary_part_known (d : DataFrame) (pt : string) (cols : list pyval) :
  day_plots_fit d pt →
  (∀ c, c ∈ cols → py_in c (columns d) = true) →
  (pops_colors pt = true → (length cols ≤ 13)%nat) →
  (pt = "bar" → cols ≠ []) →
  primary_part d pt (PList cols) = Ok cols.
Proof.
  intros Hfit Hknown Hcol Hbar. unfold primary_part.
  assert (Hcheck : (if (pt =? "bar")%string
                    then n ← py_len (PList cols);
                         if decide (n = 0%nat) then Raise ZeroDivisionError else Ok ()
                    else Ok ()) = Ok ()).
  { destruct (pt =? "bar")%string eqn:E; [|done].
    apply String.eqb_eq in E. cbn [py_len mbind result_bind].
    rewrite decide_False; [done|]. specialize (Hbar E). by destruct cols. }
  rewrite Hcheck. cbn [mbind result_bind py_is_str py_iter].
  destruct (draw_primary_known d pt cols Hfit Hknown primary_colors Hcol) as [c ->].
  done.
Qed.

Lemma secondary_part_empty (d : DataFrame) (pt : string) sl (sec : pyval) (i : nat) :
  py_len sec = Ok 0%nat → secondary_part d pt sl sec i = Ok ([], PStr "").
Proof. intros H. unfold secondary_part. by rewrite H. Qed.

Lemma normalize_true (frame : DataFrame) (title ylabel secondary_ylabel : pyval)
    (same : bool) t y sl :
  columns frame ≠ [] →
  _str_to_sparse_list title (length (columns frame)) false = Ok t →
  _str_to_sparse_list ylabel (length (columns frame)) false = Ok y →
  _str_to_sparse_list secondary_ylabel (length (columns frame)) false = Ok sl →
  normalize frame title ylabel (PBool true) (PBool false) secondary_ylabel same
  = Ok (length (columns frame), t, y, sl,
        PList ((λ c, PList [c]) <$> columns frame),
        PList (PList [] :: replicate (length (columns frame) - 1) (PStr ""))).
Proof.
  intros Hne Ht Hy Hsl. unfold normalize.
  change (expand_subplots frame (PBool true))
    with (PList (map (λ col, PList [col]) (columns frame))).
  change (expand_secondary_y (PBool false)) with (PList [PList []]).
  cbn [py_len mbind result_bind]. rewrite length_map, Ht, Hy, Hsl.
  cbn [mbind result_bind]. unfold plt_subplots.
  rewrite decide_False by (by destruct (columns frame)).
  cbn [mbind result_bind]. unfold place_secondary.
  destruct (decide (length (columns frame) = 1%nat)) as [E|E].
  - rewrite E. destruct (columns frame) as [|c [|c' cols]]; try discriminate.
    by destruct same.
  - rewrite sparse_list_of_list.
    rewrite decide_True; [done|]. destruct (columns frame); simpl; [done | lia].
Qed.

Lemma normalize_false (frame : DataFrame) (title ylabel secondary_ylabel : pyval)
    (same : bool) t y sl :
  _str_to_sparse_list title 1 false = Ok t →
  _str_to_sparse_list ylabel 1 false = Ok y →
  _str_to_sparse_list secondary_ylabel 1 false = Ok sl →
  normalize frame title ylabel (PBool false) (PBool false) secondary_ylabel same
  = Ok (1%nat, t, y, sl, PList [PList (columns frame)], PList [PList []]).
Proof.
  intros Ht Hy Hsl. unfold normalize.
  change (expand_subplots frame (PBool false)) with (PList [PList (columns frame)]).
  change (expand_secondary_y (PBool false)) with (PList [PList []]).
  cbn [py_len mbind result_bind length]. rewrite Ht, Hy, Hsl.
  cbn [mbind result_bind]. destruct same; [|done].
  by destruct (columns frame).
Qed.

(** C9, amended.  For every table with at least one column and labels that
    fit, [subplots=True] (and no secondary columns) produces one subplot per
    column, in column order, each with exactly that column as its primary
    set and an empty secondary set.  [subplots=False] produces exactly one
    subplot whose primary set is all the columns in order; for a bar plot
    the table has at least one column, and for the plot types that take
    their colours from the list of thirteen it has at most thirteen.  The
    table fits the day plots: for an overlay plot it is empty or some
    timestamp is not at midnight, for an average plot no column label is
    repeated. *)
Theorem subplots_boolean (df : DfOrSeries) (title ylabel secondary_ylabel : pyval)
    (plot_type : string) (same_list : bool) :
  day_plots_fit (frame_of df) plot_type →
  (columns (frame_of df) ≠ [] →
   label_fits title (length (columns (frame_of df))) →
   label_fits ylabel (length (columns (frame_of df))) →
   label_fits secondary_ylabel (length (columns (frame_of df))) →
   ∃ plan,
     (dataframe_plotter df title ylabel (PBool true) (PBool false)
        secondary_ylabel plot_type same_list).2 = Ok plan
     ∧ primary_columns <$> plan = (λ c, [c]) <$> columns (frame_of df)
     ∧ Forall (λ sp, secondary_columns sp = []) plan)
  ∧ (label_fits title 1 → label_fits ylabel 1 → label_fits secondary_ylabel 1 →
     (plot_type = "bar" → columns (frame_of df) ≠ []) →
     (pops_colors plot_type = true → (length (columns (frame_of df)) ≤ 13)%nat) →
     ∃ sp,
       (dataframe_plotter df title ylabel (PBool false) (PBool false)
          secondary_ylabel plot_type same_list).2 = Ok [sp]
       ∧ primary_columns sp = columns (frame_of df)
       ∧ secondary_columns sp = []).
Proof.
  intros Hfit%day_plots_fit_drawing.
  set (frame := frame_of df) in *. set (cols := columns frame). split.
  - intros Hne [t Ht] [y Hy] [sl Hsl].
    pose proof (normalize_true frame title ylabel secondary_ylabel same_list t y sl
                  Hne Ht Hy Hsl) as Hnorm.
    pose proof (sparse_list_length _ _ _ _ Ht) as Hlt.
    pose proof (sparse_list_length _ _ _ _ Hy) as Hly.
    fold cols in Hnorm, Hlt, Hly.
    assert (Hn : (0 < length cols)%nat) by (destruct cols; simpl; [done | lia]).
    set (F := λ i, mkSubplot [default PNone (cols !! i)] []
                     (default PNone (t !! i)) (default PNone (y !! i)) (PStr "")).
    exists (F <$> seq 0 (length cols)). split; [|split].
    + rewrite (plotter_drawn df _ _ _ _ _ _ plot_type _ _ _ _ _ _ Hnorm).
      * apply drawn_ok. intros i Hi%elem_of_seq.
        destruct (lookup_lt_is_Some_2 cols i) as [c Hc]; [lia|].
        destruct (lookup_lt_is_Some_2 t i) as [ti Hti]; [lia|].
        destruct (lookup_lt_is_Some_2 y i) as [yi Hyi]; [lia|].
        destruct (lookup_lt_is_Some_2
                    (PList [] :: replicate (length cols - 1) (PStr "")) i) as [sec Hsec].
        { simpl. rewrite length_replicate. lia. }
        exists (PList [c]), sec. split; [by rewrite list_lookup_fmap, Hc|]. split; [done|].
        unfold subplot_of.
        rewrite primary_part_known.
        -- rewrite secondary_part_empty.
           ++ cbn [mbind result_bind].
              rewrite (list_getitem_some _ _ _ Hti), (list_getitem_some _ _ _ Hyi).
              unfold F. by rewrite Hc, Hti, Hyi.
           ++ destruct i as [|i]; simpl in Hsec; [by injection Hsec as <-|].
              apply lookup_replicate in Hsec as [-> _]. done.
        -- exact Hfit.
        -- intros c' ->%list_elem_of_singleton.
           apply drawing_frame_columns, py_in_elem.
           by eapply list_elem_of_lookup_2.
        -- simpl. lia.
        -- done.
      * by rewrite length_fmap.
      * simpl. rewrite length_replicate. lia.
    + rewrite <-list_fmap_compose.
      exact (fmap_lookup_seq (λ c, [c]) cols).
    + apply Forall_fmap, Forall_forall. done.
  - intros [t Ht] [y Hy] [sl Hsl] Hbar Hcol.
    pose proof (normalize_false frame title ylabel secondary_ylabel same_list t y sl
                  Ht Hy Hsl) as Hnorm.
    pose proof (sparse_list_length _ _ _ _ Ht) as Hlt.
    pose proof (sparse_list_length _ _ _ _ Hy) as Hly.
    destruct (list_getitem_lt t 0) as (t0 & _ & Ht0); [lia|].
    destruct (list_getitem_lt y 0) as (y0 & _ & Hy0); [lia|].
    exists (mkSubplot cols [] t0 y0 (PStr "")). split; [|done].
    rewrite (plotter_drawn df _ _ _ _ _ _ plot_type _ _ _ _ _ _ Hnorm); [|done|done].
    cbn [seq drawn list_getitem lookup list_lookup mbind result_bind].
    unfold subplot_of. rewrite primary_part_known; [|exact Hfit|..|done|done].
    + rewrite secondary_part_empty by done.
      cbn [mbind result_bind]. by rewrite Ht0, Hy0.
    + intros c Hc. by apply drawing_frame_columns, py_in_elem.
Qed.

Lemma subplots_boolean_witness :
  day_plots_fit (frame_of (DF data)) "overlay"
  ∧ columns (frame_of (DF data)) ≠ []
  ∧ label_fits (PStr "") 3 ∧ label_fits (PList [PStr "col1"; PStr "col2"; PStr "col3"]) 3
  ∧ ∃ plan,
      (dataframe_plotter (DF data) (PStr "") (PList [PStr "col1"; PStr "col2"; PStr "col3"])
         (PBool true) (PBool false) (PStr "") "overlay" false).2 = Ok plan
      ∧ primary_columns <$> plan = (λ c, [c]) <$> columns data
      ∧ Forall (λ sp, secondary_columns sp = []) plan.
Proof.
  assert (Hfit : day_plots_fit (frame_of (DF data)) "overlay").
  { split; [intros _; by right | discriminate]. }
  assert (Hcols : columns (frame_of (DF data)) ≠ []) by discriminate.
  assert (Ht : label_fits (PStr "") 3) by (by eexists).
  assert (Hy : label_fits (PList [PStr "col1"; PStr "col2"; PStr "col3"]) 3)
    by (by eexists).
  split; [exact Hfit|]. split; [exact Hcols|]. split; [exact Ht|]. split; [exact Hy|].
  exact (proj1 (subplots_boolean (DF data) (PStr "")
                  (PList [PStr "col1"; PStr "col2"; PStr "col3"]) (PStr "") "overlay"
                  false Hfit)
           Hcols Ht Hy Ht).
Defined.

(** C9 as stated fails for a table without columns: with [subplots=True]
    there is no subplot to carry the default title, and the call raises
    [IndexError] instead of producing zero subplots. *)
Lemma subplots_true_without_columns :
  (dataframe_plotter (DF no_columns) (PStr "") (PStr "") (PBool true) (PBool false)
     (PStr "") "line" false).2 = Raise IndexError.
Proof. reflexivity. Qed.

(** ** Removing the secondary columns from the single subplot *)

Lemma list_remove_sublist (x : pyval) (l l' : list pyval) :
  list_remove x l = Ok l' → l' `sublist_of` l.
Proof.
  revert l'. induction l as [|y l IH]; intros l'; simpl; [discriminate|].
  destruct (py_eqb y x).
  - intros [= <-]. by apply sublist_cons.
  - destruct (list_remove x l) as [l''|e]; [|discriminate].
    intros [= <-]. by apply sublist_skip, IH.
Qed.

Lemma list_remove_gone (x : pyval) (l l' : list pyval) :
  list_remove x l = Ok l' → py_distinct l → ¬ py_elem x l'.
Proof.
  unfold py_distinct, py_elem.
  revert l'. induction l as [|y l IH]; intros l'; csimpl; [discriminate|].
  rewrite NoDup_cons. intros Hrem [Hy Hnd].
  destruct (py_eqb y x) eqn:E.
  - apply py_eqb_canon in E. injection Hrem as <-. by rewrite <-E.
  - apply py_eqb_false in E.
    destruct (list_remove x l) as [l''|e]; [|discriminate].
    injection Hrem as <-. csimpl. rewrite not_elem_of_cons.
    split; [congruence | by apply IH].
Qed.

Lemma list_remove_rest (x : pyval) (l l' : list pyval) (y : pyval) :
  list_remove x l = Ok l' → y ∈ l → y ∈ l' ∨ canon y = canon x.
Proof.
  revert l'. induction l as [|z l IH]; intros l'; simpl; [discriminate|].
  destruct (py_eqb z x) eqn:E.
  - intros [= <-] [->|Hy]%elem_of_cons; [right; by apply py_eqb_canon | by left].
  - destruct (list_remove x l) as [l''|e]; [|discriminate].
    intros [= <-] [->|Hy]%elem_of_cons; [left; by left|].
    destruct (IH l'' eq_refl Hy); [left; by right | by right].
Qed.

Lemma py_distinct_sublist (l l' : list pyval) :
  l' `sublist_of` l → py_distinct l → py_distinct l'.
Proof.
  unfold py_distinct. intros Hsub Hnd.
  eapply sublist_NoDup; [exact Hnd|]. by apply fmap_sublist.
Qed.

Lemma py_elem_sublist (x : pyval) (l l' : list pyval) :
  l' `sublist_of` l → py_elem x l' → py_elem x l.
Proof.
  unfold py_elem. intros Hsub Hx.
  eapply elem_of_sublist; [exact Hx|]. by apply fmap_sublist.
Qed.

Lemma remove_each_spec (cols : list pyval) : ∀ l l',
  remove_each cols l = Ok l' → py_distinct l →
  l' `sublist_of` l
  ∧ (∀ c, c ∈ cols → ¬ py_elem c l')
  ∧ (∀ y, y ∈ l → y ∈ l' ∨ py_elem y cols).
Proof.
  unfold remove_each.
  induction cols as [|c cols IH]; intros l l' Hrem Hd.
  - injection Hrem as <-. split; [done|]. split; [by intros c ?%elem_of_nil | by left].
  - cbn [for_each] in Hrem. apply result_bind_ok in Hrem as (l1 & H1 & Hrest).
    pose proof (list_remove_sublist _ _ _ H1) as Hsub1.
    destruct (IH l1 l' Hrest (py_distinct_sublist _ _ Hsub1 Hd)) as (Hsub & Hgone & Hkept).
    split; [by etrans|]. split.
    + intros c' [->|Hc']%elem_of_cons; [|by apply Hgone].
      intros Hin. apply (list_remove_gone _ _ _ H1 Hd).
      by eapply py_elem_sublist.
    + intros y Hy. destruct (list_remove_rest _ _ _ y H1 Hy) as [Hy1|Heq].
      * destruct (Hkept y Hy1) as [?|Hin]; [by left|].
        right. unfold py_elem in *. rewrite fmap_cons. by right.
      * right. unfold py_elem. rewrite fmap_cons, Heq. by left.
Qed.

Lemma remove_loop_list (cols : list pyval) : ∀ l subs',
  remove_loop cols (PList [PList l]) = Ok subs' →
  ∃ l', subs' = PList [PList l'] ∧ remove_each cols l = Ok l'.
Proof.
  unfold remove_loop, remove_each.
  induction cols as [|c cols IH]; intros l subs' H.
  - injection H as <-. by exists l.
  - cbn [for_each] in *.
    cbn [py_getitem lookup list_lookup mbind result_bind py_remove] in H.
    destruct (list_remove c l) as [l1|e]; [|discriminate].
    cbn [mbind result_bind] in *. by apply IH.
Qed.

Lemma remove_loop_spec (cols : list pyval) (s0 subs' : pyval) :
  remove_loop cols (PList [s0]) = Ok subs' →
  (cols = [] ∧ subs' = PList [s0])
  ∨ (∃ l l', s0 = PList l ∧ subs' = PList [PList l'] ∧ remove_each cols l = Ok l').
Proof.
  destruct cols as [|c cols]; [intros [= <-]; by left|].
  intros H. right. destruct s0 as [| | | |l]; try discriminate.
  destruct (remove_loop_list _ _ _ H) as (l' & -> & Hl'). by exists l, l'.
Qed.

Lemma expand_secondary_y_list (l : list pyval) :
  expand_secondary_y (PList l) = PList l.
Proof. destruct l; reflexivity. Qed.

Lemma expand_secondary_y_not_str (x : pyval) : py_is_str (expand_secondary_y x) = false.
Proof.
  unfold expand_secondary_y.
  destruct x as [|b|z|s|l]; cbn [py_is_str];
    match goal with |- context [py_eqb ?a ?b] => destruct (py_eqb a b) end; done.
Qed.

(** With distinct objects [place_secondary] iterates over a list that the
    removals leave alone. *)
Lemma place_secondary_distinct (nb : nat) (subplots secondary_y : pyval) :
  place_secondary nb subplots secondary_y false
  = if decide (nb = 1%nat) then
      first ← py_getitem secondary_y 0;
      let secondary_y := if py_is_str first then PList [secondary_y] else secondary_y in
      first ← py_getitem secondary_y 0;
      cols ← py_iter first;
      subplots ← remove_loop cols subplots;
      Ok (subplots, secondary_y)
    else
      sl ← _str_to_sparse_list secondary_y nb false;
      Ok (subplots, PList sl).
Proof. reflexivity. Qed.

Lemma shared_list_str (same : bool) (s : string) (first : pyval) :
  shared_list same (PStr s) first = None.
Proof.
  unfold shared_list. destruct same; [|done].
  destruct first as [| | | |l]; try done. cbn [py_getitem].
  by destruct (String.get 0 s).
Qed.

(** The list iterated at line 166, after the wrapping of line 165. *)
Lemma place_secondary_first (subplots sec subs' secs' : pyval) (same : bool) :
  py_is_str sec = false →
  place_secondary 1 subplots sec same = Ok (subs', secs') →
  ∃ secl first,
    secl !! 0%nat = Some first ∧ py_is_str first = false
    ∧ match shared_list same subplots first with
      | Some l =>
          l' ← remove_while_iterating (length l) 0 l;
          subplots ← py_setitem subplots 0 (PList l');
          secondary_y ← py_setitem (PList secl) 0 (PList l');
          Ok (subplots, secondary_y)
      | None =>
          cols ← py_iter first;
          subplots ← remove_loop cols subplots;
          Ok (subplots, PList secl)
      end = Ok (subs', secs').
Proof.
  intros Hstr. unfold place_secondary. rewrite decide_True by done.
  intros H. apply result_bind_ok in H as (first0 & Hf0 & H).
  destruct sec as [| | | |secl0]; try discriminate.
  rewrite py_getitem_list in Hf0. unfold list_getitem in Hf0.
  destruct (secl0 !! 0%nat) as [x|] eqn:Hx; [|discriminate]. injection Hf0 as ->.
  destruct (py_is_str first0) eqn:Hs0.
  - cbn [py_getitem lookup list_lookup mbind result_bind] in H.
    by exists [PList secl0], (PList secl0).
  - rewrite py_getitem_list in H. unfold list_getitem in H. rewrite Hx in H.
    cbn [mbind result_bind] in H. by exists secl0, first0.
Qed.

Lemma place_secondary_single (s0 sec subs' secs' : pyval) :
  py_is_str sec = false →
  place_secondary 1 (PList [s0]) sec false = Ok (subs', secs') →
  ∃ secl first cols,
    secs' = PList secl ∧ secl !! 0%nat = Some first ∧ py_is_str first = false
    ∧ py_iter first = Ok cols ∧ remove_loop cols (PList [s0]) = Ok subs'.
Proof.
  intros Hstr H.
  destruct (place_secondary_first _ _ _ _ _ Hstr H) as (secl & first & Hfirst & Hs & H').
  cbn [shared_list] in H'.
  apply result_bind_ok in H' as (cols & Hcols & H').
  apply result_bind_ok in H' as (subs1 & Hloop & [= <- <-]).
  by exists secl, first, cols.
Qed.

Lemma list_remove_length (x : pyval) (l l' : list pyval) :
  list_remove x l = Ok l' → length l = S (length l').
Proof.
  revert l'. induction l as [|y l IH]; intros l'; simpl; [discriminate|].
  destruct (py_eqb y x); [by intros [= <-]|].
  destruct (list_remove x l) as [l''|e]; [|discriminate].
  intros [= <-]. simpl. f_equal. by apply IH.
Qed.

(** The loop over a shrinking list needs no more turns than the list is
    long: more turns change nothing. *)
Lemma remove_while_iterating_turns (n : nat) : ∀ m i l,
  (length l ≤ i + n)%nat → (length l ≤ i + m)%nat →
  remove_while_iterating n i l = remove_while_iterating m i l.
Proof.
  induction n as [|n IH]; intros m i l Hn Hm.
  - assert (Hnone : l !! i = None) by (apply lookup_ge_None; lia).
    destruct m; cbn [remove_while_iterating]; [done | by rewrite Hnone].
  - destruct m as [|m].
    + assert (Hnone : l !! i = None) by (apply lookup_ge_None; lia).
      cbn [remove_while_iterating]. by rewrite Hnone.
    + cbn [remove_while_iterating]. destruct (l !! i) as [c|]; [|done].
      destruct (list_remove c l) as [l'|e] eqn:Hrem; [|done].
      cbn [mbind result_bind]. apply list_remove_length in Hrem.
      apply IH; lia.
Qed.

(** Whatever the objects, [subplots] and [secondary_y] are lists of the
    right lengths when the loop starts. *)
Lemma place_secondary_shape (s0 sec subs' secs' : pyval) (same : bool) :
  py_is_str sec = false →
  place_secondary 1 (PList [s0]) sec same = Ok (subs', secs') →
  ∃ s0' secl, subs' = PList [s0'] ∧ secs' = PList secl ∧ (1 ≤ length secl)%nat.
Proof.
  intros Hstr H.
  destruct (place_secondary_first _ _ _ _ _ Hstr H) as (secl & first & Hfirst & Hs & H').
  apply lookup_lt_Some in Hfirst.
  destruct (shared_list same (PList [s0]) first) as [l|].
  - apply result_bind_ok in H' as (l' & _ & H').
    cbn [py_setitem length] in H'. rewrite decide_True in H' by lia.
    cbn [mbind result_bind] in H'. rewrite decide_True in H' by lia.
    injection H' as <- <-. exists (PList l'), (<[0%nat:=PList l']> secl).
    rewrite length_insert. repeat split. lia.
  - apply result_bind_ok in H' as (cols & Hcols & H').
    apply result_bind_ok in H' as (subs1 & Hloop & [= <- <-]).
    destruct (remove_loop_spec _ _ _ Hloop) as [[_ ->]|(l & l' & _ & -> & _)].
    + exists s0, secl. repeat split. lia.
    + exists (PList l'), secl. repeat split. lia.
Qed.

Lemma plotter_ok_normalize (df : DfOrSeries)
    (title ylabel subplots secondary_y secondary_ylabel : pyval) (same : bool)
    (plot_type : string) plan :
  (dataframe_plotter df title ylabel subplots secondary_y secondary_ylabel plot_type same).2
    = Ok plan →
  ∃ nb t y sl subs secs,
    normalize (frame_of df) title ylabel subplots secondary_y secondary_ylabel same
    = Ok (nb, t, y, sl, subs, secs).
Proof.
  unfold dataframe_plotter. fold (frame_of df).
  destruct (normalize _ _ _ _ _ _) as [[[[[[nb t] y] sl] subs] secs]|e]; [|discriminate].
  intros _. by exists nb, t, y, sl, subs, secs.
Qed.

Lemma normalize_inv (frame : DataFrame)
    (title ylabel subplots secondary_y secondary_ylabel : pyval) (same : bool) nb t y sl subs secs :
  normalize frame title ylabel subplots secondary_y secondary_ylabel same
    = Ok (nb, t, y, sl, subs, secs) →
  py_len (expand_subplots frame subplots) = Ok nb
  ∧ _str_to_sparse_list title nb false = Ok t
  ∧ _str_to_sparse_list ylabel nb false = Ok y
  ∧ _str_to_sparse_list secondary_ylabel nb false = Ok sl
  ∧ nb ≠ 0%nat
  ∧ place_secondary nb (expand_subplots frame subplots) (expand_secondary_y secondary_y) same
    = Ok (subs, secs).
Proof.
  unfold normalize. intros H.
  apply result_bind_ok in H as (nb' & Hnb & H).
  apply result_bind_ok in H as (t' & Ht & H).
  apply result_bind_ok in H as (y' & Hy & H).
  apply result_bind_ok in H as (sl' & Hsl & H).
  apply result_bind_ok in H as ([] & Hplt & H).
  apply result_bind_ok in H as ([subs' secs'] & Hplace & H).
  injection H as <- <- <- <- <- <-.
  repeat split; try done.
  unfold plt_subplots in Hplt. by destruct (decide (nb' = 0%nat)).
Qed.

(** ** Several subplots *)

Lemma normalize_intro (frame : DataFrame)
    (title ylabel subplots secondary_y secondary_ylabel : pyval) (same : bool) nb t y sl subs secs :
  py_len (expand_subplots frame subplots) = Ok nb →
  _str_to_sparse_list title nb false = Ok t →
  _str_to_sparse_list ylabel nb false = Ok y →
  _str_to_sparse_list secondary_ylabel nb false = Ok sl →
  nb ≠ 0%nat →
  place_secondary nb (expand_subplots frame subplots) (expand_secondary_y secondary_y) same
    = Ok (subs, secs) →
  normalize frame title ylabel subplots secondary_y secondary_ylabel same
    = Ok (nb, t, y, sl, subs, secs).
Proof.
  intros Hnb Ht Hy Hsl Hne Hplace. unfold normalize.
  rewrite Hnb. cbn [mbind result_bind]. rewrite Ht, Hy, Hsl. cbn [mbind result_bind].
  unfold plt_subplots. rewrite decide_False by done. cbn [mbind result_bind].
  by rewrite Hplace.
Qed.

Lemma place_secondary_multi (nb : nat) (subplots sec : pyval) (same : bool) :
  nb ≠ 1%nat →
  place_secondary nb subplots sec same
  = (sl ← _str_to_sparse_list sec nb false; Ok (subplots, PList sl)).
Proof. intros H. unfold place_secondary. by rewrite decide_False. Qed.

(** A string cannot serve as [subplots]: the loop raises at its first
    iteration. *)
Lemma draw_subplot_str (d : DataFrame) (pt : string) t y sl (s : string) (secs : pyval)
    (plan : PlotPlan) (i : nat) :
  fails (draw_subplot d pt t y sl (PStr s, secs, plan) i).
Proof.
  unfold draw_subplot, fails. cbn [py_getitem].
  destruct (String.get i s) as [c|]; cbn [mbind result_bind py_len String.length].
  - destruct (pt =? "bar")%string; cbn [mbind result_bind]; [rewrite decide_False by done|];
      cbn [mbind result_bind py_is_str py_setitem]; by eexists.
  - destruct (pt =? "bar")%string; cbn [mbind result_bind]; by eexists.
Qed.

Lemma drawn_inv (d : DataFrame) (pt : string) t y sl subs secs idx : ∀ plan,
  drawn d pt t y sl subs secs idx = Ok plan →
  Forall2 (λ i sp, ∃ s sec, subs !! i = Some s ∧ secs !! i = Some sec
                     ∧ subplot_of d pt t y sl s sec i = Ok sp) idx plan.
Proof.
  induction idx as [|i idx IH]; intros plan H.
  - injection H as <-. constructor.
  - cbn [drawn] in H. unfold list_getitem in H.
    destruct (subs !! i) as [s|] eqn:Hs; [|discriminate].
    destruct (secs !! i) as [sec|] eqn:Hsec; [|discriminate].
    cbn [mbind result_bind] in H.
    apply result_bind_ok in H as (sp & Hsp & H).
    apply result_bind_ok in H as (plan' & Hplan' & [= <-]).
    constructor; [by exists s, sec | by apply IH].
Qed.

(** What [subplot_of] returns, in terms of its two parts. *)
Lemma subplot_of_inv (d : DataFrame) (pt : string) t y sl s sec i sp :
  subplot_of d pt t y sl s sec i = Ok sp →
  ∃ ti yi, primary_part d pt s = Ok (primary_columns sp)
    ∧ secondary_part d pt sl sec i = Ok (secondary_columns sp, secondary_label sp)
    ∧ list_getitem t i = Ok ti ∧ list_getitem y i = Ok yi
    ∧ sp_title sp = ti ∧ primary_label sp = yi.
Proof.
  unfold subplot_of. intros H.
  apply result_bind_ok in H as (pcols & Hp & H).
  apply result_bind_ok in H as ([cols2 lbl] & Hs & H).
  apply result_bind_ok in H as (ti & Hti & H).
  apply result_bind_ok in H as (yi & Hyi & [= <-]).
  by exists ti, yi.
Qed.

Lemma draw_secondary_one (d : DataFrame) (pt : string) (s : string) :
  day_plots_fit d pt → pt ≠ "bar" → py_in (PStr s) (columns d) = true →
  succeeds (for_each (draw_secondary d pt) [PStr s] secondary_colors).
Proof.
  intros Hfit Hbar Hin. destruct (day_plot_calls d pt (PStr s) Hfit Hin) as [Ho Ha].
  cbn [for_each]. unfold draw_secondary.
  rewrite (frame_getitem_known d _ Hin). cbn [mbind result_bind].
  apply String.eqb_neq in Hbar. rewrite Hbar.
  destruct (pt =? "overlay")%string.
  { cbn [secondary_colors pop0 mbind result_bind]. rewrite Ho by done. by eexists. }
  destruct (pt =? "average")%string.
  { cbn [secondary_colors pop0 mbind result_bind]. rewrite Ha by done. by eexists. }
  by eexists.
Qed.

Lemma secondary_part_one (d : DataFrame) (pt : string) sl (sec : pyval) (s : string)
    (i : nat) (lbl : pyval) :
  day_plots_fit d pt →
  pt ≠ "bar" → py_in (PStr s) (columns d) = true → names_column sec s →
  sl !! i = Some lbl →
  secondary_part d pt sl sec i = Ok ([PStr s], lbl).
Proof.
  intros Hfit Hbar Hin Hsec Hlbl. unfold secondary_part.
  destruct (draw_secondary_one d pt s Hfit Hbar Hin) as [c Hc].
  destruct Hsec as [[-> Hs]| ->]; cbn [py_len mbind result_bind].
  - rewrite decide_True by (destruct s; simpl; [done | lia]).
    cbn [py_is_str py_iter mbind result_bind]. rewrite Hc. cbn [mbind result_bind].
    by rewrite (list_getitem_some _ _ _ Hlbl).
  - rewrite decide_True by (simpl; lia).
    cbn [py_is_str py_iter mbind result_bind]. rewrite Hc. cbn [mbind result_bind].
    by rewrite (list_getitem_some _ _ _ Hlbl).
Qed.

Lemma place_secondary_str (s : string) (sec subs' secs' : pyval) (same : bool) :
  py_is_str sec = false →
  place_secondary 1 (PStr s) sec same = Ok (subs', secs') → subs' = PStr s.
Proof.
  intros Hstr H.
  destruct (place_secondary_first _ _ _ _ _ Hstr H) as (secl & first & _ & _ & H').
  rewrite shared_list_str in H'.
  apply result_bind_ok in H' as (cols & _ & H').
  apply result_bind_ok in H' as (subs1 & Hloop & [= <- <-]).
  unfold remove_loop in Hloop.
  destruct cols as [|c cols]; [by injection Hloop|].
  cbn [for_each py_getitem] in Hloop.
  destruct (String.get 0 s); discriminate.
Qed.

Lemma plotter_loop (df : DfOrSeries)
    (title ylabel subplots secondary_y secondary_ylabel : pyval) (same : bool)
    (plot_type : string)
    nb t y sl subs secs :
  normalize (frame_of df) title ylabel subplots secondary_y secondary_ylabel same
    = Ok (nb, t, y, sl, subs, secs) →
  (dataframe_plotter df title ylabel subplots secondary_y secondary_ylabel plot_type same).2
  = (for_each (draw_subplot (drawing_frame (frame_of df) plot_type) plot_type t y sl)
       (seq 0 nb) (subs, secs, []) ≫= λ st, Ok st.2).
Proof. intros H. unfold dataframe_plotter. fold (frame_of df). by rewrite H. Qed.

(** An accepted call: [subplots] and [secondary_y] are lists when the loop
    starts, and the plan has one entry per subplot. *)
Lemma plotter_ok_inv (df : DfOrSeries)
    (title ylabel subplots secondary_y secondary_ylabel : pyval) (same : bool)
    (plot_type : string) plan :
  (dataframe_plotter df title ylabel subplots secondary_y secondary_ylabel plot_type same).2
    = Ok plan →
  ∃ nb t y sl subl secl,
    normalize (frame_of df) title ylabel subplots secondary_y secondary_ylabel same
      = Ok (nb, t, y, sl, PList subl, PList secl)
    ∧ length subl = nb ∧ (nb ≤ length secl)%nat ∧ length plan = nb
    ∧ drawn (drawing_frame (frame_of df) plot_type) plot_type t y sl subl secl (seq 0 nb)
      = Ok plan.
Proof.
  intros Hrun.
  destruct (plotter_ok_normalize _ _ _ _ _ _ _ _ _ Hrun)
    as (nb & t & y & sl & subs & secs & Hnorm).
  destruct (normalize_inv _ _ _ _ _ _ _ _ _ _ _ _ _ Hnorm)
    as (Hnb & Ht & Hy & Hsl & Hne & Hplace).
  assert (Hstr : ∀ s, subs ≠ PStr s).
  { intros s ->. rewrite (plotter_loop _ _ _ _ _ _ _ _ _ _ _ _ _ _ Hnorm) in Hrun.
    destruct nb as [|nb]; [done|]. cbn [seq for_each] in Hrun.
    destruct (draw_subplot_str (drawing_frame (frame_of df) plot_type) plot_type
                t y sl s secs [] 0) as [e He].
    destruct (draw_subplot _ _ _ _ _ _ 0) as [st|e'] eqn:E in Hrun; [|discriminate].
    assert (Ok st = Raise e) by (rewrite <-E; exact He). discriminate. }
  assert (Hshape : ∃ subl secl, subs = PList subl ∧ secs = PList secl
                     ∧ length subl = nb ∧ (nb ≤ length secl)%nat).
  { destruct (decide (nb = 1%nat)) as [->|Hmulti].
    - destruct (expand_subplots (frame_of df) subplots) as [| | |s|l] eqn:Hexp;
        try discriminate.
      + apply place_secondary_str in Hplace; [|apply expand_secondary_y_not_str].
        by destruct (Hstr s).
      + injection Hnb as Hlen. destruct l as [|s0 [|? ?]]; try discriminate.
        destruct (place_secondary_shape _ _ _ _ _ (expand_secondary_y_not_str _) Hplace)
          as (s0' & secl & -> & -> & Hsecl).
        exists [s0'], secl. repeat split; simpl; try done; lia.
    - rewrite place_secondary_multi in Hplace by done.
      apply result_bind_ok in Hplace as (secl & Hsecl & [= <- <-]).
      destruct (expand_subplots (frame_of df) subplots) as [| | |s|l] eqn:Hexp;
        try discriminate; [by destruct (Hstr s)|].
      injection Hnb as Hlen. exists l, secl. repeat split; try done.
      by rewrite (sparse_list_length _ _ _ _ Hsecl). }
  destruct Hshape as (subl & secl & -> & -> & Hl1 & Hl2).
  exists nb, t, y, sl, subl, secl. split; [done|]. split; [done|]. split; [done|].
  rewrite (plotter_drawn df _ _ _ _ _ _ plot_type _ _ _ _ _ _ Hnorm) in Hrun by lia.
  split; [|done].
  apply drawn_inv, Forall2_length in Hrun. by rewrite length_seq in Hrun.
Qed.

(** What [secondary_y] asks for is what line 166 iterates. *)
Lemma requests_secondary (secondary_y : pyval) (cols : list pyval)
    (subs subs' secs' : pyval) :
  requests secondary_y cols →
  place_secondary 1 subs (expand_secondary_y secondary_y) false = Ok (subs', secs') →
  ∃ rest, secs' = PList (PList cols :: rest).
Proof.
  intros Hreq. rewrite place_secondary_distinct, decide_True by done.
  destruct Hreq as [|s|s l|l rest].
  - change (expand_secondary_y (PBool false)) with (PList [PList []]).
    cbn [py_getitem lookup list_lookup py_is_str mbind result_bind py_iter].
    intros H. apply result_bind_ok in H as (subs1 & _ & [= _ <-]). by exists [].
  - change (expand_secondary_y (PStr s)) with (PList [PList [PStr s]]).
    cbn [py_getitem lookup list_lookup py_is_str mbind result_bind py_iter].
    intros H. apply result_bind_ok in H as (subs1 & _ & [= _ <-]). by exists [].
  - rewrite expand_secondary_y_list.
    cbn [py_getitem lookup list_lookup py_is_str mbind result_bind py_iter].
    intros H. apply result_bind_ok in H as (subs1 & _ & [= _ <-]). by exists [].
  - rewrite expand_secondary_y_list.
    cbn [py_getitem lookup list_lookup py_is_str mbind result_bind py_iter].
    intros H. apply result_bind_ok in H as (subs1 & _ & [= _ <-]). by exists rest.
Qed.

(** The primary columns of a drawn subplot are the names of its entry of
    [subplots]. *)
Lemma primary_part_iter (d : DataFrame) (pt : string) (s : pyval) (cols : list pyval) :
  primary_part d pt s = Ok cols →
  py_iter (if py_is_str s then PList [s] else s) = Ok cols.
Proof.
  unfold primary_part. intros H.
  apply result_bind_ok in H as ([] & _ & H).
  apply result_bind_ok in H as (cols' & Hiter & H).
  by apply result_bind_ok in H as (c & _ & [= <-]).
Qed.

(** C1, amended.  In an accepted call that yields exactly one subplot, with
    no name repeated among that subplot's primary columns and with
    [subplots] and [secondary_y] built from distinct lists, the secondary
    columns are the columns that [secondary_y] asks for and are disjoint
    from the primary columns: each of them has been removed from the
    primary columns, and the other primary columns are kept in their order.
    With several subplots nothing is removed: the primary columns of every
    subplot are all the names of its entry of [subplots], in order. *)
Theorem single_subplot_secondary_disjoint (df : DfOrSeries)
    (title ylabel subplots secondary_y secondary_ylabel : pyval) (plot_type : string)
    (same_list : bool) (plan : PlotPlan) :
  (dataframe_plotter df title ylabel subplots secondary_y secondary_ylabel plot_type
     same_list).2 = Ok plan →
  (∀ s0, expand_subplots (frame_of df) subplots = PList [s0] →
     same_list = false →
     (∀ l, s0 = PList l → py_distinct l) →
     ∃ sp, plan = [sp]
       ∧ (∀ cols, requests secondary_y cols → secondary_columns sp = cols)
       ∧ (∀ c, c ∈ secondary_columns sp → ¬ py_elem c (primary_columns sp))
       ∧ (∀ l, s0 = PList l →
            primary_columns sp `sublist_of` l
            ∧ ∀ c, c ∈ l → c ∈ primary_columns sp ∨ py_elem c (secondary_columns sp)))
  ∧ (∀ subl, expand_subplots (frame_of df) subplots = PList subl →
       length subl ≠ 1%nat →
       Forall2 (λ s sp, py_iter (if py_is_str s then PList [s] else s)
                        = Ok (primary_columns sp)) subl plan).
Proof.
  intros Hrun. split.
  - intros s0 Hexp -> Hdist.
    destruct (plotter_ok_normalize _ _ _ _ _ _ _ _ _ Hrun)
      as (nb & t & y & sl & subs & secs & Hnorm).
    destruct (normalize_inv _ _ _ _ _ _ _ _ _ _ _ _ _ Hnorm)
      as (Hnb & Ht & Hy & Hsl & _ & Hplace).
    rewrite Hexp in Hnb, Hplace. injection Hnb as <-. cbn [length] in *.
    destruct (place_secondary_single _ _ _ _ (expand_secondary_y_not_str _) Hplace)
      as (secl & first & cols & -> & Hfirst & Hstr & Hiter & Hloop).
    assert (Hsecl : (1 ≤ length secl)%nat).
    { apply lookup_lt_Some in Hfirst. lia. }
    assert (Hreq : ∀ cols', requests secondary_y cols' → cols = cols').
    { intros cols' Hreq.
      destruct (requests_secondary _ _ _ _ _ Hreq Hplace) as (rest & [= ->]).
      injection Hfirst as <-. by injection Hiter as <-. }
    assert (Hone : ∀ s0', subs = PList [s0'] →
              ∃ sp pcols, plan = [sp]
                ∧ py_iter (if py_is_str s0' then PList [s0'] else s0') = Ok pcols
                ∧ primary_columns sp = pcols ∧ secondary_columns sp = cols).
    { intros s0' ->.
      rewrite (plotter_drawn df _ _ _ _ _ _ plot_type _ _ _ _ _ _ Hnorm) in Hrun;
        [|done|done].
      cbn [seq drawn list_getitem lookup list_lookup mbind result_bind] in Hrun.
      rewrite (list_getitem_some _ _ _ Hfirst) in Hrun. cbn [mbind result_bind] in Hrun.
      apply result_bind_ok in Hrun as (sp & Hsp & [= <-]).
      unfold subplot_of in Hsp.
      apply result_bind_ok in Hsp as (pcols & Hp & Hsp).
      apply result_bind_ok in Hsp as ([cols2 lbl] & Hs & Hsp).
      apply result_bind_ok in Hsp as (ti & _ & Hsp).
      apply result_bind_ok in Hsp as (yi & _ & [= <-]).
      exists (mkSubplot pcols cols2 ti yi lbl), pcols. split; [done|].
      split; [exact (primary_part_iter _ _ _ _ Hp)|]. split; [done|].
      cbn [secondary_columns].
      unfold secondary_part in Hs. rewrite Hstr, Hiter in Hs.
      apply result_bind_ok in Hs as (n & Hn & Hs).
      destruct (decide (0 < n)%nat).
      - cbn [mbind result_bind] in Hs.
        apply result_bind_ok in Hs as (c2 & _ & Hs).
        apply result_bind_ok in Hs as (l2 & _ & [= -> _]). done.
      - injection Hs as <- _.
        destruct first as [| | |?|fl]; try discriminate.
        injection Hiter as <-. injection Hn as <-. destruct fl; simpl in *; [done | lia]. }
    destruct (remove_loop_spec _ _ _ Hloop) as [[-> ->]|(l & l' & -> & -> & Hrem)].
    + destruct (Hone s0 eq_refl) as (sp & pcols & -> & Hpi & Hp & Hs).
      exists sp. split; [done|]. rewrite Hs, Hp. split; [exact Hreq|].
      split; [by intros c ?%elem_of_nil|].
      intros l ->. injection Hpi as <-. split; [done | by left].
    + destruct (Hone (PList l') eq_refl) as (sp & pcols & -> & Hpi & Hp & Hs).
      injection Hpi as <-.
      destruct (remove_each_spec _ _ _ Hrem (Hdist l eq_refl)) as (Hsub & Hgone & Hkept).
      exists sp. split; [done|]. rewrite Hs, Hp. split; [exact Hreq|]. split; [done|].
      intros l0 [= <-]. done.
  - intros subl Hexp Hmany.
    destruct (plotter_ok_inv _ _ _ _ _ _ _ _ _ Hrun)
      as (nb & t & y & sl & subl' & secl & Hnorm & Hl1 & Hl2 & Hlen & Hdrawn).
    destruct (normalize_inv _ _ _ _ _ _ _ _ _ _ _ _ _ Hnorm)
      as (Hnb & _ & _ & _ & _ & Hplace).
    rewrite Hexp in Hnb, Hplace. injection Hnb as <-.
    rewrite place_secondary_multi in Hplace by done.
    apply result_bind_ok in Hplace as (secl' & _ & [= <- _]).
    apply drawn_inv in Hdrawn.
    apply Forall2_same_length_lookup. split; [by rewrite Hlen|].
    intros i s sp Hs Hsp.
    assert (Hseq : seq 0 (length subl) !! i = Some i).
    { apply lookup_seq. split; [done|]. by eapply lookup_lt_Some. }
    destruct (Forall2_lookup_lr _ _ _ _ _ _ Hdrawn Hseq Hsp)
      as (s' & sec & Hs' & _ & Hone).
    rewrite Hs in Hs'. injection Hs' as <-.
    apply subplot_of_inv in Hone as (ti & yi & Hp & _).
    exact (primary_part_iter _ _ _ _ Hp).
Qed.

Lemma single_subplot_secondary_disjoint_witness :
  (dataframe_plotter (DF data) (PStr "One plot example") (PStr "Fake data")
     (PBool false) (PStr "col3") (PStr "col3") "line" false).2 = Ok one_plot_example
  ∧ expand_subplots (frame_of (DF data)) (PBool false) = PList [PList (columns data)]
  ∧ py_distinct (columns data)
  ∧ ∃ sp, one_plot_example = [sp]
      ∧ (∀ cols, requests (PStr "col3") cols → secondary_columns sp = cols)
      ∧ (∀ c, c ∈ secondary_columns sp → ¬ py_elem c (primary_columns sp))
      ∧ (∀ l, PList (columns data) = PList l →
           primary_columns sp `sublist_of` l
           ∧ ∀ c, c ∈ l → c ∈ primary_columns sp ∨ py_elem c (secondary_columns sp)).
Proof.
  assert (Hd : py_distinct (columns data)).
  { unfold py_distinct. csimpl.
    repeat (apply NoDup_cons_2;
            [rewrite ?not_elem_of_cons; repeat split;
             (discriminate || apply not_elem_of_nil)|]).
    apply NoDup_nil_2. }
  split; [reflexivity|]. split; [reflexivity|]. split; [exact Hd|].
  apply (proj1 (single_subplot_secondary_disjoint (DF data) (PStr "One plot example")
                  (PStr "Fake data") (PBool false) (PStr "col3") (PStr "col3") "line"
                  false one_plot_example eq_refl) (PList (columns data))).
  - reflexivity.
  - reflexivity.
  - by intros l [= <-].
Defined.

(** C1 as stated fails with several subplots: the call of the module's own
    script, [subplots=True] with [secondary_y=['col1', 'col3']], is accepted
    and draws col1 on both axes of the first subplot. *)
Lemma several_subplots_secondary_kept_in_primary :
  (dataframe_plotter (DF data) (PStr "") (PList [PStr "col1"; PStr "col2"; PStr "col3"])
     (PBool true) (PList [PStr "col1"; PStr "col3"]) (PStr "") "line" false).2
  = Ok [mkSubplot [PStr "col1"] [PStr "col1"] (PStr "") (PStr "col1") (PStr "");
        mkSubplot [PStr "col2"] [PStr "col3"] (PStr "") (PStr "col2") (PStr "");
        mkSubplot [PStr "col3"] [] (PStr "") (PStr "col3") (PStr "")].
Proof. reflexivity. Qed.

(** One list of names passed both as [subplots[0]] and as [secondary_y[0]]:
    the iteration of line 166 skips every other name while line 167 shrinks
    the list, and the name that is left is drawn on both axes. *)
Example one_list_for_both_axes :
  (dataframe_plotter (DF data) (PStr "") (PStr "")
     (PList [PList [PStr "col1"; PStr "col2"; PStr "col3"]])
     (PList [PList [PStr "col1"; PStr "col2"; PStr "col3"]]) (PStr "") "line" true).2
  = Ok [mkSubplot [PStr "col2"] [PStr "col2"] (PStr "") (PStr "") (PStr "")]
  ∧ (dataframe_plotter (DF data) (PStr "") (PStr "")
       (PList [PList [PStr "col1"; PStr "col2"; PStr "col3"]])
       (PList [PList [PStr "col1"; PStr "col2"; PStr "col3"]]) (PStr "") "line" false).2
    = Ok [mkSubplot [] [PStr "col1"; PStr "col2"; PStr "col3"] (PStr "") (PStr "")
            (PStr "")].
Proof. split; reflexivity. Qed.

(** An overlay plot of one value per day fails inside
    [overlay_days_plotter]; a line plot of the same series is drawn. *)
Example overlay_of_daily_values :
  (dataframe_plotter (SER daily) (PStr "") (PStr "") (PBool false) (PBool false)
     (PStr "") "overlay" false).2 = Raise AttributeError
  ∧ (dataframe_plotter (SER daily) (PStr "") (PStr "") (PBool false) (PBool false)
       (PStr "") "line" false).2
    = Ok [mkSubplot [PStr "consumption"] [] (PStr "") (PStr "") (PStr "")].
Proof. split; reflexivity. Qed.

(** With several subplots, entries of [secondary_y] that are empty or name
    one known column are drawn where they stand, next to the primary
    columns the call without secondary columns draws. *)
Lemma multi_secondary (df : DfOrSeries)
    (title ylabel subplots secondary_ylabel : pyval) (plot_type : string)
    (same same0 : bool)
    (spec : pyval) (plan0 : PlotPlan) (secl1 : list pyval) (assigned : nat → list pyval) :
  (dataframe_plotter df title ylabel subplots (PBool false) secondary_ylabel plot_type
     same0).2 = Ok plan0 →
  (1 < length plan0)%nat → plot_type ≠ "bar" →
  day_plots_fit (frame_of df) plot_type →
  _str_to_sparse_list (expand_secondary_y spec) (length plan0) false = Ok secl1 →
  (∀ i sec, secl1 !! i = Some sec →
     (py_len sec = Ok 0%nat ∧ assigned i = [])
     ∨ (∃ s, py_in (PStr s) (columns (frame_of df)) = true ∧ names_column sec s
             ∧ assigned i = [PStr s])) →
  ∃ plan,
    (dataframe_plotter df title ylabel subplots spec secondary_ylabel plot_type same).2
      = Ok plan
    ∧ length plan = length plan0
    ∧ ∀ i sp0, plan0 !! i = Some sp0 →
        ∃ sp, plan !! i = Some sp ∧ primary_columns sp = primary_columns sp0
              ∧ secondary_columns sp = assigned i.
Proof.
  intros Hrun0 Hmany Hbar Hfit%day_plots_fit_drawing Hsparse Hentries.
  destruct (plotter_ok_inv _ _ _ _ _ _ _ _ _ Hrun0)
    as (nb & t & y & sl & subl & secl0 & Hnorm0 & Hl1 & Hl2 & Hlen & Hdrawn0).
  rewrite Hlen in *.
  destruct (normalize_inv _ _ _ _ _ _ _ _ _ _ _ _ _ Hnorm0)
    as (Hnb & Ht & Hy & Hsl & Hne & Hplace0).
  rewrite place_secondary_multi in Hplace0 by lia.
  apply result_bind_ok in Hplace0 as (secl0' & _ & [= Hexp _]).
  assert (Hnorm1 : normalize (frame_of df) title ylabel subplots spec secondary_ylabel same
                   = Ok (nb, t, y, sl, PList subl, PList secl1)).
  { apply normalize_intro; try done.
    rewrite place_secondary_multi by lia. rewrite Hsparse. cbn [mbind result_bind].
    by rewrite Hexp. }
  pose proof (sparse_list_length _ _ _ _ Hsparse) as Hlen1.
  pose proof (sparse_list_length _ _ _ _ Hsl) as Hlensl.
  apply drawn_inv in Hdrawn0.
  set (F := λ i, let sp0 := default no_subplot (plan0 !! i) in
                 mkSubplot (primary_columns sp0) (assigned i) (sp_title sp0)
                   (primary_label sp0)
                   (match assigned i with
                    | [] => PStr ""
                    | _ => default PNone (sl !! i)
                    end)).
  exists (F <$> seq 0 nb). split; [|split].
  - rewrite (plotter_drawn df _ _ _ _ _ _ plot_type _ _ _ _ _ _ Hnorm1) by lia.
    apply drawn_ok. intros i Hi%elem_of_seq.
    destruct (lookup_lt_is_Some_2 plan0 i) as [sp0 Hsp0]; [lia|].
    destruct (lookup_lt_is_Some_2 secl1 i) as [sec1 Hsec1]; [lia|].
    destruct (lookup_lt_is_Some_2 sl i) as [lbl Hlbl]; [lia|].
    assert (Hseq : seq 0 nb !! i = Some i) by (apply lookup_seq; lia).
    destruct (Forall2_lookup_lr _ _ _ _ _ _ Hdrawn0 Hseq Hsp0)
      as (s & sec0 & Hs & _ & Hone).
    apply subplot_of_inv in Hone as (ti & yi & Hp & _ & Hti & Hyi & Htitle & Hylabel).
    exists s, sec1. split; [done|]. split; [done|].
    unfold subplot_of. rewrite Hp. cbn [mbind result_bind].
    unfold F. rewrite Hsp0. cbn [default].
    destruct (Hentries i sec1 Hsec1) as [[Hempty ->]|(c & Hin & Hname & ->)].
    + rewrite secondary_part_empty by done. cbn [mbind result_bind].
      rewrite Hti, Hyi. cbn [mbind result_bind]. by subst ti yi.
    + rewrite (secondary_part_one _ _ _ _ c i lbl); try done.
      * cbn [mbind result_bind]. rewrite Hti, Hyi, Hlbl. cbn [mbind result_bind].
        by subst ti yi.
      * by apply drawing_frame_columns.
  - by rewrite length_fmap, length_seq.
  - intros i sp0 Hsp0. exists (F i).
    assert (i < nb)%nat by (apply lookup_lt_Some in Hsp0; lia).
    split; [by rewrite list_lookup_fmap, lookup_seq_lt by done|].
    unfold F. rewrite Hsp0. done.
Qed.

Lemma normalize_place_raise (frame : DataFrame)
    (title ylabel subplots secondary_y secondary_ylabel : pyval) (same : bool) nb t y sl e :
  py_len (expand_subplots frame subplots) = Ok nb →
  _str_to_sparse_list title nb false = Ok t →
  _str_to_sparse_list ylabel nb false = Ok y →
  _str_to_sparse_list secondary_ylabel nb false = Ok sl →
  nb ≠ 0%nat →
  place_secondary nb (expand_subplots frame subplots) (expand_secondary_y secondary_y) same
    = Raise e →
  normalize frame title ylabel subplots secondary_y secondary_ylabel same = Raise e.
Proof.
  intros Hnb Ht Hy Hsl Hne Hplace. unfold normalize.
  rewrite Hnb. cbn [mbind result_bind]. rewrite Ht, Hy, Hsl. cbn [mbind result_bind].
  unfold plt_subplots. rewrite decide_False by done. cbn [mbind result_bind].
  by rewrite Hplace.
Qed.

Lemma sparse_list_names (names : list string) (nb : nat) :
  _str_to_sparse_list (PList (PStr <$> names)) nb false
  = if decide (length names ≤ nb)%nat
    then Ok ((PStr <$> names) ++ replicate (nb - length names) (PStr ""))
    else Raise IndexError.
Proof.
  rewrite sparse_list_of_list, length_fmap.
  destruct (decide (length names ≤ nb)%nat); [|done].
  by rewrite (list_fmap_ext (sparse_entry false) id (PStr <$> names) (λ _ _ _, eq_refl)),
       list_fmap_id.
Qed.

(** C3, amended.  When the subplot specification (accepted without secondary
    columns) yields more than one subplot, a [secondary_y] given as a list
    of strings is not rejected as ambiguous: the names are taken position by
    position, the i-th name (unless it is the empty string) becoming the one
    secondary column of subplot i, for a plot type other than "bar", names
    of columns of the table and a table that fits the day plots (for an
    overlay plot it is empty or some timestamp is not at midnight, for an
    average plot no column label is repeated); the primary columns are those
    of the call without secondary columns.  The call fails, with
    [IndexError], when the list is longer than the number of subplots.  A
    single string becomes the secondary column of the first subplot. *)
Theorem secondary_strings_positional (df : DfOrSeries)
    (title ylabel subplots secondary_ylabel : pyval) (plot_type : string)
    (same_list : bool) (names : list string) (plan0 : PlotPlan) :
  (dataframe_plotter df title ylabel subplots (PBool false) secondary_ylabel plot_type
     same_list).2 = Ok plan0 →
  (1 < length plan0)%nat →
  ((length names ≤ length plan0)%nat → plot_type ≠ "bar" →
   day_plots_fit (frame_of df) plot_type →
   Forall (λ s, py_in (PStr s) (columns (frame_of df)) = true) names →
   ∃ plan,
     (dataframe_plotter df title ylabel subplots (PList (PStr <$> names))
        secondary_ylabel plot_type same_list).2 = Ok plan
     ∧ length plan = length plan0
     ∧ ∀ i sp0, plan0 !! i = Some sp0 →
         ∃ sp, plan !! i = Some sp ∧ primary_columns sp = primary_columns sp0
               ∧ secondary_columns sp = positional names i)
  ∧ ((length plan0 < length names)%nat →
     (dataframe_plotter df title ylabel subplots (PList (PStr <$> names))
        secondary_ylabel plot_type same_list).2 = Raise IndexError)
  ∧ (∀ s, plot_type ≠ "bar" → day_plots_fit (frame_of df) plot_type →
     py_in (PStr s) (columns (frame_of df)) = true →
     ∃ plan,
       (dataframe_plotter df title ylabel subplots (PStr s) secondary_ylabel plot_type
          same_list).2 = Ok plan
       ∧ length plan = length plan0
       ∧ ∀ i sp0, plan0 !! i = Some sp0 →
           ∃ sp, plan !! i = Some sp ∧ primary_columns sp = primary_columns sp0
                 ∧ secondary_columns sp = if decide (i = 0%nat) then [PStr s] else []).
Proof.
  intros Hrun0 Hmany. split; [|split].
  - intros Hlen Hbar Hfit Hknown.
    apply (multi_secondary df title ylabel subplots secondary_ylabel plot_type
             same_list same_list (PList (PStr <$> names)) plan0
             ((PStr <$> names) ++ replicate (length plan0 - length names) (PStr ""))
             (positional names)); try done.
    + rewrite expand_secondary_y_list, sparse_list_names. by rewrite decide_True.
    + intros i sec Hsec. unfold positional.
      destruct (names !! i) as [s|] eqn:Hs.
      * rewrite lookup_app_l in Hsec
          by (rewrite length_fmap; by eapply lookup_lt_Some).
        rewrite list_lookup_fmap, Hs in Hsec. injection Hsec as <-.
        destruct (decide (s = "")) as [->|Hne]; [by left|].
        right. exists s. split; [|split; [by left | done]].
        rewrite Forall_forall in Hknown. apply Hknown.
        by eapply list_elem_of_lookup_2.
      * apply lookup_ge_None in Hs.
        rewrite lookup_app_r in Hsec by (by rewrite length_fmap).
        apply lookup_replicate in Hsec as [-> _]. by left.
  - intros Hlen.
    destruct (plotter_ok_inv _ _ _ _ _ _ _ _ _ Hrun0)
      as (nb & t & y & sl & subl & secl0 & Hnorm0 & _ & _ & Hnb & _).
    destruct (normalize_inv _ _ _ _ _ _ _ _ _ _ _ _ _ Hnorm0)
      as (Hlen0 & Ht & Hy & Hsl & Hne & _).
    rewrite (plotter_normalize_raise df _ _ _ _ _ _ plot_type IndexError); [done|].
    apply (normalize_place_raise _ _ _ _ _ _ _ nb t y sl); try done.
    rewrite place_secondary_multi by lia.
    rewrite expand_secondary_y_list, sparse_list_names.
    by rewrite decide_False by lia.
  - intros s Hbar Hfit Hknown.
    apply (multi_secondary df title ylabel subplots secondary_ylabel plot_type
             same_list same_list (PStr s) plan0
             (PList [PStr s] :: replicate (length plan0 - 1) (PStr ""))
             (λ i, if decide (i = 0%nat) then [PStr s] else [])); try done.
    + change (expand_secondary_y (PStr s)) with (PList [PList [PStr s]]).
      rewrite sparse_list_of_list. by rewrite decide_True by (simpl; lia).
    + intros [|i] sec Hsec.
      * injection Hsec as <-. right. exists s. split; [done|]. split; [by right | done].
      * apply lookup_replicate in Hsec as [-> _]. by left.
Qed.

Lemma secondary_strings_positional_witness :
  (dataframe_plotter (DF data) (PStr "") (PStr "") (PBool true) (PBool false)
     (PStr "") "overlay" false).2 = Ok three_plots
  ∧ (1 < length three_plots)%nat
  ∧ day_plots_fit (frame_of (DF data)) "overlay"
  ∧ ∃ plan,
      (dataframe_plotter (DF data) (PStr "") (PStr "") (PBool true)
         (PList (PStr <$> ["col1"; "col3"])) (PStr "") "overlay" false).2 = Ok plan
      ∧ length plan = length three_plots
      ∧ ∀ i sp0, three_plots !! i = Some sp0 →
          ∃ sp, plan !! i = Some sp ∧ primary_columns sp = primary_columns sp0
                ∧ secondary_columns sp = positional ["col1"; "col3"] i.
Proof.
  assert (Hmany : (1 < length three_plots)%nat) by (simpl; lia).
  assert (Hfit : day_plots_fit (frame_of (DF data)) "overlay").
  { split; [intros _; by right | discriminate]. }
  split; [reflexivity|]. split; [exact Hmany|]. split; [exact Hfit|].
  apply (proj1 (secondary_strings_positional (DF data) (PStr "") (PStr "") (PBool true)
                  (PStr "") "overlay" false ["col1"; "col3"] three_plots eq_refl Hmany)).
  - simpl; lia.
  - discriminate.
  - exact Hfit.
  - by repeat constructor.
Defined.

(** C3 as stated fails: with three subplots both a list of strings and a
    single string are accepted. *)
Lemma secondary_strings_with_three_subplots :
  ¬ fails (dataframe_plotter (DF data) (PStr "") (PStr "") (PBool true)
             (PList [PStr "col2"; PStr "col3"]) (PStr "") "line" false).2
  ∧ ¬ fails (dataframe_plotter (DF data) (PStr "") (PStr "") (PBool true)
               (PStr "col3") (PStr "") "line" false).2.
Proof. split; intros [e He]; discriminate. Qed.

(** ** The caller's table *)

Lemma plotter_series_unchanged (s : Series)
    (title ylabel subplots secondary_y secondary_ylabel : pyval) (same : bool)
    (plot_type : string) :
  (dataframe_plotter (SER s) title ylabel subplots secondary_y secondary_ylabel
     plot_type same).1 = SER s.
Proof.
  unfold dataframe_plotter. by destruct (normalize _ _ _ _ _ _) as [[[[[[? ?] ?] ?] ?] ?]|].
Qed.

Lemma plotter_unchanged_unless_bar (df : DfOrSeries)
    (title ylabel subplots secondary_y secondary_ylabel : pyval) (same : bool)
    (plot_type : string) :
  plot_type ≠ "bar" →
  (dataframe_plotter df title ylabel subplots secondary_y secondary_ylabel
     plot_type same).1 = df.
Proof.
  intros Hbar%String.eqb_neq. unfold dataframe_plotter. rewrite Hbar.
  destruct (normalize _ _ _ _ _ _) as [[[[[[? ?] ?] ?] ?] ?]|]; [|done].
  by destruct df.
Qed.

(** C4.  A bar plot of a DataFrame writes to the caller's table: line 172
    assigns the helper column [x_axis] on [df] itself, so after the call the
    table has one column more than before.  (A Series is copied into a fresh
    frame first, and the other plot types, [filter_days] and
    [average_day_plotter] write to frames of their own.) *)
Theorem bar_plot_adds_column_to_caller :
  (dataframe_plotter (DF data) (PStr "") (PStr "") (PBool true) (PBool false)
     (PStr "") "bar" false).1
  = DF {| columns := [PStr "col1"; PStr "col2"; PStr "col3"; PStr "x_axis"];
          rows := [(mkTimestamp 1990 2 15 0 0 0 0 0, [0; 0; 0; 0]%Q);
                   (mkTimestamp 1990 2 15 1 0 0 0 0, [1; 1 # 10; 1 # 700; 1]%Q)] |}
  ∧ (dataframe_plotter (DF data) (PStr "") (PStr "") (PBool true) (PBool false)
       (PStr "") "bar" false).1 ≠ DF data.
Proof. split; [reflexivity | discriminate]. Qed.

(** ** [dataframe_plotter]: what an accepted call has drawn *)

Lemma frame_getitem_str (d : DataFrame) (s : string) :
  frame_getitem d (PStr s) = Ok () → PStr s ∈ columns d.
Proof.
  unfold frame_getitem. destruct (py_in (PStr s) (columns d)) eqn:E; [|discriminate].
  intros _. apply existsb_exists in E as (c & Hc & Heq).
  apply py_eqb_canon in Heq. symmetry in Heq. apply canon_str in Heq as ->.
  by apply list_elem_of_In.
Qed.

Lemma draw_primary_inv (d : DataFrame) (pt : string) (colors colors' : list string)
    (col : pyval) :
  draw_primary d pt colors col = Ok colors' →
  frame_getitem d col = Ok ()
  ∧ (pops_colors pt = true → length colors = S (length colors'))
  ∧ (pops_colors pt = false → colors' = colors).
Proof.
  unfold draw_primary, pops_colors.
  destruct (frame_getitem d col) as [[]|e]; cbn [mbind result_bind];
    [|by destruct (pt =? "overlay")%string, (pt =? "average")%string,
                  (pt =? "bar")%string].
  destruct (pt =? "overlay")%string; cbn [orb].
  { destruct colors as [|c0 colors]; cbn [pop0 mbind result_bind]; [done|].
    destruct (overlay_call _ _) as [[]|]; cbn [mbind result_bind]; [|done].
    intros [= <-]. by repeat split. }
  destruct (pt =? "average")%string; cbn [orb].
  { destruct colors as [|c0 colors]; cbn [pop0 mbind result_bind]; [done|].
    destruct (average_call _) as [[]|]; cbn [mbind result_bind]; [|done].
    intros [= <-]. by repeat split. }
  destruct (pt =? "bar")%string.
  - destruct colors as [|c0 colors]; cbn [pop0]; [done|].
    intros [= <-]. by repeat split.
  - intros [= <-]. by repeat split.
Qed.

Lemma draw_primary_all (d : DataFrame) (pt : string) (cols : list pyval) :
  ∀ colors colors', for_each (draw_primary d pt) cols colors = Ok colors' →
  (∀ col, col ∈ cols → frame_getitem d col = Ok ())
  ∧ (pops_colors pt = true → (length cols ≤ length colors)%nat).
Proof.
  induction cols as [|col cols IH]; intros colors colors' H.
  - split; [by intros col ?%elem_of_nil | simpl; lia].
  - cbn [for_each] in H. apply result_bind_ok in H as (c1 & H1 & H2).
    apply draw_primary_inv in H1 as (Hget & Hpop & _).
    destruct (IH _ _ H2) as [IH1 IH2]. split.
    + intros col' [->|Hin]%elem_of_cons; [done | by apply IH1].
    + intros Hp. specialize (Hpop Hp). specialize (IH2 Hp). simpl. lia.
Qed.

Lemma draw_secondary_inv (d : DataFrame) (pt : string) (colors colors' : list string)
    (col : pyval) :
  draw_secondary d pt colors col = Ok colors' →
  frame_getitem d col = Ok () ∧ pt ≠ "bar"
  ∧ (pops_colors pt = true → length colors = S (length colors')).
Proof.
  unfold draw_secondary, pops_colors.
  destruct (String.eqb_spec pt "bar") as [->|Hbar].
  { cbn. discriminate. }
  destruct (frame_getitem d col) as [[]|e]; cbn [mbind result_bind];
    [|by destruct (pt =? "overlay")%string, (pt =? "average")%string].
  destruct (pt =? "overlay")%string; cbn [orb].
  { destruct colors as [|c0 colors]; cbn [pop0 mbind result_bind]; [done|].
    destruct (overlay_call _ _) as [[]|]; cbn [mbind result_bind]; [|done].
    intros [= <-]. by repeat split. }
  destruct (pt =? "average")%string; cbn [orb].
  { destruct colors as [|c0 colors]; cbn [pop0 mbind result_bind]; [done|].
    destruct (average_call _) as [[]|]; cbn [mbind result_bind]; [|done].
    intros [= <-]. by repeat split. }
  intros [= <-]. by repeat split.
Qed.

Lemma draw_secondary_all (d : DataFrame) (pt : string) (cols : list pyval) :
  ∀ colors colors', for_each (draw_secondary d pt) cols colors = Ok colors' →
  (∀ col, col ∈ cols → frame_getitem d col = Ok ())
  ∧ (cols ≠ [] → pt ≠ "bar")
  ∧ (pops_colors pt = true → (length cols ≤ length colors)%nat).
Proof.
  induction cols as [|col cols IH]; intros colors colors' H.
  - split; [by intros col ?%elem_of_nil|]. split; [done | simpl; lia].
  - cbn [for_each] in H. apply result_bind_ok in H as (c1 & H1 & H2).
    apply draw_secondary_inv in H1 as (Hget & Hbar & Hpop).
    destruct (IH _ _ H2) as (IH1 & _ & IH3). split; [|split; [done|]].
    + intros col' [->|Hin]%elem_of_cons; [done | by apply IH1].
    + intros Hp. specialize (Hpop Hp). specialize (IH3 Hp). simpl. lia.
Qed.

Lemma primary_part_inv (d : DataFrame) (pt : string) (s : pyval) (cols : list pyval) :
  primary_part d pt s = Ok cols →
  py_iter (if py_is_str s then PList [s] else s) = Ok cols
  ∧ succeeds (for_each (draw_primary d pt) cols primary_colors).
Proof.
  unfold primary_part. intros H.
  apply result_bind_ok in H as ([] & _ & H).
  apply result_bind_ok in H as (cols' & Hiter & H).
  apply result_bind_ok in H as (c & Hdraw & [= <-]).
  split; [done | by exists c].
Qed.

Lemma secondary_part_inv (d : DataFrame) (pt : string) (sl : list pyval) (sec : pyval)
    (i : nat) (cols2 : list pyval) (lbl : pyval) :
  secondary_part d pt sl sec i = Ok (cols2, lbl) →
  (cols2 = [] ∧ lbl = PStr "" ∧ py_len sec = Ok 0%nat)
  ∨ (cols2 ≠ [] ∧ py_iter (if py_is_str sec then PList [sec] else sec) = Ok cols2
     ∧ succeeds (for_each (draw_secondary d pt) cols2 secondary_colors)
     ∧ sl !! i = Some lbl).
Proof.
  unfold secondary_part. intros H.
  apply result_bind_ok in H as (n & Hn & H).
  destruct (decide (0 < n)%nat) as [Hpos|Hzero].
  - right.
    apply result_bind_ok in H as (cols' & Hiter & H).
    apply result_bind_ok in H as (c & Hdraw & H).
    apply result_bind_ok in H as (l2 & Hl2 & [= <- <-]).
    split; [|split; [done|split; [by exists c|]]].
    + destruct sec as [| | |s|l]; try discriminate; cbn in Hiter, Hn.
      * by injection Hiter as <-.
      * injection Hiter as <-. injection Hn as <-. destruct l; simpl in *; [lia | done].
    + unfold list_getitem in Hl2. destruct (sl !! i); congruence.
  - left. injection H as <- <-. repeat split. rewrite Hn. f_equal. lia.
Qed.

(** Every subplot of an accepted plan comes from [subplot_of]. *)
Lemma plotter_plan_inv (df : DfOrSeries)
    (title ylabel subplots secondary_y secondary_ylabel : pyval) (plot_type : string)
    (same_list : bool) (plan : PlotPlan) :
  (dataframe_plotter df title ylabel subplots secondary_y secondary_ylabel plot_type
     same_list).2 = Ok plan →
  ∃ nb t y sl subl secl,
    normalize (frame_of df) title ylabel subplots secondary_y secondary_ylabel same_list
      = Ok (nb, t, y, sl, PList subl, PList secl)
    ∧ length plan = nb
    ∧ ∀ i sp, plan !! i = Some sp →
        ∃ s sec, subl !! i = Some s ∧ secl !! i = Some sec
          ∧ subplot_of (drawing_frame (frame_of df) plot_type) plot_type t y sl s sec i
            = Ok sp.
Proof.
  intros Hrun.
  destruct (plotter_ok_inv _ _ _ _ _ _ _ _ _ Hrun)
    as (nb & t & y & sl & subl & secl & Hnorm & Hl1 & Hl2 & Hlen & Hdrawn).
  exists nb, t, y, sl, subl, secl. split; [done|]. split; [done|].
  intros i sp Hsp. apply drawn_inv in Hdrawn.
  destruct (Forall2_lookup_r _ _ _ _ _ Hdrawn Hsp) as (j & Hj & s & sec & Hs & Hsec & Hone).
  apply lookup_seq in Hj as [-> _]. by exists s, sec.
Qed.

(** X18.  An accepted call has drawn known columns only: every primary and
    secondary column of the plan can be read from the table (in a bar plot,
    the table with the helper column [x_axis]); a column given by name is
    one of the table's columns. *)
Theorem plotter_draws_known_columns (df : DfOrSeries)
    (title ylabel subplots secondary_y secondary_ylabel : pyval) (plot_type : string)
    (same_list : bool) (plan : PlotPlan) :
  (dataframe_plotter df title ylabel subplots secondary_y secondary_ylabel plot_type
     same_list).2 = Ok plan →
  ∀ sp c, sp ∈ plan → c ∈ primary_columns sp ++ secondary_columns sp →
    frame_getitem (drawing_frame (frame_of df) plot_type) c = Ok ()
    ∧ ∀ s, c = PStr s → PStr s ∈ columns (drawing_frame (frame_of df) plot_type).
Proof.
  intros Hrun sp c Hsp Hc.
  destruct (plotter_plan_inv _ _ _ _ _ _ _ _ _ Hrun)
    as (nb & t & y & sl & subl & secl & _ & _ & Hplan).
  apply list_elem_of_lookup in Hsp as [i Hi].
  destruct (Hplan i sp Hi) as (s & sec & _ & _ & Hone).
  apply subplot_of_inv in Hone as (ti & yi & Hp & Hs & _).
  assert (Hget : frame_getitem (drawing_frame (frame_of df) plot_type) c = Ok ()).
  { apply elem_of_app in Hc as [Hc|Hc].
    - apply primary_part_inv in Hp as (_ & c' & Hdraw).
      by apply (proj1 (draw_primary_all _ _ _ _ _ Hdraw)).
    - apply secondary_part_inv in Hs as [(Hnil & _)|(_ & _ & [c' Hdraw] & _)].
      + rewrite Hnil in Hc. by apply elem_of_nil in Hc.
      + by apply (proj1 (draw_secondary_all _ _ _ _ _ Hdraw)). }
  split; [done|]. intros s' ->. by apply frame_getitem_str.
Qed.

Lemma plotter_draws_known_columns_witness :
  (dataframe_plotter (DF data) (PStr "One plot example") (PStr "Fake data")
     (PBool false) (PStr "col3") (PStr "col3") "line" false).2 = Ok one_plot_example
  ∧ PStr "col3" ∈ columns (drawing_frame (frame_of (DF data)) "line").
Proof.
  split; [reflexivity|].
  refine (proj2 (plotter_draws_known_columns (DF data) (PStr "One plot example")
                   (PStr "Fake data") (PBool false) (PStr "col3") (PStr "col3") "line"
                   false one_plot_example eq_refl
                   (mkSubplot [PStr "col1"; PStr "col2"] [PStr "col3"]
                      (PStr "One plot example") (PStr "Fake data") (PStr "col3"))
                   (PStr "col3") _ _) "col3" eq_refl).
  - by left.
  - cbn [primary_columns secondary_columns app]. by do 2 right; left.
Defined.

(** X19.  A bar plot has no right axis: an accepted call with
    [plot_type='bar'] has drawn no secondary column, since any secondary
    column makes the call fail. *)
Theorem bar_plot_has_no_secondary (df : DfOrSeries)
    (title ylabel subplots secondary_y secondary_ylabel : pyval) (same_list : bool)
    (plan : PlotPlan) :
  (dataframe_plotter df title ylabel subplots secondary_y secondary_ylabel "bar"
     same_list).2 = Ok plan →
  ∀ sp, sp ∈ plan → secondary_columns sp = [].
Proof.
  intros Hrun sp Hsp.
  destruct (plotter_plan_inv _ _ _ _ _ _ _ _ _ Hrun)
    as (nb & t & y & sl & subl & secl & _ & _ & Hplan).
  apply list_elem_of_lookup in Hsp as [i Hi].
  destruct (Hplan i sp Hi) as (s & sec & _ & _ & Hone).
  apply subplot_of_inv in Hone as (ti & yi & _ & Hs & _).
  apply secondary_part_inv in Hs as [(Hnil & _)|(Hne & _ & [c' Hdraw] & _)]; [done|].
  by destruct (proj1 (proj2 (draw_secondary_all _ _ _ _ _ Hdraw)) Hne).
Qed.

Lemma bar_plot_has_no_secondary_witness :
  (dataframe_plotter (DF data) (PStr "") (PStr "") (PBool true) (PBool false)
     (PStr "") "bar" false).2 = Ok three_plots
  ∧ secondary_columns (mkSubplot [PStr "col1"] [] (PStr "") (PStr "") (PStr "")) = [].
Proof.
  split; [reflexivity|].
  apply (bar_plot_has_no_secondary (DF data) (PStr "") (PStr "") (PBool true)
           (PBool false) (PStr "") false three_plots eq_refl).
  by left.
Defined.

(** X20.  The plot types that take a colour from the fixed lists for every
    column (overlay, average, bar) cannot draw more columns than there are
    colours: in an accepted plan every subplot has at most 13 primary and at
    most 6 secondary columns. *)
Theorem plotter_color_limits (df : DfOrSeries)
    (title ylabel subplots secondary_y secondary_ylabel : pyval) (plot_type : string)
    (same_list : bool) (plan : PlotPlan) :
  pops_colors plot_type = true →
  (dataframe_plotter df title ylabel subplots secondary_y secondary_ylabel plot_type
     same_list).2 = Ok plan →
  ∀ sp, sp ∈ plan →
    (length (primary_columns sp) ≤ 13)%nat ∧ (length (secondary_columns sp) ≤ 6)%nat.
Proof.
  intros Hpop Hrun sp Hsp.
  destruct (plotter_plan_inv _ _ _ _ _ _ _ _ _ Hrun)
    as (nb & t & y & sl & subl & secl & _ & _ & Hplan).
  apply list_elem_of_lookup in Hsp as [i Hi].
  destruct (Hplan i sp Hi) as (s & sec & _ & _ & Hone).
  apply subplot_of_inv in Hone as (ti & yi & Hp & Hs & _). split.
  - apply primary_part_inv in Hp as (_ & c' & Hdraw).
    exact (proj2 (draw_primary_all _ _ _ _ _ Hdraw) Hpop).
  - apply secondary_part_inv in Hs as [(-> & _)|(_ & _ & [c' Hdraw] & _)]; [simpl; lia|].
    exact (proj2 (proj2 (draw_secondary_all _ _ _ _ _ Hdraw)) Hpop).
Qed.

Lemma plotter_color_limits_witness :
  pops_colors "overlay" = true
  ∧ (dataframe_plotter (DF data) (PStr "") (PStr "") (PBool true) (PBool false)
       (PStr "") "overlay" false).2 = Ok three_plots
  ∧ (length (primary_columns (mkSubplot [PStr "col1"] [] (PStr "") (PStr "") (PStr "")))
     ≤ 13)%nat.
Proof.
  split; [reflexivity|]. split; [reflexivity|].
  apply (plotter_color_limits (DF data) (PStr "") (PStr "") (PBool true) (PBool false)
           (PStr "") "overlay" false three_plots eq_refl eq_refl).
  by left.
Defined.

(** ** [dataframe_plotter]: one list for both axes *)

Lemma list_remove_at (pre l : list pyval) (c : pyval) :
  py_distinct (pre ++ c :: l) → list_remove c (pre ++ c :: l) = Ok (pre ++ l).
Proof.
  unfold py_distinct. induction pre as [|x pre IH]; csimpl; intros Hnd.
  - by rewrite py_eqb_refl.
  - apply NoDup_cons in Hnd as [Hx Hnd].
    assert (E : py_eqb x c = false).
    { apply py_eqb_false. intros Heq. apply Hx. rewrite Heq, fmap_app, fmap_cons.
      apply elem_of_app. right. by left. }
    rewrite E, (IH Hnd). done.
Qed.

(** On a list of distinct names the loop removes the names at the even
    positions and leaves the others. *)
Lemma remove_while_iterating_distinct (n : nat) : ∀ pre l,
  py_distinct (pre ++ l) → (length l ≤ n)%nat →
  remove_while_iterating n (length pre) (pre ++ l) = Ok (pre ++ every_other l).
Proof.
  induction n as [|n IH]; intros pre l Hnd Hlen.
  - destruct l; simpl in Hlen; [done | lia].
  - cbn [remove_while_iterating]. destruct l as [|a [|b l]].
    + rewrite lookup_ge_None_2 by (rewrite length_app; simpl; lia). done.
    + rewrite list_lookup_middle by done.
      rewrite (list_remove_at pre [] a Hnd). cbn [mbind result_bind every_other].
      rewrite app_nil_r.
      destruct n; cbn [remove_while_iterating]; [done|].
      by rewrite lookup_ge_None_2 by lia.
    + rewrite list_lookup_middle by done.
      rewrite (list_remove_at pre (b :: l) a Hnd). cbn [mbind result_bind every_other].
      assert (Hnd' : py_distinct ((pre ++ [b]) ++ l)).
      { rewrite <-app_assoc. cbn [app]. unfold py_distinct in *.
        rewrite fmap_app, fmap_cons in Hnd. rewrite fmap_app.
        apply NoDup_app in Hnd as (H1 & H2 & H3). apply NoDup_app.
        apply NoDup_cons in H3 as [_ H3]. split; [done|]. split; [|done].
        intros x Hx Hin. apply (H2 x Hx). by right. }
      specialize (IH (pre ++ [b]) l Hnd').
      rewrite length_app in IH. cbn [length] in IH.
      replace (length pre + 1)%nat with (S (length pre)) in IH by lia.
      rewrite <-app_assoc in IH. cbn [app] in IH.
      rewrite IH by (simpl in Hlen; lia). by rewrite <-app_assoc.
Qed.

Lemma place_secondary_one_list (l rest : list pyval) :
  py_distinct l →
  place_secondary 1 (PList [PList l]) (PList (PList l :: rest)) true
  = Ok (PList [PList (every_other l)], PList (PList (every_other l) :: rest)).
Proof.
  intros Hnd. unfold place_secondary. rewrite decide_True by done.
  cbn [py_getitem lookup list_lookup py_is_str mbind result_bind shared_list].
  rewrite (proj2 (pyval_beq_eq (PList l) (PList l)) eq_refl).
  pose proof (remove_while_iterating_distinct (length l) [] l Hnd (le_n _)) as Hloop.
  cbn [length app] in Hloop. rewrite Hloop.
  cbn [mbind result_bind py_setitem length].
  rewrite !decide_True by lia. done.
Qed.

(** X21.  One list of distinct names passed both as [subplots[0]] and as
    [secondary_y[0]] (one object): line 167 shrinks the list that line 166
    iterates, so that only the names at positions 0, 2, 4, ... are removed,
    and in an accepted call the names that are left, those at positions 1,
    3, 5, ..., are drawn on both axes. *)
Theorem one_list_on_both_axes (df : DfOrSeries) (title ylabel secondary_ylabel : pyval)
    (plot_type : string) (l rest : list pyval) (plan : PlotPlan) :
  py_distinct l →
  (dataframe_plotter df title ylabel (PList [PList l]) (PList (PList l :: rest))
     secondary_ylabel plot_type true).2 = Ok plan →
  ∃ sp, plan = [sp]
    ∧ primary_columns sp = every_other l
    ∧ secondary_columns sp = every_other l.
Proof.
  intros Hnd Hrun.
  destruct (plotter_ok_normalize _ _ _ _ _ _ _ _ _ Hrun)
    as (nb & t & y & sl & subs & secs & Hnorm).
  destruct (normalize_inv _ _ _ _ _ _ _ _ _ _ _ _ _ Hnorm)
    as (Hnb & _ & _ & _ & _ & Hplace).
  change (expand_subplots (frame_of df) (PList [PList l])) with (PList [PList l])
    in Hnb, Hplace.
  injection Hnb as <-. cbn [length] in *.
  rewrite expand_secondary_y_list, (place_secondary_one_list l rest Hnd) in Hplace.
  injection Hplace as <- <-.
  rewrite (plotter_drawn df _ _ _ _ _ _ plot_type _ _ _ _ _ _ Hnorm) in Hrun;
    [|done|simpl; lia].
  cbn [seq drawn list_getitem lookup list_lookup mbind result_bind] in Hrun.
  apply result_bind_ok in Hrun as (sp & Hsp & [= <-]).
  apply subplot_of_inv in Hsp as (ti & yi & Hp & Hs & _).
  exists sp. split; [done|].
  apply primary_part_inv in Hp as [Hp _]. injection Hp as Hp. split; [done|].
  apply secondary_part_inv in Hs as [(-> & _ & Hlen)|(_ & Hiter & _)].
  - injection Hlen as Hlen. by destruct (every_other l).
  - by injection Hiter.
Qed.

Lemma one_list_on_both_axes_witness :
  py_distinct [PStr "col1"; PStr "col2"; PStr "col3"]
  ∧ (dataframe_plotter (DF data) (PStr "") (PStr "")
       (PList [PList [PStr "col1"; PStr "col2"; PStr "col3"]])
       (PList [PList [PStr "col1"; PStr "col2"; PStr "col3"]]) (PStr "") "line" true).2
    = Ok [mkSubplot [PStr "col2"] [PStr "col2"] (PStr "") (PStr "") (PStr "")]
  ∧ ∃ sp, [mkSubplot [PStr "col2"] [PStr "col2"] (PStr "") (PStr "") (PStr "")] = [sp]
      ∧ primary_columns sp = [PStr "col2"]
      ∧ secondary_columns sp = [PStr "col2"].
Proof.
  assert (Hd : py_distinct [PStr "col1"; PStr "col2"; PStr "col3"]).
  { unfold py_distinct. csimpl.
    repeat (apply NoDup_cons_2;
            [rewrite ?not_elem_of_cons; repeat split;
             (discriminate || apply not_elem_of_nil)|]).
    apply NoDup_nil_2. }
  split; [exact Hd|]. split; [reflexivity|].
  exact (one_list_on_both_axes (DF data) (PStr "") (PStr "") (PStr "") "line"
           [PStr "col1"; PStr "col2"; PStr "col3"] []
           [mkSubplot [PStr "col2"] [PStr "col2"] (PStr "") (PStr "") (PStr "")]
           Hd eq_refl).
Defined.
